(** * MeetingMaster: the transcript pipeline

    A shallow embedding of the transcript pipeline of the MeetingMaster
    server and the properties of its normalizer, summarization client,
    entity derivation and persistence orchestration.  The code embedded is
    that of server/lib/transcript-handler.ts (line numbers in the comments
    are those of this file; the summarization client of lib/openai.ts
    follows it there from line 596 on), of the routes and the storage class
    (registerRoutes, DatabaseStorage) and of the schema
    (shared/schema.ts).

    Conventions of the embedding.
    - JavaScript strings are [string]s of 7-bit code units; [toLowerCase],
      [toUpperCase] and [trim] are the ECMAScript functions restricted to
      that range.
    - Database tables are lists of rows in insertion order; a [serial]
      column is a counter kept next to the table.  The [createdAt] columns
      (filled by the database, read nowhere in the pipeline) are left out.
    - Asynchronous code is run sequentially: a computation is a function
      from the world to an outcome (a value or a thrown exception) and the
      world after it.  Writes made before an exception stay.
    - Identities and the other integer columns are natural numbers.  The
      columns are 32-bit integers ([integer], [serial]), and the database
      refuses a value above 2147483647 with an error; this refusal is not
      part of the embedding, and the statements about requests that carry
      an identity are made for identities within that range ([inInt4]). *)

From Stdlib Require Import List String Ascii Bool Arith ZArith Lia Permutation.
Import ListNotations.
Local Open Scope string_scope.
Local Open Scope list_scope.
Local Open Scope nat_scope.

Set Implicit Arguments.

(** ** ECMAScript string functions used by the pipeline *)

Module JS.

Infix "^" := String.append (at level 30, right associativity) : string_scope.

(** The line feed, written ['\n'] in the source. *)
Definition LF : ascii := ascii_of_nat 10.
Definition nl : string := String LF EmptyString.

(** The double quote. *)
Definition DQ : ascii := ascii_of_nat 34.

Definition truthy (s : string) : bool :=
  match s with EmptyString => false | String _ _ => true end.

Definition is_upper (c : ascii) : bool :=
  let n := nat_of_ascii c in (65 <=? n) && (n <=? 90).

Definition is_lower (c : ascii) : bool :=
  let n := nat_of_ascii c in (97 <=? n) && (n <=? 122).

Definition lower_char (c : ascii) : ascii :=
  if is_upper c then ascii_of_nat (nat_of_ascii c + 32) else c.

Definition upper_char (c : ascii) : ascii :=
  if is_lower c then ascii_of_nat (nat_of_ascii c - 32) else c.

Fixpoint map_chars (f : ascii -> ascii) (s : string) : string :=
  match s with
  | EmptyString => EmptyString
  | String c s' => String (f c) (map_chars f s')
  end.

Definition toLowerCase : string -> string := map_chars lower_char.
Definition toUpperCase : string -> string := map_chars upper_char.

(** [s.includes(sub)] *)
Fixpoint includes (s sub : string) : bool :=
  String.prefix sub s ||
  match s with
  | EmptyString => false
  | String _ s' => includes s' sub
  end.

(** White space of [String.prototype.trim] below U+0080. *)
Definition is_space (c : ascii) : bool :=
  let n := nat_of_ascii c in
  (n =? 9) || (n =? 10) || (n =? 11) || (n =? 12) || (n =? 13) || (n =? 32).

Fixpoint trimStart (s : string) : string :=
  match s with
  | EmptyString => EmptyString
  | String c s' => if is_space c then trimStart s' else s
  end.

Fixpoint trimEnd (s : string) : string :=
  match s with
  | EmptyString => EmptyString
  | String c s' =>
      match trimEnd s' with
      | EmptyString => if is_space c then EmptyString else String c EmptyString
      | t => String c t
      end
  end.

Definition trim (s : string) : string := trimEnd (trimStart s).

(** [s.split(sep)] for a one-character separator. *)
Fixpoint split (sep : ascii) (s : string) : list string :=
  match s with
  | EmptyString => [EmptyString]
  | String c s' =>
      if Ascii.eqb c sep then EmptyString :: split sep s'
      else match split sep s' with
           | h :: t => String c h :: t
           | [] => [String c EmptyString]
           end
  end.

(** [parts.join(sep)] *)
Definition join (sep : string) (parts : list string) : string :=
  String.concat sep parts.

(** [s.replace(Q, '')] where Q is the global pattern matching one double
    quote: every double quote is removed. *)
Fixpoint stripQuotes (s : string) : string :=
  match s with
  | EmptyString => EmptyString
  | String c s' =>
      if Ascii.eqb c DQ then stripQuotes s' else String c (stripQuotes s')
  end.

Fixpoint countQuotes (s : string) : nat :=
  match s with
  | EmptyString => 0
  | String c s' => (if Ascii.eqb c DQ then 1 else 0) + countQuotes s'
  end.

(** [line.split(R)] where R matches a comma followed, up to the end of
    the string, by pairs of double quotes only (a lookahead): the
    lookahead holds at a comma exactly when the rest of the string has an
    even number of double quotes.  R has no capturing group, so only the
    pieces between the matched commas are returned. *)
Fixpoint splitCsv (s : string) : list string :=
  match s with
  | EmptyString => [EmptyString]
  | String c s' =>
      if Ascii.eqb c "," && Nat.even (countQuotes s')
      then EmptyString :: splitCsv s'
      else match splitCsv s' with
           | h :: t => String c h :: t
           | [] => [String c EmptyString]
           end
  end.

(** The text before the first colon, when there is a colon. *)
Fixpoint beforeColon (s : string) : option string :=
  match s with
  | EmptyString => None
  | String c s' =>
      if Ascii.eqb c ":" then Some EmptyString
      else option_map (String c) (beforeColon s')
  end.

(** Group 1 of [s.match(/^([^:]+):/)]: at least one character that is no
    colon, from the start of the string, followed by a colon. *)
Definition matchSpeakerPrefix (s : string) : option string :=
  match beforeColon s with
  | Some EmptyString => None
  | r => r
  end.

(** [part[0]], with [undefined] printed by [join] as the empty string. *)
Definition firstChar (s : string) : string :=
  match s with
  | EmptyString => EmptyString
  | String c _ => String c EmptyString
  end.

End JS.
Import JS.

(** ** Data model (shared/schema.ts and the SummaryData interface) *)

(** [attendeeSchema]; the pipeline guards [responsibleFor] before use. *)
Module Attendee.
Record t := {
  name : string;
  role : string;
  contributions : string;
  responsibleFor : option (list string)
}.
End Attendee.

(** [decisionSchema] *)
Module DecisionDetail.
Record t := { decision : string; owner : string }.
End DecisionDetail.

(** [taskAssignmentSchema] *)
Module TaskAssignment.
Record t := { task : string; assignee : string }.
End TaskAssignment.

(** An insight is a bare string or an object ([insightAttributionSchema]),
    told apart in the source by [typeof insight === 'string'].  The fields
    of the object are read through [any], so each may be absent. *)
Inductive Insight :=
| PlainInsight (s : string)
| AttributedInsight (insight text speaker : option string).

Inductive Question :=
| PlainQuestion (s : string)
| AttributedQuestion (question speaker : string) (text : option string).

(** [discussionPointSchema]; [insights] and [decisions] are guarded by the
    pipeline before use, so they may be absent. *)
Module DiscussionPoint.
Record t := {
  topic : string;
  summary : string;
  contributors : option (list string);
  insights : option (list Insight);
  questions : list Question;
  decisions : option (list DecisionDetail.t)
}.
End DiscussionPoint.

(** [followUpSchema] *)
Module FollowUp.
Record t := {
  nextMeeting : option string;
  deferredTopics : option (list string);
  resources : option (list string);
  taskAssignments : option (list TaskAssignment.t)
}.
End FollowUp.

Module Sentiment.
Record t := { tone : string; engagement : string; concerns : option string }.
End Sentiment.

(** [transcriptHighlightSchema] *)
Module Highlight.
Record t := {
  quote : string;
  speaker : string;
  timestamp : string;
  significance : option string
}.
End Highlight.

(** [interface SummaryData] of lib/openai.ts, the parsed reply of the
    summarization service.  [keyDiscussionPoints] and
    [followUpRequirements] are tested for presence by the pipeline. *)
Module SummaryData.
Record t := {
  executiveSummary : string;
  attendees : option (list Attendee.t);
  keyDiscussionPoints : option (list DiscussionPoint.t);
  followUpRequirements : option FollowUp.t;
  sentimentAnalysis : Sentiment.t;
  transcriptHighlights : list Highlight.t;
  decisionMakers : option string
}.
End SummaryData.

(** Table [meetings]. *)
Module InsertMeeting.
Record t := {
  title : string;
  date : string;
  startTime : string;
  endTime : string;
  duration : string;
  participants : list string;
  location : string;
  transcriptUrl : option string;
  transcriptText : option string;
  createdBy : nat;
  teamId : option nat;
  isPublic : option bool
}.
End InsertMeeting.

Module Meeting.
Record t := { id : nat; values : InsertMeeting.t }.
End Meeting.

(** [Partial<InsertMeeting>]: an absent ([undefined]) entry leaves the
    column as it is. *)
Module MeetingPatch.
Record t := {
  title : option string;
  date : option string;
  startTime : option string;
  endTime : option string;
  duration : option string;
  participants : option (list string);
  location : option string;
  transcriptUrl : option (option string);
  transcriptText : option (option string);
  createdBy : option nat;
  teamId : option (option nat);
  isPublic : option (option bool)
}.

Definition empty : t :=
  {| title := None; date := None; startTime := None; endTime := None;
     duration := None; participants := None; location := None;
     transcriptUrl := None; transcriptText := None; createdBy := None;
     teamId := None; isPublic := None |}.
End MeetingPatch.

(** Table [decisions]. *)
Module InsertDecision.
Record t := {
  meetingId : nat;
  description : string;
  owner : string;
  timestamp : string;
  context : string
}.
End InsertDecision.

Module Decision.
Record t := { id : nat; values : InsertDecision.t }.
End Decision.

(** Table [action_items]. *)
Module InsertActionItem.
Record t := {
  meetingId : nat;
  task : string;
  assignee : string;
  deadline : string;
  priority : string;
  status : string;
  notes : option string
}.
End InsertActionItem.

Module ActionItem.
Record t := { id : nat; values : InsertActionItem.t }.
End ActionItem.

(** Table [meeting_summaries]: [meetingId] is [notNull().unique()]. *)
Module InsertMeetingSummary.
Record t := {
  meetingId : nat;
  data : SummaryData.t;
  attachments : option (list string)
}.
End InsertMeetingSummary.

Module MeetingSummary.
Record t := {
  id : nat;
  meetingId : nat;
  executiveSummary : string;
  attendees : option (list Attendee.t);
  keyDiscussionPoints : list DiscussionPoint.t;
  followUpRequirements : FollowUp.t;
  sentimentAnalysis : Sentiment.t;
  transcriptHighlights : list Highlight.t;
  decisionMakers : option string;
  attachments : option (list string)
}.
End MeetingSummary.

(** [Partial<InsertMeetingSummary>] *)
Module SummaryPatch.
Record t := {
  meetingId : option nat;
  executiveSummary : option string;
  attendees : option (list Attendee.t);
  keyDiscussionPoints : option (list DiscussionPoint.t);
  followUpRequirements : option FollowUp.t;
  sentimentAnalysis : option Sentiment.t;
  transcriptHighlights : option (list Highlight.t);
  decisionMakers : option string;
  attachments : option (list string)
}.

(** The object literal of the analysis passes: the seven fields of the
    summary data, absent ones staying absent. *)
Definition ofData (d : SummaryData.t) : t :=
  {| meetingId := None;
     executiveSummary := Some (SummaryData.executiveSummary d);
     attendees := SummaryData.attendees d;
     keyDiscussionPoints := SummaryData.keyDiscussionPoints d;
     followUpRequirements := SummaryData.followUpRequirements d;
     sentimentAnalysis := Some (SummaryData.sentimentAnalysis d);
     transcriptHighlights := Some (SummaryData.transcriptHighlights d);
     decisionMakers := SummaryData.decisionMakers d;
     attachments := None |}.
End SummaryPatch.

Coercion Meeting.values : Meeting.t >-> InsertMeeting.t.
Coercion Decision.values : Decision.t >-> InsertDecision.t.
Coercion ActionItem.values : ActionItem.t >-> InsertActionItem.t.
Coercion InsertMeetingSummary.data : InsertMeetingSummary.t >-> SummaryData.t.

(** [Express.Multer.File], as far as the pipeline reads it. *)
Module File.
Record t := {
  fieldname : string;
  originalname : string;
  mimetype : string;
  path : string
}.
End File.

(** ** The world: database, environment, file system, clock *)

Record Store := {
  meetings : list Meeting.t;
  meetingSeq : nat;
  meetingSummaries : list MeetingSummary.t;
  meetingSummarySeq : nat;
  decisions : list Decision.t;
  decisionSeq : nat;
  actionItems : list ActionItem.t;
  actionItemSeq : nat
}.

Definition emptyStore : Store :=
  {| meetings := []; meetingSeq := 0;
     meetingSummaries := []; meetingSummarySeq := 0;
     decisions := []; decisionSeq := 0;
     actionItems := []; actionItemSeq := 0 |}.

(** What one call of [openai.chat.completions.create] and the parsing of
    its reply come to. *)
Inductive RemoteOutcome :=
| CallFails                       (* the request throws *)
| NoContent                       (* the reply carries no content *)
| Unparseable                     (* [JSON.parse] throws *)
| Parsed (d : SummaryData.t).     (* the reply, cast to SummaryData *)

Record World := {
  db : Store;
  (** [process.env.OPENAI_API_KEY] *)
  OPENAI_API_KEY : option string;
  (** whether the module-level [openai] is a real client (the key was set
      when the module was loaded) or the empty stand-in *)
  openaiReady : bool;
  (** [fs.readFileSync(path, 'utf8')]; [None] when it throws *)
  fs : string -> option string;
  (** number of readings of the wall clock so far *)
  ticks : nat;
  (** number of requests sent to the summarization service so far *)
  remoteCalls : nat;
  (** the calls of [analyzeTranscript] so far, latest first *)
  analyses : list (string * Meeting.t)
}.

(** The platform below the code: the wall clock reading by reading, the
    summarization service call by call, and the library functions whose
    result is only passed along. *)
Class Platform := {
  clock : nat -> Z;
  remote : nat -> RemoteOutcome;
  toLocaleTimeString : Z -> string;
  toLocaleDateString : Z -> string;
  toISOString : Z -> string;
  extname : string -> string;
  basename : string -> string -> string
}.

Inductive exn :=
| TypeError (msg : string)
| Error (msg : string)
| NotNullViolation (column : string)
| UniqueViolation (column : string).

Inductive outcome (A : Type) :=
| Return (a : A)
| Throw (e : exn).
Arguments Return {A} a.
Arguments Throw {A} e.

Definition M (A : Type) : Type := World -> outcome A * World.

Definition ret {A} (a : A) : M A := fun w => (Return a, w).

Definition throw {A} (e : exn) : M A := fun w => (Throw e, w).

Definition bind {A B} (c : M A) (k : A -> M B) : M B :=
  fun w =>
    match c w with
    | (Return a, w') => k a w'
    | (Throw e, w') => (Throw e, w')
    end.

(** [try { c } catch (e) { h e }] *)
Definition tryCatch {A} (c : M A) (h : exn -> M A) : M A :=
  fun w =>
    match c w with
    | (Return a, w') => (Return a, w')
    | (Throw e, w') => h e w'
    end.

Declare Scope m_scope.
Delimit Scope m_scope with M.
Notation "x <- c ;; k" := (bind c (fun x => k))
  (at level 100, c at next level, right associativity) : m_scope.
Notation "c ;; k" := (bind c (fun _ => k))
  (at level 100, right associativity) : m_scope.
Local Open Scope m_scope.

(** [for (const x of l) { body x }], an exception leaving the loop. *)
Fixpoint forEach {A} (l : list A) (body : A -> M unit) : M unit :=
  match l with
  | [] => ret tt
  | x :: rest => body x ;; forEach rest body
  end.

Definition getWorld : M World := fun w => (Return w, w).

Definition modifyDb (f : Store -> Store) : M unit :=
  fun w =>
    (Return tt,
     {| db := f (db w); OPENAI_API_KEY := OPENAI_API_KEY w;
        openaiReady := openaiReady w; fs := fs w; ticks := ticks w;
        remoteCalls := remoteCalls w; analyses := analyses w |}).

Definition setMeetings (s : Store) (rows : list Meeting.t) (seq : nat) : Store :=
  {| meetings := rows; meetingSeq := seq;
     meetingSummaries := meetingSummaries s;
     meetingSummarySeq := meetingSummarySeq s;
     decisions := decisions s; decisionSeq := decisionSeq s;
     actionItems := actionItems s; actionItemSeq := actionItemSeq s |}.

Definition setMeetingSummaries (s : Store) (rows : list MeetingSummary.t)
    (seq : nat) : Store :=
  {| meetings := meetings s; meetingSeq := meetingSeq s;
     meetingSummaries := rows; meetingSummarySeq := seq;
     decisions := decisions s; decisionSeq := decisionSeq s;
     actionItems := actionItems s; actionItemSeq := actionItemSeq s |}.

Definition setDecisions (s : Store) (rows : list Decision.t) (seq : nat)
    : Store :=
  {| meetings := meetings s; meetingSeq := meetingSeq s;
     meetingSummaries := meetingSummaries s;
     meetingSummarySeq := meetingSummarySeq s;
     decisions := rows; decisionSeq := seq;
     actionItems := actionItems s; actionItemSeq := actionItemSeq s |}.

Definition setActionItems (s : Store) (rows : list ActionItem.t) (seq : nat)
    : Store :=
  {| meetings := meetings s; meetingSeq := meetingSeq s;
     meetingSummaries := meetingSummaries s;
     meetingSummarySeq := meetingSummarySeq s;
     decisions := decisions s; decisionSeq := decisionSeq s;
     actionItems := rows; actionItemSeq := seq |}.

(** ** The storage collaborator ([class DatabaseStorage]) *)

Module storage.

Definition orElse {A} (o : option A) (d : A) : A :=
  match o with Some a => a | None => d end.

Definition patchMeeting (p : MeetingPatch.t) (m : InsertMeeting.t)
    : InsertMeeting.t :=
  {| InsertMeeting.title :=
       orElse (MeetingPatch.title p) (InsertMeeting.title m);
     InsertMeeting.date :=
       orElse (MeetingPatch.date p) (InsertMeeting.date m);
     InsertMeeting.startTime :=
       orElse (MeetingPatch.startTime p) (InsertMeeting.startTime m);
     InsertMeeting.endTime :=
       orElse (MeetingPatch.endTime p) (InsertMeeting.endTime m);
     InsertMeeting.duration :=
       orElse (MeetingPatch.duration p) (InsertMeeting.duration m);
     InsertMeeting.participants :=
       orElse (MeetingPatch.participants p) (InsertMeeting.participants m);
     InsertMeeting.location :=
       orElse (MeetingPatch.location p) (InsertMeeting.location m);
     InsertMeeting.transcriptUrl :=
       orElse (MeetingPatch.transcriptUrl p) (InsertMeeting.transcriptUrl m);
     InsertMeeting.transcriptText :=
       orElse (MeetingPatch.transcriptText p)
              (InsertMeeting.transcriptText m);
     InsertMeeting.createdBy :=
       orElse (MeetingPatch.createdBy p) (InsertMeeting.createdBy m);
     InsertMeeting.teamId :=
       orElse (MeetingPatch.teamId p) (InsertMeeting.teamId m);
     InsertMeeting.isPublic :=
       orElse (MeetingPatch.isPublic p) (InsertMeeting.isPublic m) |}.

(** [select().from(meetings).where(eq(meetings.id, id))], first row *)
Definition getMeeting (id : nat) : M (option Meeting.t) :=
  w <- getWorld ;;
  ret (find (fun m => Meeting.id m =? id) (meetings (db w))).

(** [is_public] has the default [false]. *)
Definition withDefaults (m : InsertMeeting.t) : InsertMeeting.t :=
  patchMeeting
    (match InsertMeeting.isPublic m with
     | Some _ => MeetingPatch.empty
     | None =>
         {| MeetingPatch.title := None; MeetingPatch.date := None;
            MeetingPatch.startTime := None; MeetingPatch.endTime := None;
            MeetingPatch.duration := None;
            MeetingPatch.participants := None;
            MeetingPatch.location := None;
            MeetingPatch.transcriptUrl := None;
            MeetingPatch.transcriptText := None;
            MeetingPatch.createdBy := None; MeetingPatch.teamId := None;
            MeetingPatch.isPublic := Some (Some false) |}
     end) m.

Definition createMeeting (meeting : InsertMeeting.t) : M Meeting.t :=
  w <- getWorld ;;
  let id := S (meetingSeq (db w)) in
  let row := {| Meeting.id := id; Meeting.values := withDefaults meeting |} in
  modifyDb (fun s => setMeetings s (meetings s ++ [row]) id) ;;
  ret row.

Definition updateMeeting (id : nat) (meetingData : MeetingPatch.t)
    : M (option Meeting.t) :=
  modifyDb (fun s =>
    setMeetings s
      (map (fun m =>
              if Meeting.id m =? id
              then {| Meeting.id := Meeting.id m;
                      Meeting.values := patchMeeting meetingData m |}
              else m)
           (meetings s))
      (meetingSeq s)) ;;
  w <- getWorld ;;
  ret (find (fun m => Meeting.id m =? id) (meetings (db w))).

Definition deleteMeeting (id : nat) : M bool :=
  w <- getWorld ;;
  modifyDb (fun s =>
    setMeetings s
      (filter (fun m => negb (Meeting.id m =? id)) (meetings s))
      (meetingSeq s)) ;;
  ret (existsb (fun m => Meeting.id m =? id) (meetings (db w))).

Definition getDecisionsByMeeting (meetingId : nat) : M (list Decision.t) :=
  w <- getWorld ;;
  ret (filter (fun d : Decision.t => InsertDecision.meetingId d =? meetingId)
              (decisions (db w))).

Definition createDecision (decision : InsertDecision.t) : M Decision.t :=
  w <- getWorld ;;
  let id := S (decisionSeq (db w)) in
  let row := {| Decision.id := id; Decision.values := decision |} in
  modifyDb (fun s => setDecisions s (decisions s ++ [row]) id) ;;
  ret row.

Definition getActionItemsByMeeting (meetingId : nat)
    : M (list ActionItem.t) :=
  w <- getWorld ;;
  ret (filter (fun a : ActionItem.t => InsertActionItem.meetingId a =? meetingId)
              (actionItems (db w))).

Definition createActionItem (actionItem : InsertActionItem.t)
    : M ActionItem.t :=
  w <- getWorld ;;
  let id := S (actionItemSeq (db w)) in
  let row := {| ActionItem.id := id; ActionItem.values := actionItem |} in
  modifyDb (fun s => setActionItems s (actionItems s ++ [row]) id) ;;
  ret row.

Definition getMeetingSummaryByMeeting (meetingId : nat)
    : M (option MeetingSummary.t) :=
  w <- getWorld ;;
  ret (find (fun s => MeetingSummary.meetingId s =? meetingId)
            (meetingSummaries (db w))).

(** The insert draws the next value of the sequence, then the row is
    checked against the [notNull] columns the caller may leave out and
    against [unique(meeting_id)]; a rejected row is not stored. *)
Definition createMeetingSummary (summary : InsertMeetingSummary.t)
    : M MeetingSummary.t :=
  w <- getWorld ;;
  let id := S (meetingSummarySeq (db w)) in
  modifyDb (fun s => setMeetingSummaries s (meetingSummaries s) id) ;;
  match SummaryData.keyDiscussionPoints summary,
        SummaryData.followUpRequirements summary with
  | Some points, Some followUp =>
      if existsb
           (fun s => MeetingSummary.meetingId s
                     =? InsertMeetingSummary.meetingId summary)
           (meetingSummaries (db w))
      then throw (UniqueViolation "meeting_id")
      else
        let row :=
          {| MeetingSummary.id := id;
             MeetingSummary.meetingId :=
               InsertMeetingSummary.meetingId summary;
             MeetingSummary.executiveSummary :=
               SummaryData.executiveSummary summary;
             MeetingSummary.attendees := SummaryData.attendees summary;
             MeetingSummary.keyDiscussionPoints := points;
             MeetingSummary.followUpRequirements := followUp;
             MeetingSummary.sentimentAnalysis :=
               SummaryData.sentimentAnalysis summary;
             MeetingSummary.transcriptHighlights :=
               SummaryData.transcriptHighlights summary;
             MeetingSummary.decisionMakers :=
               SummaryData.decisionMakers summary;
             MeetingSummary.attachments :=
               InsertMeetingSummary.attachments summary |} in
        modifyDb (fun s =>
          setMeetingSummaries s (meetingSummaries s ++ [row]) id) ;;
        ret row
  | None, _ => throw (NotNullViolation "key_discussion_points")
  | _, None => throw (NotNullViolation "follow_up_requirements")
  end.

Definition orKeep {A} (o : option A) (old : option A) : option A :=
  match o with Some a => Some a | None => old end.

Definition patchSummary (p : SummaryPatch.t) (s : MeetingSummary.t)
    : MeetingSummary.t :=
  {| MeetingSummary.id := MeetingSummary.id s;
     MeetingSummary.meetingId :=
       orElse (SummaryPatch.meetingId p) (MeetingSummary.meetingId s);
     MeetingSummary.executiveSummary :=
       orElse (SummaryPatch.executiveSummary p)
              (MeetingSummary.executiveSummary s);
     MeetingSummary.attendees :=
       orKeep (SummaryPatch.attendees p) (MeetingSummary.attendees s);
     MeetingSummary.keyDiscussionPoints :=
       orElse (SummaryPatch.keyDiscussionPoints p)
              (MeetingSummary.keyDiscussionPoints s);
     MeetingSummary.followUpRequirements :=
       orElse (SummaryPatch.followUpRequirements p)
              (MeetingSummary.followUpRequirements s);
     MeetingSummary.sentimentAnalysis :=
       orElse (SummaryPatch.sentimentAnalysis p)
              (MeetingSummary.sentimentAnalysis s);
     MeetingSummary.transcriptHighlights :=
       orElse (SummaryPatch.transcriptHighlights p)
              (MeetingSummary.transcriptHighlights s);
     MeetingSummary.decisionMakers :=
       orKeep (SummaryPatch.decisionMakers p)
              (MeetingSummary.decisionMakers s);
     MeetingSummary.attachments :=
       orKeep (SummaryPatch.attachments p)
              (MeetingSummary.attachments s) |}.

(** [update(meetingSummaries).set(summaryData).where(eq(id))]: the rows
    with this id are rewritten, unless a rewritten row would share its
    [meeting_id] with another row ([unique(meeting_id)]). *)
Definition updateMeetingSummary (id : nat) (summaryData : SummaryPatch.t)
    : M (option MeetingSummary.t) :=
  w <- getWorld ;;
  let rows := meetingSummaries (db w) in
  let clash :=
    match SummaryPatch.meetingId summaryData with
    | Some m =>
        existsb (fun s => MeetingSummary.id s =? id) rows &&
        existsb (fun s => negb (MeetingSummary.id s =? id)
                          && (MeetingSummary.meetingId s =? m)) rows
    | None => false
    end in
  if clash then throw (UniqueViolation "meeting_id")
  else
    modifyDb (fun s =>
      setMeetingSummaries s
        (map (fun r => if MeetingSummary.id r =? id
                       then patchSummary summaryData r else r)
             (meetingSummaries s))
        (meetingSummarySeq s)) ;;
    w' <- getWorld ;;
    ret (find (fun s => MeetingSummary.id s =? id)
              (meetingSummaries (db w'))).

Definition deleteMeetingSummary (id : nat) : M bool :=
  w <- getWorld ;;
  modifyDb (fun s =>
    setMeetingSummaries s
      (filter (fun r => negb (MeetingSummary.id r =? id))
              (meetingSummaries s))
      (meetingSummarySeq s)) ;;
  ret (existsb (fun r => MeetingSummary.id r =? id)
               (meetingSummaries (db w))).

End storage.

(** ** The transcript normalizer (the CSV branch of [saveTranscriptToDatabase]) *)

Module Normalizer.

(** [lines[0].includes('timestamp') || lines[0].includes('speaker') ? 1 : 0];
    [split] never returns the empty array, so [lines[0]] is a string. *)
Definition startLine (lines : list string) : nat :=
  let first := hd EmptyString lines in
  if includes first "timestamp" || includes first "speaker" then 1 else 0.

Definition timestampOf (parts : list string) : string :=
  trim (stripQuotes (nth 0 parts EmptyString)).

Definition speakerOf (parts : list string) : string :=
  trim (stripQuotes (nth 1 parts EmptyString)).

Definition textOf (parts : list string) : string :=
  trim (stripQuotes (join "," (skipn 2 parts))).

(** The template literal of the three-part branch, line feed included. *)
Definition canonicalLine (parts : list string) : string :=
  ("[" ^ timestampOf parts ^ "] " ^ speakerOf parts ^ ": " ^ textOf parts
   ^ nl)%string.

(** [participants.add(speaker)] on a [Set] kept in insertion order. *)
Definition setAdd (x : string) (s : list string) : list string :=
  if existsb (String.eqb x) s then s else s ++ [x].

(** One turn of the loop of the upload for an existing meeting
    (lines 94-112): no participant is collected there. *)
Definition stepExisting (formattedText : string) (rawLine : string)
    : string :=
  let line := trim rawLine in
  if negb (truthy line) then formattedText
  else
    let parts := splitCsv line in
    if 3 <=? List.length parts
    then (formattedText ^ canonicalLine parts)%string
    else (formattedText ^ line ^ nl)%string.

(** One turn of the loop of the upload that creates a meeting
    (lines 337-360). *)
Definition stepNew (acc : string * list string) (rawLine : string)
    : string * list string :=
  let '(formattedText, participants) := acc in
  let line := trim rawLine in
  if negb (truthy line) then acc
  else
    let parts := splitCsv line in
    if 3 <=? List.length parts
    then
      let speaker := speakerOf parts in
      ((formattedText ^ canonicalLine parts)%string,
       if truthy speaker && negb (String.eqb speaker "undefined")
       then setAdd speaker participants
       else participants)
    else ((formattedText ^ line ^ nl)%string, participants).

(** The lines the loops run over: [lines[startLine..]]. *)
Definition body (rawContent : string) : list string :=
  let lines := split LF rawContent in
  skipn (startLine lines) lines.

Definition formatExisting (rawContent : string) : string :=
  fold_left stepExisting (body rawContent) EmptyString.

(** The formatted text and [Array.from(participants)]. *)
Definition formatNew (rawContent : string) : string * list string :=
  fold_left stepNew (body rawContent) (EmptyString, []).

(** [path.basename(originalname, '.csv')] with every underscore and
    hyphen replaced by a space. *)
Definition titleOf (fileName : string) : string :=
  map_chars (fun c => if Ascii.eqb c "_" || Ascii.eqb c "-" then " "%char
                      else c) fileName.

End Normalizer.

(** ** The summarization client (lib/openai.ts) *)

Definition createPlaceholderSummary (message : string) : SummaryData.t :=
  {| SummaryData.executiveSummary :=
       "Failed to generate summary. Please provide an OpenAI API key to enable this feature.";
     SummaryData.attendees := Some [
       {| Attendee.name := "System";
          Attendee.role := "Notification";
          Attendee.contributions := "None - OpenAI integration required";
          Attendee.responsibleFor := Some ["Providing API key"] |} ];
     SummaryData.keyDiscussionPoints := Some [
       {| DiscussionPoint.topic := "OpenAI Integration Required";
          DiscussionPoint.summary :=
            "The AI-powered analysis features require a valid OpenAI API key.";
          DiscussionPoint.contributors := Some ["System"];
          DiscussionPoint.insights := Some [PlainInsight message];
          DiscussionPoint.questions :=
            [PlainQuestion "Do you have an OpenAI API key to provide?"];
          DiscussionPoint.decisions := Some [
            {| DecisionDetail.decision :=
                 "Configure OpenAI API key to enable AI features";
               DecisionDetail.owner := "Administrator" |} ] |} ];
     SummaryData.followUpRequirements := Some
       {| FollowUp.nextMeeting := Some "Not available";
          FollowUp.deferredTopics := Some ["AI-powered analysis"];
          FollowUp.resources := Some ["OpenAI API key"];
          FollowUp.taskAssignments := Some [
            {| TaskAssignment.task :=
                 "Add OpenAI API key to environment variables";
               TaskAssignment.assignee := "Administrator" |} ] |};
     SummaryData.sentimentAnalysis :=
       {| Sentiment.tone := "Not available";
          Sentiment.engagement := "Not available";
          Sentiment.concerns := None |};
     SummaryData.transcriptHighlights := [];
     SummaryData.decisionMakers := Some "Not available without AI analysis" |}.

Definition truthyOpt (o : option string) : bool :=
  match o with Some s => truthy s | None => false end.

Definition noKeyMessage : string :=
  "OpenAI API key is not configured. Please set OPENAI_API_KEY environment variable.".

Definition errorMessage : string :=
  "Error processing transcript. Please check your API key or try again later.".

Section Pipeline.

Context {platform : Platform}.

(** [Date.now()] and [new Date()]: one reading of the wall clock. *)
Definition now : M Z :=
  fun w =>
    (Return (clock (ticks w)),
     {| db := db w; OPENAI_API_KEY := OPENAI_API_KEY w;
        openaiReady := openaiReady w; fs := fs w; ticks := S (ticks w);
        remoteCalls := remoteCalls w; analyses := analyses w |}).

(** [openai.chat.completions.create(...)] and the handling of its reply. *)
Definition callRemote : M RemoteOutcome :=
  fun w =>
    (Return (remote (remoteCalls w)),
     {| db := db w; OPENAI_API_KEY := OPENAI_API_KEY w;
        openaiReady := openaiReady w; fs := fs w; ticks := ticks w;
        remoteCalls := S (remoteCalls w); analyses := analyses w |}).

(** Bookkeeping of the embedding: the entry into [analyzeTranscript]. *)
Definition enterAnalysis (transcript : string) (meeting : Meeting.t)
    : M unit :=
  fun w =>
    (Return tt,
     {| db := db w; OPENAI_API_KEY := OPENAI_API_KEY w;
        openaiReady := openaiReady w; fs := fs w; ticks := ticks w;
        remoteCalls := remoteCalls w;
        analyses := (transcript, meeting) :: analyses w |}).

Definition readFileSync (path : string) : M string :=
  fun w =>
    match fs w path with
    | Some content => (Return content, w)
    | None => (Throw (Error "ENOENT"), w)
    end.

(** [analyzeTranscript].  The prompt built from the meeting and the
    transcript goes to the service; what comes back is the platform's
    [remote]. *)
Definition analyzeTranscript (transcript : string) (meeting : Meeting.t)
    : M SummaryData.t :=
  enterAnalysis transcript meeting ;;
  w <- getWorld ;;
  if negb (truthyOpt (OPENAI_API_KEY w))
  then ret (createPlaceholderSummary noKeyMessage)
  else
    tryCatch
      ((if negb (openaiReady w)
        then throw (Error "OpenAI client is not properly initialized")
        else ret tt) ;;
       reply <- callRemote ;;
       match reply with
       | CallFails => throw (Error "request failed")
       | NoContent =>
           throw (Error "Failed to analyze transcript: No content in response")
       | Unparseable => throw (Error "SyntaxError")
       | Parsed data => ret data
       end)
      (fun _ => ret (createPlaceholderSummary errorMessage)).

(** ** Entity derivation (lines 170-298 and 406-534, the same text twice) *)

(** [typeof insight === 'string' ? insight : (insight.insight || insight.text || '')] *)
Definition insightTextOf (insight : Insight) : string :=
  match insight with
  | PlainInsight s => s
  | AttributedInsight i t _ =>
      if truthyOpt i then storage.orElse i EmptyString
      else if truthyOpt t then storage.orElse t EmptyString
      else EmptyString
  end.

(** [typeof insight === 'string' ? null : (insight.speaker || null)] *)
Definition speakerNameOf (insight : Insight) : option string :=
  match insight with
  | PlainInsight _ => None
  | AttributedInsight _ _ sp => if truthyOpt sp then sp else None
  end.

Definition decisionKeywords : list string :=
  ["decide"; "agreed"; "conclusion"; "passed"; "requested"; "ownership";
   "priority"].

(** The seven-way disjunction of lines 198-204. *)
Definition isDecisionBearing (insightText : string) : bool :=
  includes (toLowerCase insightText) "decide" ||
  includes (toLowerCase insightText) "agreed" ||
  includes (toLowerCase insightText) "conclusion" ||
  includes (toLowerCase insightText) "passed" ||
  includes (toLowerCase insightText) "requested" ||
  includes (toLowerCase insightText) "ownership" ||
  includes (toLowerCase insightText) "priority".

(** [speakerName.split(' ').map(part => part[0]).join('').toUpperCase()] *)
Definition initials (speakerName : string) : string :=
  toUpperCase (join EmptyString (map firstChar (split " " speakerName))).

(** Lines 207-231.  [match] and [includes] are called on the insight
    itself, not on the text taken from it: on an object both are
    [undefined], and the call of [match] throws a TypeError. *)
Definition resolveOwner (insight : Insight) (participants : list string)
    : M string :=
  let owner := "Team" in
  let owner :=
    match speakerNameOf insight with
    | Some speakerName => initials speakerName
    | None => owner
    end in
  match insight with
  | AttributedInsight _ _ _ =>
      throw (TypeError "insight.match is not a function")
  | PlainInsight s =>
      match matchSpeakerPrefix s with
      | Some g =>
          if truthy g then ret (trim g)
          else ret (match find (fun p => includes s p) participants with
                    | Some participant => participant
                    | None => owner
                    end)
      | None =>
          ret (match find (fun p => includes s p) participants with
               | Some participant => participant
               | None => owner
               end)
      end
  end.

(** The value passed as [description: insight]; the call is reached for
    string insights only. *)
Definition descriptionOf (insight : Insight) : string :=
  match insight with
  | PlainInsight s => s
  | AttributedInsight _ _ _ => "[object Object]"
  end.

Definition deriveFromDecisions (meetingId : nat) (topic : string)
    (decisions : list DecisionDetail.t) : M unit :=
  forEach decisions (fun decision =>
    t <- now ;;
    storage.createDecision
      {| InsertDecision.meetingId := meetingId;
         InsertDecision.description := DecisionDetail.decision decision;
         InsertDecision.owner := DecisionDetail.owner decision;
         InsertDecision.timestamp := toLocaleTimeString t;
         InsertDecision.context := topic |} ;;
    ret tt).

Definition deriveFromInsights (meetingId : nat) (topic : string)
    (participants : list string) (insights : list Insight) : M unit :=
  forEach insights (fun insight =>
    let insightText := insightTextOf insight in
    if negb (truthy insightText) then ret tt
    else if isDecisionBearing insightText then
      owner <- resolveOwner insight participants ;;
      t <- now ;;
      storage.createDecision
        {| InsertDecision.meetingId := meetingId;
           InsertDecision.description := descriptionOf insight;
           InsertDecision.owner := owner;
           InsertDecision.timestamp := toLocaleTimeString t;
           InsertDecision.context := topic |} ;;
      ret tt
    else ret tt).

(** The body of [for (const point of summaryData.keyDiscussionPoints)]. *)
Definition derivePoint (meetingId : nat) (participants : list string)
    (point : DiscussionPoint.t) : M unit :=
  match DiscussionPoint.decisions point with
  | Some ((_ :: _) as decisions) =>
      deriveFromDecisions meetingId (DiscussionPoint.topic point) decisions
  | _ =>
      match DiscussionPoint.insights point with
      | Some ((_ :: _) as insights) =>
          deriveFromInsights meetingId (DiscussionPoint.topic point)
                             participants insights
      | _ => ret tt
      end
  end.

Definition deriveDecisions (meetingId : nat) (participants : list string)
    (summaryData : SummaryData.t) : M unit :=
  match SummaryData.keyDiscussionPoints summaryData with
  | Some ((_ :: _) as points) =>
      forEach points (derivePoint meetingId participants)
  | _ => ret tt
  end.

Definition weekMs : Z := (7 * 24 * 60 * 60 * 1000)%Z.

(** [new Date(Date.now() + 7 * 24 * 60 * 60 * 1000).toISOString().split('T')[0]] *)
Definition deadlineAt (t : Z) : string :=
  hd EmptyString (split "T" (toISOString (t + weekMs)%Z)).

Definition autoNotes : string := "Auto-generated from meeting analysis".

Definition deriveFromTasks (meetingId : nat)
    (taskAssignments : list TaskAssignment.t) : M unit :=
  forEach taskAssignments (fun task =>
    t <- now ;;
    storage.createActionItem
      {| InsertActionItem.meetingId := meetingId;
         InsertActionItem.task := TaskAssignment.task task;
         InsertActionItem.assignee := TaskAssignment.assignee task;
         InsertActionItem.deadline := deadlineAt t;
         InsertActionItem.priority := "Medium";
         InsertActionItem.status := "Pending";
         InsertActionItem.notes := Some autoNotes |} ;;
    ret tt).

Definition isResponsible (attendee : Attendee.t) : bool :=
  match Attendee.responsibleFor attendee with
  | Some tags =>
      existsb (fun r => includes (toLowerCase r) "resource"
                        || includes (toLowerCase r) "shar"
                        || includes (toLowerCase r) "document") tags
  | None => false
  end.

(** Lines 266-286. *)
Definition resolveAssignee (attendees : option (list Attendee.t))
    (participants : list string) : string :=
  let assignee := "Unassigned" in
  match attendees with
  | Some ((first :: _) as attendees) =>
      let assignee :=
        match find isResponsible attendees with
        | Some attendee => Attendee.name attendee
        | None => assignee
        end in
      if String.eqb assignee "Unassigned" then Attendee.name first
      else assignee
  | _ =>
      match participants with
      | p :: _ => p
      | [] => assignee
      end
  end.

Definition deriveFromResources (meetingId : nat)
    (attendees : option (list Attendee.t)) (participants : list string)
    (resources : list string) : M unit :=
  forEach resources (fun resource =>
    let assignee := resolveAssignee attendees participants in
    t <- now ;;
    storage.createActionItem
      {| InsertActionItem.meetingId := meetingId;
         InsertActionItem.task := ("Share resource: " ^ resource)%string;
         InsertActionItem.assignee := assignee;
         InsertActionItem.deadline := deadlineAt t;
         InsertActionItem.priority := "Medium";
         InsertActionItem.status := "Pending";
         InsertActionItem.notes := Some autoNotes |} ;;
    ret tt).

Definition deriveActionItems (meetingId : nat) (participants : list string)
    (summaryData : SummaryData.t) : M unit :=
  match SummaryData.followUpRequirements summaryData with
  | Some followUp =>
      match FollowUp.taskAssignments followUp with
      | Some ((_ :: _) as taskAssignments) =>
          deriveFromTasks meetingId taskAssignments
      | _ =>
          match FollowUp.resources followUp with
          | Some resources =>
              deriveFromResources meetingId
                (SummaryData.attendees summaryData) participants resources
          | None => ret tt
          end
      end
  | None => ret tt
  end.

(** ** The orchestrator ([saveTranscriptToDatabase]) *)

Record SaveResult := {
  success : bool;
  message : string;
  data : option Meeting.t
}.

Definition fileExtOf (file : File.t) : string :=
  toLowerCase (extname (File.originalname file)).

(** The test of lines 81 and 321: a file read as text. *)
Definition isReadable (file : File.t) : bool :=
  String.eqb (File.mimetype file) "text/plain"
  || existsb (String.eqb (File.mimetype file))
       ["text/csv"; "application/csv"; "application/vnd.ms-excel"]
  || String.eqb (fileExtOf file) ".csv".

(** The test of lines 86 and 326: a file handled as CSV. *)
Definition isCsv (file : File.t) : bool :=
  String.eqb (fileExtOf file) ".csv"
  || includes (File.mimetype file) "csv"
  || includes (File.mimetype file) "excel".

(** [new Date().toISOString().split('T')[0]] *)
Definition today : M string :=
  t <- now ;; ret (hd EmptyString (split "T" (toISOString t))).

(** Lines 78-122: the transcript text of an upload for an existing
    meeting, [None] standing for [null]. *)
Definition readTranscript (file : File.t) : M (option string) :=
  if isReadable file then
    tryCatch
      (rawContent <- readFileSync (File.path file) ;;
       if isCsv file
       then ret (Some (Normalizer.formatExisting rawContent))
       else ret (Some rawContent))
      (fun _ => ret None)
  else ret None.

(** [{ transcriptUrl: file.path, transcriptText: transcriptText || undefined }] *)
Definition transcriptPatch (file : File.t) (transcriptText : option string)
    : MeetingPatch.t :=
  {| MeetingPatch.title := None; MeetingPatch.date := None;
     MeetingPatch.startTime := None; MeetingPatch.endTime := None;
     MeetingPatch.duration := None; MeetingPatch.participants := None;
     MeetingPatch.location := None;
     MeetingPatch.transcriptUrl := Some (Some (File.path file));
     MeetingPatch.transcriptText :=
       if truthyOpt transcriptText then Some transcriptText else None;
     MeetingPatch.createdBy := None; MeetingPatch.teamId := None;
     MeetingPatch.isPublic := None |}.

Definition summaryFor (meetingId : nat) (summaryData : SummaryData.t)
    : InsertMeetingSummary.t :=
  {| InsertMeetingSummary.meetingId := meetingId;
     InsertMeetingSummary.data := summaryData;
     InsertMeetingSummary.attachments := None |}.

(** Lines 132-305: the automatic analysis of an upload for an existing
    meeting; [None] when the guard of line 132 is false. *)
Definition analyzeExisting (meetingId : nat) (meeting : Meeting.t)
    (transcriptText : option string) (updatedMeeting : option Meeting.t)
    : M (option SaveResult) :=
  w <- getWorld ;;
  if truthyOpt (OPENAI_API_KEY w) && truthyOpt transcriptText then
    match updatedMeeting with
    | None => throw (Error "Meeting not found")
    | Some updated =>
        summaryData <-
          analyzeTranscript (storage.orElse transcriptText EmptyString)
                            updated ;;
        existingSummary <- storage.getMeetingSummaryByMeeting meetingId ;;
        match existingSummary with
        | Some existing =>
            storage.updateMeetingSummary (MeetingSummary.id existing)
              (SummaryPatch.ofData summaryData) ;;
            ret tt
        | None =>
            storage.createMeetingSummary (summaryFor meetingId summaryData) ;;
            ret tt
        end ;;
        deriveDecisions meetingId (InsertMeeting.participants meeting)
                        summaryData ;;
        deriveActionItems meetingId (InsertMeeting.participants meeting)
                          summaryData ;;
        ret (Some
          {| success := true;
             message :=
               "Transcript uploaded, linked to meeting, and AI analysis completed";
             data := updatedMeeting |})
    end
  else ret None.

(** Lines 66-315. *)
Definition saveForExisting (file : File.t) (meetingId : nat)
    : M SaveResult :=
  meeting <- storage.getMeeting meetingId ;;
  match meeting with
  | None => ret {| success := false; message := "Meeting not found";
                   data := None |}
  | Some meeting =>
      transcriptText <- readTranscript file ;;
      updatedMeeting <-
        storage.updateMeeting meetingId (transcriptPatch file transcriptText) ;;
      analysed <-
        tryCatch
          (analyzeExisting meetingId meeting transcriptText updatedMeeting)
          (fun _ => ret None) ;;
      match analysed with
      | Some result => ret result
      | None =>
          ret {| success := true;
                 message := "Transcript uploaded and linked to meeting";
                 data := updatedMeeting |}
      end
  end.

(** Lines 387-541: the automatic analysis of the meeting made from a CSV
    upload.  The summary is created without a look for an existing one. *)
Definition analyzeNew (meeting : Meeting.t) : M (option SaveResult) :=
  w <- getWorld ;;
  if truthyOpt (OPENAI_API_KEY w)
     && truthyOpt (InsertMeeting.transcriptText meeting) then
    summaryData <-
      analyzeTranscript
        (storage.orElse (InsertMeeting.transcriptText meeting) EmptyString)
        meeting ;;
    storage.createMeetingSummary
      (summaryFor (Meeting.id meeting) summaryData) ;;
    deriveDecisions (Meeting.id meeting)
                    (InsertMeeting.participants meeting) summaryData ;;
    deriveActionItems (Meeting.id meeting)
                      (InsertMeeting.participants meeting) summaryData ;;
    ret (Some
      {| success := true;
         message :=
           "CSV transcript uploaded, new meeting created, and AI analysis completed";
         data := Some meeting |})
  else ret None.

(** Lines 326-551. *)
Definition saveNewCsv (file : File.t) (userId : nat) (rawContent : string)
    : M SaveResult :=
  let '(transcriptText, participants) := Normalizer.formatNew rawContent in
  let fileName := basename (File.originalname file) ".csv" in
  let title := Normalizer.titleOf fileName in
  title <-
    (if truthy title then ret title
     else t <- now ;;
          ret ("CSV Transcript from " ^ toLocaleDateString t)%string) ;;
  date <- today ;;
  meeting <- storage.createMeeting
    {| InsertMeeting.title := title;
       InsertMeeting.date := date;
       InsertMeeting.startTime := "00:00";
       InsertMeeting.endTime := "00:00";
       InsertMeeting.duration := "Unknown";
       InsertMeeting.participants := participants;
       InsertMeeting.location := "Imported CSV Transcript";
       InsertMeeting.transcriptUrl := Some (File.path file);
       InsertMeeting.transcriptText := Some transcriptText;
       InsertMeeting.createdBy := userId;
       InsertMeeting.teamId := None;
       InsertMeeting.isPublic := None |} ;;
  analysed <- tryCatch (analyzeNew meeting) (fun _ => ret None) ;;
  match analysed with
  | Some result => ret result
  | None =>
      ret {| success := true;
             message := "CSV transcript uploaded and new meeting created";
             data := Some meeting |}
  end.

(** Lines 552-577: a plain text upload makes the meeting and returns. *)
Definition saveNewText (file : File.t) (userId : nat) (rawContent : string)
    : M SaveResult :=
  t <- now ;;
  date <- today ;;
  meeting <- storage.createMeeting
    {| InsertMeeting.title :=
         ("Transcript from " ^ toLocaleDateString t)%string;
       InsertMeeting.date := date;
       InsertMeeting.startTime := "00:00";
       InsertMeeting.endTime := "00:00";
       InsertMeeting.duration := "Unknown";
       InsertMeeting.participants := [];
       InsertMeeting.location := "Imported Transcript";
       InsertMeeting.transcriptUrl := Some (File.path file);
       InsertMeeting.transcriptText := Some rawContent;
       InsertMeeting.createdBy := userId;
       InsertMeeting.teamId := None;
       InsertMeeting.isPublic := None |} ;;
  ret {| success := true;
         message := "Transcript uploaded and new meeting created";
         data := Some meeting |}.

(** Lines 316-588. *)
Definition saveForNew (file : File.t) (userId : nat) : M SaveResult :=
  saved <-
    (if isReadable file then
       tryCatch
         (rawContent <- readFileSync (File.path file) ;;
          result <- (if isCsv file then saveNewCsv file userId rawContent
                     else saveNewText file userId rawContent) ;;
          ret (Some result))
         (fun _ => ret None)
     else ret None) ;;
  match saved with
  | Some result => ret result
  | None =>
      ret {| success := false;
             message :=
               "Failed to process the transcript file. Please check the file format and try again.";
             data := None |}
  end.

(** [if (meetingId)]: [undefined] and [0] are falsy. *)
Definition saveTranscriptToDatabase (file : File.t) (userId : nat)
    (meetingId : option nat) : M SaveResult :=
  tryCatch
    (match meetingId with
     | Some ((S _) as meetingId) => saveForExisting file meetingId
     | _ => saveForNew file userId
     end)
    (fun _ => ret {| success := false;
                     message := "Failed to save transcript information";
                     data := None |}).

(** ** The routes that write meetings and summaries ([registerRoutes]) *)

Inductive Body :=
| NoBody
| JsonMessage (message : string)
| JsonMeeting (meeting : Meeting.t)
| JsonSummary (summary : option MeetingSummary.t)
| JsonUpload (message : string) (data : option Meeting.t).

Record Response := { status : nat; body : Body }.

Definition respond (status : nat) (body : Body) : M Response :=
  ret {| status := status; body := body |}.

(** [insertMeetingSummarySchema.safeParse]: the [notNull] columns are
    required. *)
Definition validSummary (b : InsertMeetingSummary.t) : bool :=
  match SummaryData.keyDiscussionPoints b, SummaryData.followUpRequirements b
  with
  | Some _, Some _ => true
  | _, _ => false
  end.

(** [POST /api/meetings]; [None] is a body rejected by the schema. *)
Definition postMeeting (body : option InsertMeeting.t) : M Response :=
  tryCatch
    (match body with
     | None => respond 400 (JsonMessage "Invalid meeting data")
     | Some data =>
         meeting <- storage.createMeeting data ;;
         respond 201 (JsonMeeting meeting)
     end)
    (fun _ => respond 500 (JsonMessage "Failed to create meeting")).

(** [GET /api/create-test-meeting]: one fixed row inserted by a direct
    statement. *)
Definition createTestMeeting : M Response :=
  tryCatch
    (storage.createMeeting
       {| InsertMeeting.title := "Emergency Meeting via API";
          InsertMeeting.date := "2025-04-29";
          InsertMeeting.startTime := "10:00 AM";
          InsertMeeting.endTime := "11:00 AM";
          InsertMeeting.duration := "1 hour";
          InsertMeeting.participants :=
            ["Aaqil Ahmed"; "Emergency Team"; "SQL Troubleshooter"];
          InsertMeeting.location := "Emergency Meeting Room";
          InsertMeeting.transcriptUrl := None;
          InsertMeeting.transcriptText := None;
          InsertMeeting.createdBy := 1;
          InsertMeeting.teamId := None;
          InsertMeeting.isPublic := Some true |} ;;
     respond 200 (JsonMessage "OK"))
    (fun _ => respond 500 (JsonMessage "Failed to create emergency meeting")).

(** [PUT /api/meetings/:id] *)
Definition putMeeting (meetingId : nat) (body : option MeetingPatch.t)
    : M Response :=
  tryCatch
    (match body with
     | None => respond 400 (JsonMessage "Invalid meeting data")
     | Some data =>
         updatedMeeting <- storage.updateMeeting meetingId data ;;
         match updatedMeeting with
         | None => respond 404 (JsonMessage "Meeting not found")
         | Some meeting => respond 200 (JsonMeeting meeting)
         end
     end)
    (fun _ => respond 500 (JsonMessage "Failed to update meeting")).

(** [DELETE /api/meetings/:id] *)
Definition deleteMeetingRoute (meetingId : nat) : M Response :=
  tryCatch
    (deleted <- storage.deleteMeeting meetingId ;;
     if deleted then respond 204 NoBody
     else respond 404 (JsonMessage "Meeting not found"))
    (fun _ => respond 500 (JsonMessage "Failed to delete meeting")).

(** [POST /api/meeting-summaries] *)
Definition postMeetingSummary (body : option InsertMeetingSummary.t)
    : M Response :=
  tryCatch
    (match body with
     | None => respond 400 (JsonMessage "Invalid meeting summary data")
     | Some data =>
         if negb (validSummary data)
         then respond 400 (JsonMessage "Invalid meeting summary data")
         else
           meeting <-
             storage.getMeeting (InsertMeetingSummary.meetingId data) ;;
           match meeting with
           | None => respond 404 (JsonMessage "Meeting not found")
           | Some _ =>
               existingSummary <-
                 storage.getMeetingSummaryByMeeting
                   (InsertMeetingSummary.meetingId data) ;;
               match existingSummary with
               | Some _ =>
                   respond 409
                     (JsonMessage "A summary already exists for this meeting")
               | None =>
                   summary <- storage.createMeetingSummary data ;;
                   respond 201 (JsonSummary (Some summary))
               end
           end
     end)
    (fun _ => respond 500 (JsonMessage "Failed to create meeting summary")).

(** [PUT /api/meeting-summaries/:id] *)
Definition putMeetingSummary (summaryId : nat) (body : option SummaryPatch.t)
    : M Response :=
  tryCatch
    (match body with
     | None => respond 400 (JsonMessage "Invalid meeting summary data")
     | Some data =>
         updatedSummary <- storage.updateMeetingSummary summaryId data ;;
         match updatedSummary with
         | None => respond 404 (JsonMessage "Meeting summary not found")
         | Some summary => respond 200 (JsonSummary (Some summary))
         end
     end)
    (fun _ => respond 500 (JsonMessage "Failed to update meeting summary")).

(** [DELETE /api/meeting-summaries/:id] *)
Definition deleteMeetingSummaryRoute (summaryId : nat) : M Response :=
  tryCatch
    (deleted <- storage.deleteMeetingSummary summaryId ;;
     if deleted then respond 204 NoBody
     else respond 404 (JsonMessage "Meeting summary not found"))
    (fun _ => respond 500 (JsonMessage "Failed to delete meeting summary")).

(** [POST /api/analyze-transcript]; a missing or zero [meetingId] is
    falsy. *)
Definition postAnalyzeTranscript (meetingId : option nat) : M Response :=
  tryCatch
    (match meetingId with
     | Some ((S _) as meetingId) =>
         meeting <- storage.getMeeting meetingId ;;
         match meeting with
         | None => respond 404 (JsonMessage "Meeting not found")
         | Some meeting =>
             if negb (truthyOpt (InsertMeeting.transcriptText meeting))
             then respond 400
                    (JsonMessage "Meeting has no transcript to analyze")
             else
               summaryData <-
                 analyzeTranscript
                   (storage.orElse (InsertMeeting.transcriptText meeting)
                                   EmptyString)
                   meeting ;;
               existingSummary <-
                 storage.getMeetingSummaryByMeeting (Meeting.id meeting) ;;
               match existingSummary with
               | Some existing =>
                   summary <-
                     storage.updateMeetingSummary
                       (MeetingSummary.id existing)
                       (SummaryPatch.ofData summaryData) ;;
                   respond 200 (JsonSummary summary)
               | None =>
                   summary <-
                     storage.createMeetingSummary
                       (summaryFor (Meeting.id meeting) summaryData) ;;
                   respond 200 (JsonSummary (Some summary))
               end
         end
     | _ => respond 400 (JsonMessage "Meeting ID is required")
     end)
    (fun _ => respond 500 (JsonMessage "Failed to analyze transcript")).

(** [POST /api/upload-transcript]; the user id is that of the session or
    1. *)
Definition postUploadTranscript (file : option File.t) (userId : nat)
    (meetingId : option nat) : M Response :=
  match file with
  | None => respond 400 (JsonMessage "No file uploaded")
  | Some file =>
      result <- saveTranscriptToDatabase file userId meetingId ;;
      if negb (success result)
      then respond 500 (JsonMessage (message result))
      else respond 201 (JsonUpload (message result) (data result))
  end.

(** The requests that write the tables of meetings and of summaries or run
    an analysis.  The other routes read, or write the tables of decisions,
    action items, recordings and users only. *)
Inductive Request :=
| CreateTestMeeting
| PostMeeting (body : option InsertMeeting.t)
| PutMeeting (meetingId : nat) (body : option MeetingPatch.t)
| DeleteMeeting (meetingId : nat)
| PostMeetingSummary (body : option InsertMeetingSummary.t)
| PutMeetingSummary (summaryId : nat) (body : option SummaryPatch.t)
| DeleteMeetingSummary (summaryId : nat)
| PostAnalyzeTranscript (meetingId : option nat)
| PostUploadTranscript (file : option File.t) (userId : nat)
    (meetingId : option nat).

Definition handle (r : Request) : M Response :=
  match r with
  | CreateTestMeeting => createTestMeeting
  | PostMeeting body => postMeeting body
  | PutMeeting meetingId body => putMeeting meetingId body
  | DeleteMeeting meetingId => deleteMeetingRoute meetingId
  | PostMeetingSummary body => postMeetingSummary body
  | PutMeetingSummary summaryId body => putMeetingSummary summaryId body
  | DeleteMeetingSummary summaryId => deleteMeetingSummaryRoute summaryId
  | PostAnalyzeTranscript meetingId => postAnalyzeTranscript meetingId
  | PostUploadTranscript file userId meetingId =>
      postUploadTranscript file userId meetingId
  end.

(** The server handling requests one after the other. *)
Fixpoint serve (requests : list Request) (w : World) : World :=
  match requests with
  | [] => w
  | r :: rest => serve rest (snd (handle r w))
  end.

End Pipeline.


(** * Further code of the server and of its callers *)

(** ** The filter of the transcript upload *)

Section Filters.

Context {platform : Platform}.

(** [acceptedTypes] of the transcript filter (lines 30-38). *)
Definition acceptedTypes : list string :=
  ["text/plain"; "application/pdf"; "application/msword";
   "application/vnd.openxmlformats-officedocument.wordprocessingml.document";
   "text/csv"; "application/csv"; "application/vnd.ms-excel"].

(** [fileFilter] of transcript-handler.ts (lines 29-48): [true] for
    [cb(null, true)], [false] for the call with the error. *)
Definition fileFilter (file : File.t) : bool :=
  let fileExt := toLowerCase (extname (File.originalname file)) in
  existsb (String.eqb (File.mimetype file)) acceptedTypes
  || String.eqb fileExt ".csv".

End Filters.

(** ** Recordings (upload-handler.ts) *)

Module InsertRecording.
Record t := {
  fileName : string;
  fileSize : nat;
  fileType : string;
  filePath : string;
  uploadedBy : nat;
  meetingId : option nat
}.
End InsertRecording.

Module Recording.
Record t := { id : nat; values : InsertRecording.t }.
End Recording.

Coercion Recording.values : Recording.t >-> InsertRecording.t.

(** Table [recordings] with its sequence, kept beside the world. *)
Record RecordingTable := {
  recordings : list Recording.t;
  recordingSeq : nat
}.

(** [storage.createRecording] *)
Definition createRecording (recording : InsertRecording.t)
    (table : RecordingTable) : Recording.t * RecordingTable :=
  let id := S (recordingSeq table) in
  let row := {| Recording.id := id; Recording.values := recording |} in
  (row, {| recordings := recordings table ++ [row]; recordingSeq := id |}).

Record RecordingResult := {
  recording : option Recording.t;
  error : option string
}.

(** [{ transcriptUrl: recording.filePath }] *)
Definition recordingPatch (filePath : string) : MeetingPatch.t :=
  {| MeetingPatch.title := None; MeetingPatch.date := None;
     MeetingPatch.startTime := None; MeetingPatch.endTime := None;
     MeetingPatch.duration := None; MeetingPatch.participants := None;
     MeetingPatch.location := None;
     MeetingPatch.transcriptUrl := Some (Some filePath);
     MeetingPatch.transcriptText := None;
     MeetingPatch.createdBy := None; MeetingPatch.teamId := None;
     MeetingPatch.isPublic := None |}.

(** [saveRecordingToDatabase] (lines 61-96); [size] is [file.size].  The
    table of recordings is passed in and returned next to the result; the
    insertion of the row, which has every column, comes first and stays
    when a later statement throws. *)
Definition saveRecordingToDatabase (file : File.t) (size : nat)
    (uploadedBy : nat) (meetingId : option nat) (table : RecordingTable)
    : M (RecordingResult * RecordingTable) :=
  let recordingData :=
    {| InsertRecording.fileName := File.originalname file;
       InsertRecording.fileSize := size;
       InsertRecording.fileType := File.mimetype file;
       InsertRecording.filePath := File.path file;
       InsertRecording.uploadedBy := uploadedBy;
       InsertRecording.meetingId := meetingId |} in
  let '(recording, table') := createRecording recordingData table in
  tryCatch
    (match meetingId with
     | Some ((S _) as meetingId) =>
         meeting <- storage.getMeeting meetingId ;;
         match meeting with
         | Some _ =>
             storage.updateMeeting meetingId
               (recordingPatch (InsertRecording.filePath recording)) ;;
             ret tt
         | None => ret tt
         end
     | _ => ret tt
     end ;;
     ret ({| recording := Some recording; error := None |}, table'))
    (fun _ =>
       ret ({| recording := None;
               error := Some "Failed to save recording information" |},
            table')).

(** ** Routes of decisions (registerRoutes, lines 220-260) *)

Inductive Listing (A : Type) :=
| Listed (rows : list A)
| ListingFailed (status : nat) (message : string).
Arguments Listed {A} rows.
Arguments ListingFailed {A} status message.

(** An answer that carries one row, or a refusal. *)
Inductive Creation (A : Type) :=
| Created (status : nat) (row : A)
| Refused (status : nat) (message : string).
Arguments Created {A} status row.
Arguments Refused {A} status message.

(** [storage.getMeetings] *)
Definition getMeetings : M (list Meeting.t) :=
  w <- getWorld ;; ret (meetings (db w)).

(** [Promise.all(meetings.map(meeting => f(meeting.id)))] followed by
    [flat()], the calls running in the order of the meetings. *)
Fixpoint forAllMeetings {A} (rows : list Meeting.t) (f : nat -> M (list A))
    : M (list A) :=
  match rows with
  | [] => ret []
  | meeting :: rest =>
      found <- f (Meeting.id meeting) ;;
      others <- forAllMeetings rest f ;;
      ret (found ++ others)
  end.

(** [GET /api/decisions]; a missing or zero [meetingId] is falsy. *)
Definition getDecisionsRoute (meetingId : option nat) : M (Listing Decision.t) :=
  tryCatch
    (match meetingId with
     | Some ((S _) as meetingId) =>
         decisions <- storage.getDecisionsByMeeting meetingId ;;
         ret (Listed decisions)
     | _ =>
         meetings <- getMeetings ;;
         decisions <- forAllMeetings meetings storage.getDecisionsByMeeting ;;
         ret (Listed decisions)
     end)
    (fun _ => ret (ListingFailed 500 "Failed to fetch decisions")).

(** [POST /api/decisions]; [None] is a body rejected by the schema. *)
Definition postDecision (body : option InsertDecision.t)
    : M (Creation Decision.t) :=
  tryCatch
    (match body with
     | None => ret (Refused 400 "Invalid decision data")
     | Some data =>
         meeting <- storage.getMeeting (InsertDecision.meetingId data) ;;
         match meeting with
         | None => ret (Refused 404 "Meeting not found")
         | Some _ =>
             decision <- storage.createDecision data ;;
             ret (Created 201 decision)
         end
     end)
    (fun _ => ret (Refused 500 "Failed to create decision")).

(** ** The route that reads summaries (registerRoutes, lines 425-452) *)

Inductive SummaryAnswer :=
| SummaryFound (summary : MeetingSummary.t)
| SummaryList (summaries : list (MeetingSummary.t * Meeting.t))
| SummaryRefused (status : nat) (message : string).

(** [Promise.all(meetings.map(async meeting => ...))]: for each meeting its
    summary with the meeting attached, or [null]. *)
Fixpoint summariesOfMeetings (rows : list Meeting.t)
    : M (list (option (MeetingSummary.t * Meeting.t))) :=
  match rows with
  | [] => ret []
  | meeting :: rest =>
      summary <- storage.getMeetingSummaryByMeeting (Meeting.id meeting) ;;
      others <- summariesOfMeetings rest ;;
      ret (match summary with
           | Some summary => Some (summary, meeting)
           | None => None
           end :: others)
  end.

(** [summaries.filter(Boolean)] *)
Fixpoint filterBoolean {A} (l : list (option A)) : list A :=
  match l with
  | [] => []
  | Some a :: rest => a :: filterBoolean rest
  | None :: rest => filterBoolean rest
  end.

(** [GET /api/meeting-summaries]; a missing or zero [meetingId] is
    falsy. *)
Definition getMeetingSummariesRoute (meetingId : option nat)
    : M SummaryAnswer :=
  tryCatch
    (match meetingId with
     | Some ((S _) as meetingId) =>
         summary <- storage.getMeetingSummaryByMeeting meetingId ;;
         match summary with
         | None => ret (SummaryRefused 404 "Meeting summary not found")
         | Some summary => ret (SummaryFound summary)
         end
     | _ =>
         meetings <- getMeetings ;;
         summaries <- summariesOfMeetings meetings ;;
         ret (SummaryList (filterBoolean summaries))
     end)
    (fun _ => ret (SummaryRefused 500 "Failed to fetch meeting summaries")).

(** ** Routes that read meetings (registerRoutes, lines 24-65 and 109-122) *)

(** [ORDER BY id DESC] on the rows of a table.  The column is the primary
    key, so no two rows compare equal. *)
Fixpoint insertDesc (m : Meeting.t) (rows : list Meeting.t) : list Meeting.t :=
  match rows with
  | [] => [m]
  | x :: rest =>
      if Meeting.id x <=? Meeting.id m then m :: rows
      else x :: insertDesc m rest
  end.

Definition orderByIdDesc (rows : list Meeting.t) : list Meeting.t :=
  fold_right insertDesc [] rows.

(** [GET /api/meetings]: every column of every row, by a direct query. *)
Definition getMeetingsRoute : M (Listing Meeting.t) :=
  tryCatch
    (w <- getWorld ;;
     ret (Listed (orderByIdDesc (meetings (db w)))))
    (fun _ => ret (ListingFailed 500 "Failed to fetch meetings")).

(** [GET /api/meetings/:id] *)
Definition getMeetingRoute (meetingId : nat) : M (Creation Meeting.t) :=
  tryCatch
    (meeting <- storage.getMeeting meetingId ;;
     match meeting with
     | None => ret (Refused 404 "Meeting not found")
     | Some meeting => ret (Created 200 meeting)
     end)
    (fun _ => ret (Refused 500 "Failed to fetch meeting")).

(** ** The name of the downloaded document (registerRoutes, line 579) *)

Definition is_digit (c : ascii) : bool :=
  let n := nat_of_ascii c in (48 <=? n) && (n <=? 57).

(** The pattern of the replacement: a character that is no letter, of
    either case, and no digit. *)
Definition isNameChar (c : ascii) : bool :=
  is_lower c || is_upper c || is_digit c.

(** [meeting.title.replace(P, '_').toLowerCase()] followed by
    [_summary.docx]. *)
Definition downloadName (title : string) : string :=
  (toLowerCase (map_chars (fun c => if isNameChar c then c else "_"%char) title)
   ^ "_summary.docx")%string.

(** ** The participant list of the meeting form (MeetingForm.tsx) *)

Record FormState := {
  formParticipants : list string;
  participantInput : string
}.

(** [addParticipant] (lines 188-193) *)
Definition addParticipant (s : FormState) : FormState :=
  if truthy (trim (participantInput s))
     && negb (existsb (String.eqb (trim (participantInput s)))
                      (formParticipants s))
  then {| formParticipants := formParticipants s ++ [trim (participantInput s)];
          participantInput := EmptyString |}
  else s.

(** [removeParticipant] (lines 195-197) *)
Definition removeParticipant (participant : string) (s : FormState)
    : FormState :=
  {| formParticipants :=
       filter (fun p => negb (String.eqb p participant)) (formParticipants s);
     participantInput := participantInput s |}.
(** * Definitions used to state the properties *)

(** Occurrences of a character in a string. *)
Fixpoint count (c : ascii) (s : string) : nat :=
  match s with
  | EmptyString => 0
  | String x s' => (if Ascii.eqb x c then 1 else 0) + count c s'
  end.

(** The normalizer row by row, in the words of the specification. *)
Module NormalizerSpec.

Definition concatAll (l : list string) : string :=
  fold_right String.append EmptyString l.

(** The comma-delimited fields of a line, commas inside double quotes not
    counting. *)
Definition fields (rawLine : string) : list string :=
  splitCsv (trim rawLine).

Definition isBlank (rawLine : string) : bool := negb (truthy (trim rawLine)).

(** A well-formed three-column line. *)
Definition wellFormed (rawLine : string) : bool :=
  negb (isBlank rawLine) && (List.length (fields rawLine) =? 3).

(** A field with its double quotes removed and its ends trimmed. *)
Definition clean (field : string) : string := trim (stripQuotes field).

(** The canonical line, closed by a line feed. *)
Definition canonical (timestamp speaker text : string) : string :=
  ("[" ^ timestamp ^ "] " ^ speaker ^ ": " ^ text ^ nl)%string.

(** The canonical line of a three-column line. *)
Definition canonicalOf (rawLine : string) : string :=
  match fields rawLine with
  | [timestamp; speaker; text] =>
      canonical (clean timestamp) (clean speaker) (clean text)
  | _ => EmptyString
  end.

(** What one line of the body adds to the formatted text. *)
Definition rowOutput (rawLine : string) : string :=
  if isBlank rawLine then EmptyString
  else if 3 <=? List.length (fields rawLine)
       then Normalizer.canonicalLine (fields rawLine)
       else (trim rawLine ^ nl)%string.

(** The speaker values of the lines that have three fields or more. *)
Definition speakerValues (rows : list string) : list string :=
  flat_map (fun r =>
              if negb (isBlank r) && (3 <=? List.length (fields r))
              then [Normalizer.speakerOf (fields r)] else [])
           rows.

Definition keepSpeaker (speaker : string) : bool :=
  truthy speaker && negb (String.eqb speaker "undefined").

(** The distinct values of a list, each at its first occurrence. *)
Fixpoint firstSeen (l : list string) : list string :=
  match l with
  | [] => []
  | x :: rest => x :: filter (fun y => negb (String.eqb y x)) (firstSeen rest)
  end.

End NormalizerSpec.

(** An invariant of the world kept by a computation, whether it returns or
    throws. *)
Definition maintains {A} (I : World -> Prop) (c : M A) : Prop :=
  forall w, I w -> I (snd (c w)).

(** A computation that never throws. *)
Definition returns {A} (c : M A) : Prop :=
  forall w, exists a, fst (c w) = Return a.

(** The elements of a list with their positions. *)
Fixpoint numbered {A} (start : nat) (l : list A) : list (nat * A) :=
  match l with
  | [] => []
  | x :: rest => (start, x) :: numbered (S start) rest
  end.

Section DerivationSpec.

Context {platform : Platform}.

(** The row stored for entry number [k] of a [decisions] array, in a pass
    that starts in world [w]. *)
Definition decisionRow (w : World) (meetingId : nat) (topic : string)
    (entry : nat * DecisionDetail.t) : Decision.t :=
  {| Decision.id := S (decisionSeq (db w) + fst entry);
     Decision.values :=
       {| InsertDecision.meetingId := meetingId;
          InsertDecision.description := DecisionDetail.decision (snd entry);
          InsertDecision.owner := DecisionDetail.owner (snd entry);
          InsertDecision.timestamp :=
            toLocaleTimeString (clock (ticks w + fst entry));
          InsertDecision.context := topic |} |}.

(** The row stored for entry number [k] of a [taskAssignments] array. *)
Definition taskRow (w : World) (meetingId : nat)
    (entry : nat * TaskAssignment.t) : ActionItem.t :=
  {| ActionItem.id := S (actionItemSeq (db w) + fst entry);
     ActionItem.values :=
       {| InsertActionItem.meetingId := meetingId;
          InsertActionItem.task := TaskAssignment.task (snd entry);
          InsertActionItem.assignee := TaskAssignment.assignee (snd entry);
          InsertActionItem.deadline := deadlineAt (clock (ticks w + fst entry));
          InsertActionItem.priority := "Medium";
          InsertActionItem.status := "Pending";
          InsertActionItem.notes := Some autoNotes |} |}.

(** The summarization client fails: no credential, no client, or a call
    that throws, brings no content or brings content that does not parse. *)
Definition analysisFails (w : World) : bool :=
  negb (truthyOpt (OPENAI_API_KEY w))
  || negb (openaiReady w)
  || match remote (remoteCalls w) with
     | Parsed _ => false
     | _ => true
     end.

End DerivationSpec.

Section InsightSpec.

Context {platform : Platform}.

(** The owner of a decision read from a string insight: the name before a
    leading colon, else the first participant named in the text, else the
    team. *)
Definition plainOwner (text : string) (participants : list string) : string :=
  match matchSpeakerPrefix text with
  | Some name => trim name
  | None =>
      match find (fun p => includes text p) participants with
      | Some participant => participant
      | None => "Team"
      end
  end.

(** A string insight that yields a decision: not empty, and one of the
    seven keywords occurs in its lowercased text. *)
Definition yieldsDecision (text : string) : bool :=
  truthy text && existsb (includes (toLowerCase text)) decisionKeywords.

(** The row stored for the string insight number [k] among those that
    yield a decision. *)
Definition insightRow (w : World) (meetingId : nat) (topic : string)
    (participants : list string) (entry : nat * string) : Decision.t :=
  {| Decision.id := S (decisionSeq (db w) + fst entry);
     Decision.values :=
       {| InsertDecision.meetingId := meetingId;
          InsertDecision.description := snd entry;
          InsertDecision.owner := plainOwner (snd entry) participants;
          InsertDecision.timestamp :=
            toLocaleTimeString (clock (ticks w + fst entry));
          InsertDecision.context := topic |} |}.

Definition lengthOpt {A} (o : option (list A)) : nat :=
  match o with Some l => List.length l | None => 0 end.

End InsightSpec.

(** ** Sample inputs for the concrete runs *)

Fixpoint endsWith (s suffix : string) : bool :=
  String.eqb s suffix
  || match s with
     | EmptyString => false
     | String _ s' => endsWith s' suffix
     end.

(** A platform for the concrete runs: a clock that advances by one
    millisecond per reading, a service whose calls all fail, fixed date
    labels, and [extname] and [basename] for plain file names. *)
Definition samplePlatform : Platform :=
  {| clock := fun n => (1700000000000 + Z.of_nat n)%Z;
     remote := fun _ => CallFails;
     toLocaleTimeString := fun _ => "10:13:20 PM";
     toLocaleDateString := fun _ => "11/14/2023";
     toISOString := fun _ => "2023-11-14T22:13:20.000Z";
     extname := fun name =>
       if endsWith name ".csv" then ".csv"
       else if endsWith name ".txt" then ".txt" else EmptyString;
     basename := fun name ext =>
       if endsWith name ext
       then substring 0 (String.length name - String.length ext) name
       else name |}.

(** A header and three rows, the speakers being A, B, A. *)
Definition sampleCsv : string :=
  ("timestamp,speaker,text" ^ nl ^ "00:01,A,hello there" ^ nl
   ^ "00:02,B,hi all" ^ nl ^ "00:03,A,ok")%string.

Definition sampleMeeting : InsertMeeting.t :=
  {| InsertMeeting.title := "Weekly sync";
     InsertMeeting.date := "2023-11-14";
     InsertMeeting.startTime := "10:00";
     InsertMeeting.endTime := "11:00";
     InsertMeeting.duration := "1 hour";
     InsertMeeting.participants := ["Jamie Lee"; "Sam"];
     InsertMeeting.location := "Room 1";
     InsertMeeting.transcriptUrl := None;
     InsertMeeting.transcriptText := None;
     InsertMeeting.createdBy := 1;
     InsertMeeting.teamId := None;
     InsertMeeting.isPublic := Some false |}.

(** A world with one meeting (id 1), a credential, a ready client and two
    files on disk. *)
Definition sampleWorld : World :=
  {| db := setMeetings emptyStore
             [{| Meeting.id := 1; Meeting.values := sampleMeeting |}] 1;
     OPENAI_API_KEY := Some "sk-test";
     openaiReady := true;
     fs := fun path =>
       if String.eqb path "uploads/notes.txt" then Some "We agreed to ship."
       else if String.eqb path "uploads/sync.csv"
       then Some ("timestamp,speaker,text" ^ nl ^ "00:01,A,hello")%string
       else None;
     ticks := 0;
     remoteCalls := 0;
     analyses := [] |}.

(** The same world without a credential. *)
Definition noKeyWorld : World :=
  {| db := db sampleWorld; OPENAI_API_KEY := None; openaiReady := false;
     fs := fs sampleWorld; ticks := 0; remoteCalls := 0; analyses := [] |}.

Definition textFile : File.t :=
  {| File.fieldname := "transcript"; File.originalname := "notes.txt";
     File.mimetype := "text/plain"; File.path := "uploads/notes.txt" |}.

Definition csvFile : File.t :=
  {| File.fieldname := "transcript"; File.originalname := "sync.csv";
     File.mimetype := "text/csv"; File.path := "uploads/sync.csv" |}.

Section OrchestratorSpec.

Context {platform : Platform}.

(** The transcript text an upload for an existing meeting reads from the
    file, [None] when the file is not read as text or cannot be read. *)
Definition transcriptOf (file : File.t) (w : World) : option string :=
  if isReadable file then
    match fs w (File.path file) with
    | Some rawContent =>
        Some (if isCsv file then Normalizer.formatExisting rawContent
              else rawContent)
    | None => None
    end
  else None.

(** A meeting row after the upload of a transcript for it: the two
    transcript columns are written, the text only when there is one. *)
Definition withTranscript (file : File.t) (transcriptText : option string)
    (m : Meeting.t) : Meeting.t :=
  {| Meeting.id := Meeting.id m;
     Meeting.values :=
       {| InsertMeeting.title := InsertMeeting.title m;
          InsertMeeting.date := InsertMeeting.date m;
          InsertMeeting.startTime := InsertMeeting.startTime m;
          InsertMeeting.endTime := InsertMeeting.endTime m;
          InsertMeeting.duration := InsertMeeting.duration m;
          InsertMeeting.participants := InsertMeeting.participants m;
          InsertMeeting.location := InsertMeeting.location m;
          InsertMeeting.transcriptUrl := Some (File.path file);
          InsertMeeting.transcriptText :=
            if truthyOpt transcriptText then transcriptText
            else InsertMeeting.transcriptText m;
          InsertMeeting.createdBy := InsertMeeting.createdBy m;
          InsertMeeting.teamId := InsertMeeting.teamId m;
          InsertMeeting.isPublic := InsertMeeting.isPublic m |} |}.

(** The table of meetings after the upload of a transcript for the meeting
    [meetingId]. *)
Definition uploadedTo (file : File.t) (text : option string) (meetingId : nat)
    (rows : list Meeting.t) : list Meeting.t :=
  map (fun m => if Meeting.id m =? meetingId then withTranscript file text m
                else m) rows.

End OrchestratorSpec.

(** A stored summary carries the seven fields of the placeholder built
    around [message]. *)
Definition holdsPlaceholder (summary : MeetingSummary.t) (message : string)
    : Prop :=
  let d := createPlaceholderSummary message in
  MeetingSummary.executiveSummary summary = SummaryData.executiveSummary d
  /\ MeetingSummary.attendees summary = SummaryData.attendees d
  /\ Some (MeetingSummary.keyDiscussionPoints summary)
     = SummaryData.keyDiscussionPoints d
  /\ Some (MeetingSummary.followUpRequirements summary)
     = SummaryData.followUpRequirements d
  /\ MeetingSummary.sentimentAnalysis summary = SummaryData.sentimentAnalysis d
  /\ MeetingSummary.transcriptHighlights summary
     = SummaryData.transcriptHighlights d
  /\ MeetingSummary.decisionMakers summary = SummaryData.decisionMakers d.

Section PlaceholderSpec.

Context {platform : Platform}.

(** The decision derived from the placeholder in a pass that starts in
    world [w]. *)
Definition placeholderDecision (w : World) (meetingId : nat) : Decision.t :=
  {| Decision.id := S (decisionSeq (db w));
     Decision.values :=
       {| InsertDecision.meetingId := meetingId;
          InsertDecision.description :=
            "Configure OpenAI API key to enable AI features";
          InsertDecision.owner := "Administrator";
          InsertDecision.timestamp := toLocaleTimeString (clock (ticks w));
          InsertDecision.context := "OpenAI Integration Required" |} |}.

(** The action item derived from the placeholder; its clock reading comes
    after that of the decision. *)
Definition placeholderActionItem (w : World) (meetingId : nat) : ActionItem.t :=
  {| ActionItem.id := S (actionItemSeq (db w));
     ActionItem.values :=
       {| InsertActionItem.meetingId := meetingId;
          InsertActionItem.task :=
            "Add OpenAI API key to environment variables";
          InsertActionItem.assignee := "Administrator";
          InsertActionItem.deadline := deadlineAt (clock (S (ticks w)));
          InsertActionItem.priority := "Medium";
          InsertActionItem.status := "Pending";
          InsertActionItem.notes := Some autoNotes |} |}.

End PlaceholderSpec.

(** The invariant of the table of summaries: no two rows share an id, no
    two rows refer to the same meeting, and every id was drawn from the
    sequence. *)
Definition SummaryInv (s : Store) : Prop :=
  NoDup (map MeetingSummary.id (meetingSummaries s))
  /\ NoDup (map MeetingSummary.meetingId (meetingSummaries s))
  /\ Forall (fun r => MeetingSummary.id r <= meetingSummarySeq s)
            (meetingSummaries s).

(** The ids of the summaries that refer to a meeting. *)
Definition summaryIdsOf (meetingId : nat) (s : Store) : list nat :=
  map MeetingSummary.id
      (filter (fun r => MeetingSummary.meetingId r =? meetingId)
              (meetingSummaries s)).

(** A row of the table of summaries after an update of the rows with
    identity [id]. *)
Definition patchRow (id : nat) (p : SummaryPatch.t) (r : MeetingSummary.t)
    : MeetingSummary.t :=
  if MeetingSummary.id r =? id then storage.patchSummary p r else r.

(** The table of summaries after the update path of an analysis pass. *)
Definition summariesUpdated (existing : MeetingSummary.t)
    (data : SummaryData.t) (rows : list MeetingSummary.t)
    : list MeetingSummary.t :=
  map (patchRow (MeetingSummary.id existing) (SummaryPatch.ofData data)) rows.

(** The world with the table of summaries rewritten. *)
Definition withSummaries (w : World) (rows : list MeetingSummary.t) : World :=
  {| db := setMeetingSummaries (db w) rows (meetingSummarySeq (db w));
     OPENAI_API_KEY := OPENAI_API_KEY w; openaiReady := openaiReady w;
     fs := fs w; ticks := ticks w; remoteCalls := remoteCalls w;
     analyses := analyses w |}.

Section AnalysisSpec.

Context {platform : Platform}.

(** What [analyzeTranscript] returns in world [w]. *)
Definition analysisOf (w : World) : SummaryData.t :=
  if negb (truthyOpt (OPENAI_API_KEY w))
  then createPlaceholderSummary noKeyMessage
  else if negb (openaiReady w)
       then createPlaceholderSummary errorMessage
       else match remote (remoteCalls w) with
            | Parsed data => data
            | _ => createPlaceholderSummary errorMessage
            end.

End AnalysisSpec.

(** A summary written by hand for meeting 1, and a patch that moves a
    summary to meeting 2. *)
Definition manualSummary : InsertMeetingSummary.t :=
  {| InsertMeetingSummary.meetingId := 1;
     InsertMeetingSummary.data :=
       {| SummaryData.executiveSummary := "Manual summary";
          SummaryData.attendees := None;
          SummaryData.keyDiscussionPoints := Some [];
          SummaryData.followUpRequirements := Some
            {| FollowUp.nextMeeting := None; FollowUp.deferredTopics := None;
               FollowUp.resources := None; FollowUp.taskAssignments := None |};
          SummaryData.sentimentAnalysis :=
            {| Sentiment.tone := "Calm"; Sentiment.engagement := "High";
               Sentiment.concerns := None |};
          SummaryData.transcriptHighlights := [];
          SummaryData.decisionMakers := None |};
     InsertMeetingSummary.attachments := None |}.

Definition moveToMeeting2 : SummaryPatch.t :=
  {| SummaryPatch.meetingId := Some 2;
     SummaryPatch.executiveSummary := None;
     SummaryPatch.attendees := None;
     SummaryPatch.keyDiscussionPoints := None;
     SummaryPatch.followUpRequirements := None;
     SummaryPatch.sentimentAnalysis := None;
     SummaryPatch.transcriptHighlights := None;
     SummaryPatch.decisionMakers := None;
     SummaryPatch.attachments := None |}.

(** A discussion point with two explicit decisions and an insight that
    holds a keyword. *)
Definition samplePoint : DiscussionPoint.t :=
  {| DiscussionPoint.topic := "Release";
     DiscussionPoint.summary := "When to ship";
     DiscussionPoint.contributors := None;
     DiscussionPoint.insights := Some [PlainInsight "Sam: we agreed to ship"];
     DiscussionPoint.questions := [];
     DiscussionPoint.decisions := Some [
       {| DecisionDetail.decision := "Ship on Friday";
          DecisionDetail.owner := "Sam" |};
       {| DecisionDetail.decision := "Freeze on Thursday";
          DecisionDetail.owner := "Jamie Lee" |} ] |}.

(** Summary data with one task assignment and one resource. *)
Definition sampleFollowUp : FollowUp.t :=
  {| FollowUp.nextMeeting := None;
     FollowUp.deferredTopics := None;
     FollowUp.resources := Some ["Design doc"];
     FollowUp.taskAssignments := Some [
       {| TaskAssignment.task := "Draft RFC";
          TaskAssignment.assignee := "Sam" |} ] |}.

Definition sampleData : SummaryData.t :=
  {| SummaryData.executiveSummary := "Release planning";
     SummaryData.attendees := None;
     SummaryData.keyDiscussionPoints := Some [samplePoint];
     SummaryData.followUpRequirements := Some sampleFollowUp;
     SummaryData.sentimentAnalysis :=
       {| Sentiment.tone := "Calm"; Sentiment.engagement := "High";
          Sentiment.concerns := None |};
     SummaryData.transcriptHighlights := [];
     SummaryData.decisionMakers := None |}.

(** A reply of the service with one speaker-attributed insight that holds a
    keyword, and one task assignment; a platform whose service gives that
    reply. *)
Definition attributedData : SummaryData.t :=
  {| SummaryData.executiveSummary := "Release planning";
     SummaryData.attendees := None;
     SummaryData.keyDiscussionPoints := Some [
       {| DiscussionPoint.topic := "Release";
          DiscussionPoint.summary := "When to ship";
          DiscussionPoint.contributors := None;
          DiscussionPoint.insights := Some [
            AttributedInsight (Some "We agreed to ship on Friday") None
              (Some "John Doe") ];
          DiscussionPoint.questions := [];
          DiscussionPoint.decisions := None |} ];
     SummaryData.followUpRequirements := Some sampleFollowUp;
     SummaryData.sentimentAnalysis :=
       {| Sentiment.tone := "Calm"; Sentiment.engagement := "High";
          Sentiment.concerns := None |};
     SummaryData.transcriptHighlights := [];
     SummaryData.decisionMakers := None |}.

Definition attributedPlatform : Platform :=
  {| clock := @clock samplePlatform;
     remote := fun _ => Parsed attributedData;
     toLocaleTimeString := @toLocaleTimeString samplePlatform;
     toLocaleDateString := @toLocaleDateString samplePlatform;
     toISOString := @toISOString samplePlatform;
     extname := @extname samplePlatform;
     basename := @basename samplePlatform |}.


(** * Definitions used to state the further properties *)

(** A value that fits a 32-bit integer column. *)
Definition inInt4 (n : nat) : Prop := (Z.of_nat n <= 2147483647)%Z.

(** The date of an instant written in ISO 8601: the characters before the
    first [T]. *)
Fixpoint isoDate (iso : string) : string :=
  match iso with
  | EmptyString => EmptyString
  | String c rest => if Ascii.eqb c "T" then EmptyString
                     else String c (isoDate rest)
  end.

(** The UTC calendar of an instant given in milliseconds since the epoch
    (years 0 to 9999), for a platform whose dates can be read. *)
Module Calendar.

Local Open Scope Z_scope.

Definition digit (d : Z) : ascii := ascii_of_nat (48 + Z.to_nat d).

Definition pad2 (n : Z) : string :=
  String (digit (n / 10)) (String (digit (n mod 10)) EmptyString).

Definition pad3 (n : Z) : string := String (digit (n / 100)) (pad2 (n mod 100)).

Definition pad4 (n : Z) : string := String (digit (n / 1000)) (pad3 (n mod 1000)).

(** Year, month and day of the day number [z] counted from 1970-01-01. *)
Definition civil (z : Z) : Z * Z * Z :=
  let z := z + 719468 in
  let era := z / 146097 in
  let doe := z - era * 146097 in
  let yoe := (doe - doe / 1460 + doe / 36524 - doe / 146096) / 365 in
  let doy := doe - (365 * yoe + yoe / 4 - yoe / 100) in
  let mp := (5 * doy + 2) / 153 in
  let d := doy - (153 * mp + 2) / 5 + 1 in
  let m := if mp <? 10 then mp + 3 else mp - 9 in
  let y := yoe + era * 400 + (if m <=? 2 then 1 else 0) in
  (y, m, d).

Definition toISOString (t : Z) : string :=
  let '(y, m, d) := civil (t / 86400000) in
  let ms := t mod 86400000 in
  (pad4 y ^ "-" ^ pad2 m ^ "-" ^ pad2 d ^ "T"
   ^ pad2 (ms / 3600000) ^ ":" ^ pad2 (ms / 60000 mod 60) ^ ":"
   ^ pad2 (ms / 1000 mod 60) ^ "." ^ pad3 (ms mod 1000) ^ "Z")%string.

End Calendar.

(** The sample platform with a calendar: [toISOString] gives the UTC date
    and time of the instant. *)
Definition calendarPlatform : Platform :=
  {| clock := @clock samplePlatform;
     remote := @remote samplePlatform;
     toLocaleTimeString := @toLocaleTimeString samplePlatform;
     toLocaleDateString := @toLocaleDateString samplePlatform;
     toISOString := Calendar.toISOString;
     extname := @extname samplePlatform;
     basename := @basename samplePlatform |}.

(** The result of a computation meets [P] whenever it returns. *)
Definition ensures {A} (P : A -> Prop) (c : M A) : Prop :=
  forall w a w', c w = (Return a, w') -> P a.

(** An analysis pass that reports a result reports a success. *)
Definition reportsSuccess (analysed : option SaveResult) : Prop :=
  forall result, analysed = Some result -> success result = true.

(** What a derived decision says: description, owner and context. *)
Record Draft := {
  draftDescription : string;
  draftOwner : string;
  draftContext : string
}.

Definition draftOf (row : Decision.t) : Draft :=
  {| draftDescription := InsertDecision.description row;
     draftOwner := InsertDecision.owner row;
     draftContext := InsertDecision.context row |}.

Section DerivationMoreSpec.

Context {platform : Platform}.

(** An insight at which the derivation does not stop: a string, or an
    object whose text is empty or holds no keyword. *)
Definition quiet (insight : Insight) : bool :=
  match insight with
  | PlainInsight _ => true
  | AttributedInsight _ _ _ =>
      negb (truthy (insightTextOf insight)
            && isDecisionBearing (insightTextOf insight))
  end.

(** The string insights that yield a decision, in order. *)
Definition yieldingTexts (insights : list Insight) : list string :=
  flat_map (fun insight =>
              match insight with
              | PlainInsight text => if yieldsDecision text then [text] else []
              | AttributedInsight _ _ _ => []
              end) insights.

Definition quietPoint (point : DiscussionPoint.t) : bool :=
  match DiscussionPoint.decisions point with
  | Some (_ :: _) => true
  | _ =>
      match DiscussionPoint.insights point with
      | Some insights => forallb quiet insights
      | None => true
      end
  end.

(** The decisions a discussion point stands for: its explicit decisions
    when it has some, else its string insights that yield a decision. *)
Definition draftsOfPoint (participants : list string)
    (point : DiscussionPoint.t) : list Draft :=
  match DiscussionPoint.decisions point with
  | Some ((_ :: _) as decisions) =>
      map (fun d => {| draftDescription := DecisionDetail.decision d;
                       draftOwner := DecisionDetail.owner d;
                       draftContext := DiscussionPoint.topic point |})
          decisions
  | _ =>
      match DiscussionPoint.insights point with
      | Some insights =>
          map (fun text =>
                 {| draftDescription := text;
                    draftOwner := plainOwner text participants;
                    draftContext := DiscussionPoint.topic point |})
              (yieldingTexts insights)
      | None => []
      end
  end.

Definition draftsOf (participants : list string) (summaryData : SummaryData.t)
    : list Draft :=
  match SummaryData.keyDiscussionPoints summaryData with
  | Some points => flat_map (draftsOfPoint participants) points
  | None => []
  end.

(** The row stored for draft number [k] of a pass that starts in world
    [w]: the next identities in order, one clock reading per row. *)
Definition draftRow (w : World) (meetingId : nat) (entry : nat * Draft)
    : Decision.t :=
  {| Decision.id := S (decisionSeq (db w) + fst entry);
     Decision.values :=
       {| InsertDecision.meetingId := meetingId;
          InsertDecision.description := draftDescription (snd entry);
          InsertDecision.owner := draftOwner (snd entry);
          InsertDecision.timestamp :=
            toLocaleTimeString (clock (ticks w + fst entry));
          InsertDecision.context := draftContext (snd entry) |} |}.

(** The world after [rows] were appended to the decisions, one clock
    reading each. *)
Definition afterDecisions (w : World) (rows : list Decision.t) : World :=
  {| db := setDecisions (db w) (decisions (db w) ++ rows)
             (decisionSeq (db w) + List.length rows);
     OPENAI_API_KEY := OPENAI_API_KEY w;
     openaiReady := openaiReady w;
     fs := fs w;
     ticks := ticks w + List.length rows;
     remoteCalls := remoteCalls w;
     analyses := analyses w |}.

(** The action item of entry number [k] of a [taskAssignments] array, in a
    pass that starts in world [w]: the next identity, the task and the
    assignee of the entry, and as deadline the date of the instant one
    week (604800000 ms) after the clock reading taken for the entry. *)
Definition taskItem (w : World) (meetingId : nat)
    (entry : nat * TaskAssignment.t) : ActionItem.t :=
  {| ActionItem.id := S (actionItemSeq (db w) + fst entry);
     ActionItem.values :=
       {| InsertActionItem.meetingId := meetingId;
          InsertActionItem.task := TaskAssignment.task (snd entry);
          InsertActionItem.assignee := TaskAssignment.assignee (snd entry);
          InsertActionItem.deadline :=
            isoDate (toISOString (clock (ticks w + fst entry) + 604800000)%Z);
          InsertActionItem.priority := "Medium";
          InsertActionItem.status := "Pending";
          InsertActionItem.notes :=
            Some "Auto-generated from meeting analysis" |} |}.

(** What a pass over a list of insights stores before it returns or
    stops: the drafts, and whether it stops (at an insight that is not
    quiet). *)
Fixpoint insightPlan (participants : list string) (topic : string)
    (insights : list Insight) : list Draft * bool :=
  match insights with
  | [] => ([], false)
  | insight :: rest =>
      if quiet insight then
        let '(drafts, stopped) := insightPlan participants topic rest in
        (match insight with
         | PlainInsight text =>
             if yieldsDecision text
             then [{| draftDescription := text;
                      draftOwner := plainOwner text participants;
                      draftContext := topic |}]
             else []
         | AttributedInsight _ _ _ => []
         end ++ drafts, stopped)
      else ([], true)
  end.

Definition pointPlan (participants : list string) (point : DiscussionPoint.t)
    : list Draft * bool :=
  match DiscussionPoint.decisions point with
  | Some ((_ :: _) as decisions) =>
      (map (fun d => {| draftDescription := DecisionDetail.decision d;
                        draftOwner := DecisionDetail.owner d;
                        draftContext := DiscussionPoint.topic point |})
           decisions, false)
  | _ =>
      match DiscussionPoint.insights point with
      | Some insights =>
          insightPlan participants (DiscussionPoint.topic point) insights
      | None => ([], false)
      end
  end.

Fixpoint pointsPlan (participants : list string)
    (points : list DiscussionPoint.t) : list Draft * bool :=
  match points with
  | [] => ([], false)
  | point :: rest =>
      let '(drafts, stopped) := pointPlan participants point in
      if stopped then (drafts, true)
      else let '(later, stopped') := pointsPlan participants rest in
           (drafts ++ later, stopped')
  end.

(** The outcome of a pass that stops, or does not. *)
Definition planOutcome (stopped : bool) : outcome unit :=
  if stopped then Throw (TypeError "insight.match is not a function")
  else Return tt.

(** The row stored for entry number [k] of a [resources] array. *)
Definition resourceRow (w : World) (meetingId : nat) (assignee : string)
    (entry : nat * string) : ActionItem.t :=
  {| ActionItem.id := S (actionItemSeq (db w) + fst entry);
     ActionItem.values :=
       {| InsertActionItem.meetingId := meetingId;
          InsertActionItem.task := ("Share resource: " ^ snd entry)%string;
          InsertActionItem.assignee := assignee;
          InsertActionItem.deadline := deadlineAt (clock (ticks w + fst entry));
          InsertActionItem.priority := "Medium";
          InsertActionItem.status := "Pending";
          InsertActionItem.notes := Some autoNotes |} |}.

(** The world after [rows] were appended to the action items, one clock
    reading each. *)
Definition afterActionItems (w : World) (rows : list ActionItem.t) : World :=
  {| db := setActionItems (db w) (actionItems (db w) ++ rows)
             (actionItemSeq (db w) + List.length rows);
     OPENAI_API_KEY := OPENAI_API_KEY w;
     openaiReady := openaiReady w;
     fs := fs w;
     ticks := ticks w + List.length rows;
     remoteCalls := remoteCalls w;
     analyses := analyses w |}.

End DerivationMoreSpec.

Section UploadMoreSpec.

Context {platform : Platform}.

(** The action items a summary stands for, stored by a pass that starts in
    world [w]: its task assignments when it has some, else its
    resources. *)
Definition itemsAt (w : World) (meetingId : nat) (participants : list string)
    (summaryData : SummaryData.t) : list ActionItem.t :=
  match SummaryData.followUpRequirements summaryData with
  | Some followUp =>
      match FollowUp.taskAssignments followUp with
      | Some ((_ :: _) as taskAssignments) =>
          map (taskRow w meetingId) (numbered 0 taskAssignments)
      | _ =>
          match FollowUp.resources followUp with
          | Some resources =>
              map (resourceRow w meetingId
                     (resolveAssignee (SummaryData.attendees summaryData)
                                      participants))
                  (numbered 0 resources)
          | None => []
          end
      end
  | None => []
  end.

(** Whether an upload is accepted: the meeting named exists or, when none
    is named, the file is read as text and can be read. *)
Definition uploadSucceeds (file : File.t) (meetingId : option nat) (w : World)
    : bool :=
  match meetingId with
  | Some ((S _) as meetingId) =>
      match find (fun m => Meeting.id m =? meetingId) (meetings (db w)) with
      | Some _ => true
      | None => false
      end
  | _ =>
      isReadable file
      && match fs w (File.path file) with Some _ => true | None => false end
  end.

End UploadMoreSpec.

(** A stored summary carries the fields of [data] that an analysis pass
    always writes. *)
Definition holdsData (summary : MeetingSummary.t) (data : SummaryData.t)
    : Prop :=
  MeetingSummary.executiveSummary summary = SummaryData.executiveSummary data
  /\ Some (MeetingSummary.keyDiscussionPoints summary)
     = SummaryData.keyDiscussionPoints data
  /\ Some (MeetingSummary.followUpRequirements summary)
     = SummaryData.followUpRequirements data
  /\ MeetingSummary.sentimentAnalysis summary
     = SummaryData.sentimentAnalysis data
  /\ MeetingSummary.transcriptHighlights summary
     = SummaryData.transcriptHighlights data.

(** A platform whose service answers every call with [sampleData]. *)
Definition answeringPlatform : Platform :=
  {| clock := @clock samplePlatform;
     remote := fun _ => Parsed sampleData;
     toLocaleTimeString := @toLocaleTimeString samplePlatform;
     toLocaleDateString := @toLocaleDateString samplePlatform;
     toISOString := @toISOString samplePlatform;
     extname := @extname samplePlatform;
     basename := @basename samplePlatform |}.

Section RoutesMoreSpec.

Context {platform : Platform}.

(** A summary that has the two columns an insert requires. *)
Definition validData (data : SummaryData.t) : bool :=
  match SummaryData.keyDiscussionPoints data,
        SummaryData.followUpRequirements data with
  | Some _, Some _ => true
  | _, _ => false
  end.

(** The status [POST /api/analyze-transcript] answers with in world [w]. *)
Definition analyzeStatus (meetingId : option nat) (w : World) : nat :=
  match meetingId with
  | Some ((S _) as meetingId) =>
      match find (fun m => Meeting.id m =? meetingId) (meetings (db w)) with
      | None => 404
      | Some meeting =>
          if negb (truthyOpt (InsertMeeting.transcriptText meeting)) then 400
          else
            match find (fun s => MeetingSummary.meetingId s
                                 =? Meeting.id meeting)
                       (meetingSummaries (db w)) with
            | Some _ => 200
            | None => if validData (analysisOf w) then 200 else 500
            end
      end
  | _ => 400
  end.

(** The status [POST /api/meeting-summaries] answers with in world [w]. *)
Definition summaryStatus (body : option InsertMeetingSummary.t) (w : World)
    : nat :=
  match body with
  | None => 400
  | Some data =>
      if negb (validSummary data) then 400
      else
        match find (fun m => Meeting.id m =? InsertMeetingSummary.meetingId data)
                   (meetings (db w)) with
        | None => 404
        | Some _ =>
            match find (fun s => MeetingSummary.meetingId s
                                 =? InsertMeetingSummary.meetingId data)
                       (meetingSummaries (db w)) with
            | Some _ => 409
            | None => 201
            end
        end
  end.

End RoutesMoreSpec.

(** The keys of a table with a [serial] column: no key occurs twice and
    each was drawn from the sequence. *)
Definition keysOk {Row} (key : Row -> nat) (rows : list Row) (seq : nat)
    : Prop :=
  NoDup (map key rows) /\ Forall (fun r => key r <= seq) rows.

(** The primary keys of the tables of meetings, decisions and action
    items. *)
Definition KeysInv (s : Store) : Prop :=
  keysOk Meeting.id (meetings s) (meetingSeq s)
  /\ keysOk Decision.id (decisions s) (decisionSeq s)
  /\ keysOk ActionItem.id (actionItems s) (actionItemSeq s).

(** The sequences of the three tables are at or beyond those of [s0]. *)
Definition seqsFrom (s0 s : Store) : Prop :=
  meetingSeq s0 <= meetingSeq s
  /\ decisionSeq s0 <= decisionSeq s
  /\ actionItemSeq s0 <= actionItemSeq s.

(** The invariant of the keys in a run that starts from the store [s0]. *)
Definition keysFrom (s0 : Store) (w : World) : Prop :=
  KeysInv (db w) /\ seqsFrom s0 (db w).

(** The row of a meeting after a recording was linked to it. *)
Definition withRecording (filePath : string) (m : Meeting.t) : Meeting.t :=
  {| Meeting.id := Meeting.id m;
     Meeting.values :=
       {| InsertMeeting.title := InsertMeeting.title m;
          InsertMeeting.date := InsertMeeting.date m;
          InsertMeeting.startTime := InsertMeeting.startTime m;
          InsertMeeting.endTime := InsertMeeting.endTime m;
          InsertMeeting.duration := InsertMeeting.duration m;
          InsertMeeting.participants := InsertMeeting.participants m;
          InsertMeeting.location := InsertMeeting.location m;
          InsertMeeting.transcriptUrl := Some filePath;
          InsertMeeting.transcriptText := InsertMeeting.transcriptText m;
          InsertMeeting.createdBy := InsertMeeting.createdBy m;
          InsertMeeting.teamId := InsertMeeting.teamId m;
          InsertMeeting.isPublic := InsertMeeting.isPublic m |} |}.

(** The characters of a string. *)
Fixpoint chars (s : string) : list ascii :=
  match s with
  | EmptyString => []
  | String c s' => c :: chars s'
  end.

(** A participant list of the form: no name twice, no empty name. *)
Definition tidy (participants : list string) : Prop :=
  NoDup participants /\ ~ In EmptyString participants.

(** ** Further sample inputs *)

(** A reply without explicit decisions: two string insights, one of which
    holds a keyword, an object insight without keyword, and resources in
    place of task assignments. *)
Definition insightData : SummaryData.t :=
  {| SummaryData.executiveSummary := "Budget review";
     SummaryData.attendees := Some [
       {| Attendee.name := "Ann"; Attendee.role := "Lead";
          Attendee.contributions := "Opened the meeting";
          Attendee.responsibleFor := Some ["Minutes"] |};
       {| Attendee.name := "Bob"; Attendee.role := "Analyst";
          Attendee.contributions := "Presented the numbers";
          Attendee.responsibleFor := Some ["Sharing the documents"] |} ];
     SummaryData.keyDiscussionPoints := Some [
       {| DiscussionPoint.topic := "Budget";
          DiscussionPoint.summary := "Next quarter";
          DiscussionPoint.contributors := None;
          DiscussionPoint.insights := Some [
            PlainInsight "Sam: we agreed to cut travel";
            PlainInsight "Numbers look fine";
            AttributedInsight (Some "Costs went down") None (Some "Bob") ];
          DiscussionPoint.questions := [];
          DiscussionPoint.decisions := None |} ];
     SummaryData.followUpRequirements := Some
       {| FollowUp.nextMeeting := None; FollowUp.deferredTopics := None;
          FollowUp.resources := Some ["Budget sheet"; "Travel policy"];
          FollowUp.taskAssignments := Some [] |};
     SummaryData.sentimentAnalysis :=
       {| Sentiment.tone := "Calm"; Sentiment.engagement := "High";
          Sentiment.concerns := None |};
     SummaryData.transcriptHighlights := [];
     SummaryData.decisionMakers := None |}.

(** The discussion point of [insightData], then [samplePoint]. *)
Definition twoPointData : SummaryData.t :=
  {| SummaryData.executiveSummary := "Budget and release";
     SummaryData.attendees := None;
     SummaryData.keyDiscussionPoints :=
       Some (storage.orElse (SummaryData.keyDiscussionPoints insightData) []
             ++ [samplePoint]);
     SummaryData.followUpRequirements := Some sampleFollowUp;
     SummaryData.sentimentAnalysis :=
       {| Sentiment.tone := "Calm"; Sentiment.engagement := "High";
          Sentiment.concerns := None |};
     SummaryData.transcriptHighlights := [];
     SummaryData.decisionMakers := None |}.

(** The discussion point of [attributedData], whose object insight holds a
    keyword, then [samplePoint]. *)
Definition stoppedData : SummaryData.t :=
  {| SummaryData.executiveSummary := "Release planning";
     SummaryData.attendees := None;
     SummaryData.keyDiscussionPoints :=
       Some (storage.orElse (SummaryData.keyDiscussionPoints attributedData) []
             ++ [samplePoint]);
     SummaryData.followUpRequirements := Some sampleFollowUp;
     SummaryData.sentimentAnalysis :=
       {| Sentiment.tone := "Calm"; Sentiment.engagement := "High";
          Sentiment.concerns := None |};
     SummaryData.transcriptHighlights := [];
     SummaryData.decisionMakers := None |}.

(** A recording, a PDF file whose name ends in [.csv], and the table of
    the recordings with one row. *)
Definition recordingFile : File.t :=
  {| File.fieldname := "recording"; File.originalname := "sync.mp3";
     File.mimetype := "audio/mpeg"; File.path := "uploads/sync.mp3" |}.

Definition pdfNamedCsv : File.t :=
  {| File.fieldname := "transcript"; File.originalname := "x.csv";
     File.mimetype := "application/pdf"; File.path := "uploads/x.csv" |}.

Definition pdfFile : File.t :=
  {| File.fieldname := "transcript"; File.originalname := "minutes.pdf";
     File.mimetype := "application/pdf"; File.path := "uploads/minutes.pdf" |}.

Definition insightFollowUp : FollowUp.t :=
  {| FollowUp.nextMeeting := None; FollowUp.deferredTopics := None;
     FollowUp.resources := Some ["Budget sheet"; "Travel policy"];
     FollowUp.taskAssignments := Some [] |}.

(** The world without a credential after a transcript was uploaded for
    meeting 1 and a summary was written by hand for it. *)
Definition handWrittenWorld : World :=
  @serve samplePlatform
    [PostUploadTranscript (Some textFile) 1 (Some 1);
     PostMeetingSummary (Some manualSummary)] noKeyWorld.
(** * Properties of the normalizer *)

Section StringFacts.

Lemma append_assoc (a b c : string) :
  ((a ^ b) ^ c = a ^ (b ^ c))%string.
Proof. induction a as [|x a IH]; simpl; [reflexivity | now rewrite IH]. Qed.

Lemma append_empty_r (a : string) : (a ^ EmptyString)%string = a.
Proof. induction a as [|x a IH]; simpl; [reflexivity | now rewrite IH]. Qed.

Lemma count_append c (a b : string) :
  count c (a ^ b)%string = count c a + count c b.
Proof. induction a as [|x a IH]; simpl; [reflexivity | rewrite IH; lia]. Qed.

Lemma count_trimStart c s : count c (trimStart s) <= count c s.
Proof.
  induction s as [|x s IH]; simpl; [lia|].
  destruct (is_space x); simpl; lia.
Qed.

Lemma count_trimEnd c s : count c (trimEnd s) <= count c s.
Proof.
  induction s as [|x s IH]; simpl; [lia|].
  destruct (trimEnd s) eqn:E.
  - destruct (is_space x); simpl in *; lia.
  - simpl in *. lia.
Qed.

Lemma count_trim c s : count c (trim s) <= count c s.
Proof.
  unfold trim. etransitivity; [apply count_trimEnd | apply count_trimStart].
Qed.

Lemma count_stripQuotes c s : count c (stripQuotes s) <= count c s.
Proof.
  induction s as [|x s IH]; simpl; [lia|].
  destruct (Ascii.eqb x DQ); simpl; lia.
Qed.

(** No piece of [split] holds the separator. *)
Lemma split_pieces sep s : Forall (fun p => count sep p = 0) (split sep s).
Proof.
  induction s as [|x s IH]; simpl.
  - constructor; [reflexivity | constructor].
  - destruct (Ascii.eqb x sep) eqn:E.
    + constructor; [reflexivity | exact IH].
    + destruct (split sep s) as [|h t]; inversion IH; subst;
        constructor; simpl; rewrite ?E; auto.
Qed.

Lemma split_nonempty sep s : split sep s <> [].
Proof.
  destruct s as [|x s]; simpl; [discriminate|].
  destruct (Ascii.eqb x sep); [discriminate|].
  destruct (split sep s); discriminate.
Qed.

Lemma splitCsv_pieces c s :
  Forall (fun p => count c p <= count c s) (splitCsv s).
Proof.
  induction s as [|x s IH]; simpl.
  - constructor; [simpl; lia | constructor].
  - assert (W : Forall (fun p => count c p
                 <= (if Ascii.eqb x c then 1 else 0) + count c s)
                (splitCsv s)).
    { eapply Forall_impl; [|exact IH]. simpl. intros; lia. }
    destruct (Ascii.eqb x "," && Nat.even (countQuotes s)).
    + constructor; [simpl; lia | exact W].
    + destruct (splitCsv s) as [|h t].
      * constructor; [simpl; lia | constructor].
      * inversion IH; subst. inversion W; subst.
        constructor; [simpl; lia | assumption].
Qed.

Lemma count_join c sep parts :
  count c sep = 0 ->
  Forall (fun p => count c p = 0) parts ->
  count c (join sep parts) = 0.
Proof.
  intros Hs H. unfold join.
  induction H as [|p l Hp Hl IH]; simpl; [reflexivity|].
  destruct l as [|q l]; [exact Hp|].
  rewrite !count_append, Hp, Hs. simpl. exact IH.
Qed.

End StringFacts.

Section NormalizerFacts.

Import NormalizerSpec.

Lemma stepNew_text acc rawLine :
  fst (Normalizer.stepNew acc rawLine) = (fst acc ^ rowOutput rawLine)%string.
Proof.
  destruct acc as [t ps]. unfold Normalizer.stepNew, rowOutput, isBlank, fields.
  destruct (negb (truthy (trim rawLine))).
  - simpl. now rewrite append_empty_r.
  - destruct (3 <=? List.length (splitCsv (trim rawLine))); reflexivity.
Qed.

Lemma stepNew_participants acc rawLine :
  snd (Normalizer.stepNew acc rawLine)
  = fold_left (fun ps s => Normalizer.setAdd s ps)
              (filter keepSpeaker (speakerValues [rawLine])) (snd acc).
Proof.
  destruct acc as [t ps].
  unfold Normalizer.stepNew, speakerValues, isBlank, fields, keepSpeaker.
  cbn [flat_map]. destruct (negb (truthy (trim rawLine))); [reflexivity|].
  cbn [negb andb].
  destruct (3 <=? List.length (splitCsv (trim rawLine))); [|reflexivity].
  cbn [snd app filter].
  destruct (truthy _ && negb _); reflexivity.
Qed.

Lemma stepExisting_text t rawLine :
  Normalizer.stepExisting t rawLine = (t ^ rowOutput rawLine)%string.
Proof.
  unfold Normalizer.stepExisting, rowOutput, isBlank, fields.
  destruct (negb (truthy (trim rawLine))).
  - now rewrite append_empty_r.
  - destruct (3 <=? List.length (splitCsv (trim rawLine))); reflexivity.
Qed.

Lemma fold_stepNew_text rows : forall acc,
  fst (fold_left Normalizer.stepNew rows acc)
  = (fst acc ^ concatAll (map rowOutput rows))%string.
Proof.
  induction rows as [|r rows IH]; intros acc; simpl.
  - now rewrite append_empty_r.
  - rewrite IH, stepNew_text, append_assoc. reflexivity.
Qed.

Lemma fold_stepExisting_text rows : forall t,
  fold_left Normalizer.stepExisting rows t
  = (t ^ concatAll (map rowOutput rows))%string.
Proof.
  induction rows as [|r rows IH]; intros t; simpl.
  - now rewrite append_empty_r.
  - rewrite IH, stepExisting_text, append_assoc. reflexivity.
Qed.

Lemma speakerValues_cons r rows :
  speakerValues (r :: rows) = speakerValues [r] ++ speakerValues rows.
Proof. unfold speakerValues. simpl. now rewrite app_nil_r. Qed.

Lemma fold_stepNew_participants rows : forall acc,
  snd (fold_left Normalizer.stepNew rows acc)
  = fold_left (fun ps s => Normalizer.setAdd s ps)
              (filter keepSpeaker (speakerValues rows)) (snd acc).
Proof.
  induction rows as [|r rows IH]; intros acc; [reflexivity|].
  cbn [fold_left].
  rewrite IH, stepNew_participants, (speakerValues_cons r rows), filter_app,
    fold_left_app.
  reflexivity.
Qed.

(** The set kept in insertion order is the list of first occurrences. *)
Lemma filter_filter {A} (p q : A -> bool) l :
  filter p (filter q l) = filter (fun x => p x && q x) l.
Proof.
  induction l as [|x l IH]; simpl; [reflexivity|].
  destruct (q x); simpl; rewrite ?andb_true_r, ?andb_false_r;
    [destruct (p x)|]; now rewrite IH.
Qed.

Lemma existsb_eqb_app x y ps :
  existsb (String.eqb x) (ps ++ [y])
  = existsb (String.eqb x) ps || String.eqb x y.
Proof. rewrite existsb_app. simpl. now rewrite orb_false_r. Qed.

Lemma fold_setAdd l : forall ps,
  fold_left (fun ps s => Normalizer.setAdd s ps) l ps
  = ps ++ filter (fun y => negb (existsb (String.eqb y) ps)) (firstSeen l).
Proof.
  induction l as [|x l IH]; intros ps; simpl.
  - now rewrite app_nil_r.
  - rewrite IH. unfold Normalizer.setAdd.
    rewrite filter_filter.
    destruct (existsb (String.eqb x) ps) eqn:E; simpl.
    + f_equal. apply filter_ext. intros y.
      destruct (String.eqb_spec y x) as [->|N]; simpl.
      * rewrite E. reflexivity.
      * now rewrite andb_true_r.
    + rewrite <- app_assoc. simpl. f_equal. f_equal.
      apply filter_ext. intros y. rewrite existsb_eqb_app, negb_orb.
      reflexivity.
Qed.

Lemma rowOutput_count r : count LF r = 0 ->
  count LF (rowOutput r) = if isBlank r then 0 else 1.
Proof.
  intros H. unfold rowOutput.
  destruct (isBlank r); [reflexivity|].
  assert (T : count LF (trim r) = 0) by (pose proof (count_trim LF r); lia).
  assert (P : Forall (fun p => count LF p = 0) (fields r)).
  { eapply Forall_impl; [|apply (splitCsv_pieces LF)].
    simpl. intros p Hp. unfold fields in *. lia. }
  destruct (3 <=? List.length (fields r)).
  - unfold Normalizer.canonicalLine, Normalizer.timestampOf,
      Normalizer.speakerOf, Normalizer.textOf.
    assert (Z : forall s, count LF s = 0 -> count LF (trim (stripQuotes s)) = 0).
    { intros s Hs. pose proof (count_trim LF (stripQuotes s)).
      pose proof (count_stripQuotes LF s). lia. }
    assert (N : forall n, count LF (nth n (fields r) EmptyString) = 0).
    { intros n. destruct (nth_in_or_default n (fields r) EmptyString) as [I| ->];
        [|reflexivity].
      rewrite Forall_forall in P. now apply P. }
    rewrite !count_append, !Z; auto.
    apply count_join; [reflexivity|].
    rewrite Forall_forall in *. intros p Hp. apply P.
    revert Hp. generalize 2. intros n.
    revert p. generalize (fields r). clear.
    induction n as [|n IH]; intros l p; [simpl; auto|].
    destruct l; simpl; [intros []|]. intros Hp. right. now apply IH.
  - rewrite count_append, T. reflexivity.
Qed.

Lemma concat_rows_count rows :
  Forall (fun r => count LF r = 0) rows ->
  count LF (concatAll (map rowOutput rows))
  = List.length (filter (fun r => negb (isBlank r)) rows).
Proof.
  induction 1 as [|r rows Hr Hrows IH]; simpl; [reflexivity|].
  rewrite count_append, IH, rowOutput_count by assumption.
  destruct (isBlank r); reflexivity.
Qed.

Lemma body_rows rawContent :
  Forall (fun r => count LF r = 0) (Normalizer.body rawContent).
Proof.
  unfold Normalizer.body. rewrite Forall_forall. intros r Hr.
  pose proof (split_pieces LF rawContent) as P. rewrite Forall_forall in P.
  apply P. revert Hr. generalize (Normalizer.startLine (split LF rawContent)).
  generalize (split LF rawContent). clear. intros l n. revert l.
  induction n as [|n IH]; intros l; [simpl; auto|].
  destruct l; simpl; [intros []|]. intros Hp. right. now apply IH.
Qed.

Lemma formatExisting_formatNew rawContent :
  Normalizer.formatExisting rawContent = fst (Normalizer.formatNew rawContent).
Proof.
  unfold Normalizer.formatExisting, Normalizer.formatNew.
  now rewrite fold_stepExisting_text, fold_stepNew_text.
Qed.

Lemma wellFormed_rows rows :
  Forall (fun r => wellFormed r = true) rows ->
  filter (fun r => negb (isBlank r)) rows = rows.
Proof.
  induction 1 as [|r rows Hr Hrows IH]; simpl; [reflexivity|].
  unfold wellFormed in Hr. apply andb_true_iff in Hr as [-> _].
  now rewrite IH.
Qed.

Lemma wellFormed_rowOutput r :
  wellFormed r = true -> rowOutput r = canonicalOf r.
Proof.
  unfold wellFormed, rowOutput, canonicalOf. intros H.
  apply andb_true_iff in H as [B L]. apply negb_true_iff in B. rewrite B.
  apply Nat.eqb_eq in L.
  destruct (fields r) as [|f0 [|f1 [|f2 [|f3 rest]]]]; try discriminate.
  reflexivity.
Qed.

Lemma wellFormed_text rows :
  Forall (fun r => wellFormed r = true) rows ->
  map rowOutput rows = map canonicalOf rows.
Proof.
  induction 1 as [|r rows Hr Hrows IH]; cbn; [reflexivity|].
  now rewrite IH, wellFormed_rowOutput.
Qed.

End NormalizerFacts.

(** C2, as amended.  For every CSV content: the first line is left out as a
    header exactly when it contains [timestamp] or [speaker]; the formatted
    text is the concatenation, in the order of the lines, of what each line
    of the body adds; a line with exactly three fields adds the canonical
    line [[timestamp] speaker: text] made of its cleaned fields; a line
    that is not blank and has fewer than three fields adds itself, trimmed,
    and a blank line adds nothing; when every line of the body is a
    well-formed three-column line the text is the canonical lines of the
    rows, one line per row;
    and the participants are the distinct speaker values that are neither
    empty nor [undefined], in the order of their first occurrence. *)
Theorem csv_normalization (rawContent : string) :
  let lines := split LF rawContent in
  let rows := Normalizer.body rawContent in
  let formattedText := fst (Normalizer.formatNew rawContent) in
  let participants := snd (Normalizer.formatNew rawContent) in
  rows = (if includes (hd EmptyString lines) "timestamp"
             || includes (hd EmptyString lines) "speaker"
          then tl lines else lines)
  /\ formattedText = NormalizerSpec.concatAll (map NormalizerSpec.rowOutput rows)
  /\ (forall r f0 f1 f2,
        NormalizerSpec.isBlank r = false ->
        NormalizerSpec.fields r = [f0; f1; f2] ->
        NormalizerSpec.rowOutput r
        = NormalizerSpec.canonical (NormalizerSpec.clean f0)
            (NormalizerSpec.clean f1) (NormalizerSpec.clean f2))
  /\ (forall r,
        NormalizerSpec.isBlank r = false ->
        List.length (NormalizerSpec.fields r) < 3 ->
        NormalizerSpec.rowOutput r = (trim r ^ nl)%string)
  /\ (forall r,
        NormalizerSpec.isBlank r = true ->
        NormalizerSpec.rowOutput r = EmptyString)
  /\ (Forall (fun r => NormalizerSpec.wellFormed r = true) rows ->
      formattedText
      = NormalizerSpec.concatAll (map NormalizerSpec.canonicalOf rows)
      /\ count LF formattedText = List.length rows)
  /\ participants
     = NormalizerSpec.firstSeen
         (filter NormalizerSpec.keepSpeaker (NormalizerSpec.speakerValues rows)).
Proof.
  cbv zeta. repeat split.
  - unfold Normalizer.body, Normalizer.startLine.
    destruct (includes _ "timestamp" || includes _ "speaker").
    + destruct (split LF rawContent); reflexivity.
    + reflexivity.
  - unfold Normalizer.formatNew. now rewrite fold_stepNew_text.
  - intros r f0 f1 f2 B F. unfold NormalizerSpec.rowOutput.
    rewrite B, F. reflexivity.
  - intros r B L. unfold NormalizerSpec.rowOutput. rewrite B.
    destruct (Nat.leb_spec 3 (List.length (NormalizerSpec.fields r)));
      [lia | reflexivity].
  - intros r B. unfold NormalizerSpec.rowOutput. now rewrite B.
  - unfold Normalizer.formatNew. rewrite fold_stepNew_text.
    cbn [fst append]. now rewrite wellFormed_text.
  - unfold Normalizer.formatNew. rewrite fold_stepNew_text.
    cbn [fst append]. rewrite concat_rows_count by apply body_rows.
    now rewrite wellFormed_rows.
  - unfold Normalizer.formatNew. rewrite fold_stepNew_participants.
    rewrite fold_setAdd. cbn [snd app existsb negb].
    induction (NormalizerSpec.firstSeen _) as [|x l IH]; [reflexivity|].
    cbn [filter]. now rewrite IH.
Qed.

(** * Reasoning about computations *)

Section MonadFacts.

Context {platform : Platform}.

Lemma maintains_ret {A} I (a : A) : maintains I (ret a).
Proof. intros w H. exact H. Qed.

Lemma maintains_throw {A} I e : maintains I (@throw A e).
Proof. intros w H. exact H. Qed.

Lemma maintains_getWorld I : maintains I getWorld.
Proof. intros w H. exact H. Qed.

Lemma maintains_bind {A B} I (c : M A) (k : A -> M B) :
  maintains I c -> (forall a, maintains I (k a)) -> maintains I (bind c k).
Proof.
  intros Hc Hk w H. unfold bind. specialize (Hc w H).
  destruct (c w) as [[a|e] w']; simpl in *; [now apply Hk | exact Hc].
Qed.

Lemma maintains_tryCatch {A} I (c : M A) (h : exn -> M A) :
  maintains I c -> (forall e, maintains I (h e)) -> maintains I (tryCatch c h).
Proof.
  intros Hc Hh w H. unfold tryCatch. specialize (Hc w H).
  destruct (c w) as [[a|e] w']; simpl in *; [exact Hc | now apply Hh].
Qed.

Lemma maintains_forEach {A} I (l : list A) (body : A -> M unit) :
  (forall x, maintains I (body x)) -> maintains I (forEach l body).
Proof.
  intros Hb. induction l as [|x l IH]; simpl.
  - apply maintains_ret.
  - apply maintains_bind; [apply Hb | intros _; exact IH].
Qed.

Lemma maintains_modifyDb I (f : Store -> Store) :
  (forall w, I w -> I (snd (modifyDb f w))) -> maintains I (modifyDb f).
Proof. intros H. exact H. Qed.

Lemma maintains_readFileSync I path : maintains I (readFileSync path).
Proof.
  intros w H. unfold readFileSync. destruct (fs w path); exact H.
Qed.

Lemma returns_ret {A} (a : A) : returns (ret a).
Proof. intros w. now exists a. Qed.

Lemma returns_bind {A B} (c : M A) (k : A -> M B) :
  returns c -> (forall a, returns (k a)) -> returns (bind c k).
Proof.
  intros Hc Hk w. unfold bind. destruct (Hc w) as [a Ha].
  destruct (c w) as [[r|e] w']; cbn in *; [apply Hk | discriminate].
Qed.

Lemma returns_tryCatch {A} (c : M A) (h : exn -> M A) :
  (forall e, returns (h e)) -> returns (tryCatch c h).
Proof.
  intros Hh w. unfold tryCatch.
  destruct (c w) as [[r|e] w']; cbn; [now exists r | apply Hh].
Qed.

Lemma returns_run {A} (c : M A) w :
  returns c -> exists a w', c w = (Return a, w').
Proof.
  intros H. destruct (H w) as [a Ha].
  destruct (c w) as [r w']. cbn in Ha. subst. now exists a, w'.
Qed.

End MonadFacts.

(** One step through the structure of a computation. *)
Ltac mstep :=
  lazymatch goal with
  | |- maintains _ (ret _) => apply maintains_ret
  | |- maintains _ (throw _) => apply maintains_throw
  | |- maintains _ getWorld => apply maintains_getWorld
  | |- maintains _ (readFileSync _) => apply maintains_readFileSync
  | |- maintains _ (respond _ _) => apply maintains_ret
  | |- maintains _ (bind _ _) => apply maintains_bind; [|intros ?]
  | |- maintains _ (tryCatch _ _) => apply maintains_tryCatch; [|intros ?]
  | |- maintains _ (forEach _ _) => apply maintains_forEach; intros ?
  | |- maintains _ (match ?x with _ => _ end) => destruct x
  end.


(** * Properties of the entity derivation *)

Section DerivationFacts.

Context {platform : Platform}.

Lemma numbered_length {A} (l : list A) n : List.length (numbered n l) = List.length l.
Proof. revert n. induction l as [|x l IH]; intros n; simpl; auto. Qed.

Lemma numbered_shift {A B} (f : nat * A -> B) (l : list A) n :
  map f (numbered (S n) l) = map (fun e => f (S (fst e), snd e)) (numbered n l).
Proof.
  revert n. induction l as [|x l IH]; intros n; simpl; [reflexivity|].
  now rewrite IH.
Qed.

Lemma deriveFromDecisions_run meetingId topic entries : forall w,
  deriveFromDecisions meetingId topic entries w
  = (Return tt,
     {| db := setDecisions (db w)
                (decisions (db w)
                 ++ map (decisionRow w meetingId topic) (numbered 0 entries))
                (decisionSeq (db w) + List.length entries);
        OPENAI_API_KEY := OPENAI_API_KEY w;
        openaiReady := openaiReady w;
        fs := fs w;
        ticks := ticks w + List.length entries;
        remoteCalls := remoteCalls w;
        analyses := analyses w |}).
Proof.
  induction entries as [|d entries IH]; intros w.
  - destruct w as [[] ? ? ? ? ? ?]. cbn. unfold setDecisions. cbn.
    now rewrite app_nil_r, !Nat.add_0_r.
  - unfold deriveFromDecisions in *. cbn [forEach].
    unfold bind at 1. unfold bind at 1. unfold now at 1.
    unfold bind at 1. unfold storage.createDecision at 1.
    cbn. rewrite IH. cbn. unfold setDecisions. cbn.
    rewrite <- app_assoc. cbn.
    rewrite numbered_shift.
    f_equal. f_equal; [|lia]. f_equal; [|lia].
    f_equal. f_equal.
    + unfold decisionRow. cbn. now rewrite !Nat.add_0_r.
    + apply map_ext. intros [k e]. unfold decisionRow. cbn.
      now rewrite !Nat.add_succ_r.
Qed.

Lemma deriveFromTasks_run meetingId entries : forall w,
  deriveFromTasks meetingId entries w
  = (Return tt,
     {| db := setActionItems (db w)
                (actionItems (db w)
                 ++ map (taskRow w meetingId) (numbered 0 entries))
                (actionItemSeq (db w) + List.length entries);
        OPENAI_API_KEY := OPENAI_API_KEY w;
        openaiReady := openaiReady w;
        fs := fs w;
        ticks := ticks w + List.length entries;
        remoteCalls := remoteCalls w;
        analyses := analyses w |}).
Proof.
  induction entries as [|d entries IH]; intros w.
  - destruct w as [[] ? ? ? ? ? ?]. cbn. unfold setActionItems. cbn.
    now rewrite app_nil_r, !Nat.add_0_r.
  - unfold deriveFromTasks in *. cbn [forEach].
    unfold bind at 1. unfold bind at 1. unfold now at 1.
    unfold bind at 1. unfold storage.createActionItem at 1.
    cbn. rewrite IH. cbn. unfold setActionItems. cbn.
    rewrite <- app_assoc. cbn.
    rewrite numbered_shift.
    f_equal. f_equal; [|lia]. f_equal; [|lia].
    f_equal. f_equal.
    + unfold taskRow. cbn. now rewrite !Nat.add_0_r.
    + apply map_ext. intros [k e]. unfold taskRow. cbn.
      now rewrite !Nat.add_succ_r.
Qed.

End DerivationFacts.

Section DerivationClaims.

Context {platform : Platform}.

(** The body of the loop over the discussion points, at a point whose
    [decisions] array is not empty: one decision per entry, whatever the
    insights of the point. *)
Lemma derivePoint_explicit (meetingId : nat) (participants : list string)
    (point : DiscussionPoint.t) (d : DecisionDetail.t)
    (ds : list DecisionDetail.t) (w : World) :
  DiscussionPoint.decisions point = Some (d :: ds) ->
  let w' := snd (derivePoint meetingId participants point w) in
  fst (derivePoint meetingId participants point w) = Return tt
  /\ decisions (db w')
     = decisions (db w)
       ++ map (decisionRow w meetingId (DiscussionPoint.topic point))
              (numbered 0 (d :: ds))
  /\ (forall participants' point',
        DiscussionPoint.decisions point' = DiscussionPoint.decisions point ->
        DiscussionPoint.topic point' = DiscussionPoint.topic point ->
        derivePoint meetingId participants' point' w
        = derivePoint meetingId participants point w).
Proof.
  intros H. cbv zeta. unfold derivePoint. rewrite H.
  rewrite deriveFromDecisions_run. cbn [fst snd db decisions setDecisions].
  split; [reflexivity | split; [reflexivity|]].
  intros participants' point' Hd Ht.
  now rewrite Hd, Ht, deriveFromDecisions_run.
Qed.

Lemma split_hd_isoDate iso : hd EmptyString (split "T" iso) = isoDate iso.
Proof.
  induction iso as [|c iso IH]; [reflexivity|].
  cbn [split isoDate]. destruct (Ascii.eqb c "T"); [reflexivity|].
  pose proof (split_nonempty "T" iso) as NE.
  destruct (split "T" iso) as [|h t]; [now elim NE|].
  cbn [hd] in *. now rewrite IH.
Qed.

Lemma taskRow_taskItem w meetingId entry :
  taskRow w meetingId entry = taskItem w meetingId entry.
Proof.
  unfold taskRow, taskItem, deadlineAt, weekMs, autoNotes.
  now rewrite split_hd_isoDate.
Qed.

(** C6.  When the follow-up structure has a [taskAssignments] list that is
    not empty, the pass returns and appends to the action items exactly
    one row per entry, in order: the task and the assignee are those of
    the entry, the deadline is the date (the part of the ISO 8601 form
    before the T) of the instant 604800000 ms, seven days, after the clock
    reading taken for the entry, the status is Pending, the priority
    Medium and the note the fixed marker.  Nothing else is stored, and the
    pass is the same whatever the resources, the attendees and the
    participants are: no item comes from the resources. *)
Theorem task_assignments_only (meetingId : nat) (participants : list string)
    (summaryData : SummaryData.t) (followUp : FollowUp.t)
    (t : TaskAssignment.t) (ts : list TaskAssignment.t) (w : World) :
  SummaryData.followUpRequirements summaryData = Some followUp ->
  FollowUp.taskAssignments followUp = Some (t :: ts) ->
  let out := deriveActionItems meetingId participants summaryData w in
  fst out = Return tt
  /\ actionItems (db (snd out))
     = actionItems (db w) ++ map (taskItem w meetingId) (numbered 0 (t :: ts))
  /\ decisions (db (snd out)) = decisions (db w)
  /\ (forall participants' summaryData' followUp',
        SummaryData.followUpRequirements summaryData' = Some followUp' ->
        FollowUp.taskAssignments followUp'
        = FollowUp.taskAssignments followUp ->
        deriveActionItems meetingId participants' summaryData' w = out).
Proof.
  intros Hf Ht. cbv zeta. unfold deriveActionItems. rewrite Hf, Ht.
  rewrite deriveFromTasks_run.
  cbn [fst snd db actionItems decisions setActionItems].
  split; [reflexivity|]. split; [|split; [reflexivity|]].
  - f_equal. apply map_ext. intros entry. apply taskRow_taskItem.
  - intros participants' summaryData' followUp' Hf' Ht'.
    rewrite Hf', Ht'. now rewrite deriveFromTasks_run.
Qed.

(** A string insight is classified by the seven keywords. *)
Lemma isDecisionBearing_keywords text :
  isDecisionBearing text
  = existsb (includes (toLowerCase text)) decisionKeywords.
Proof.
  unfold isDecisionBearing, decisionKeywords. cbn [existsb].
  now rewrite orb_false_r, !orb_assoc.
Qed.

Lemma matchSpeakerPrefix_truthy s g : matchSpeakerPrefix s = Some g -> truthy g = true.
Proof.
  unfold matchSpeakerPrefix. destruct (beforeColon s) as [[|c r]|]; try discriminate.
  intros [= <-]. reflexivity.
Qed.

Lemma resolveOwner_plain text participants w :
  resolveOwner (PlainInsight text) participants w
  = (Return (plainOwner text participants), w).
Proof.
  unfold resolveOwner, plainOwner. cbn [speakerNameOf].
  destruct (matchSpeakerPrefix text) as [g|] eqn:E; [|reflexivity].
  now rewrite (matchSpeakerPrefix_truthy _ E).
Qed.

(** The fallback over string insights: one decision for each insight that
    is not empty and holds a keyword, in order. *)
Lemma deriveFromInsights_plain meetingId topic participants texts : forall w,
  deriveFromInsights meetingId topic participants (map PlainInsight texts) w
  = (Return tt,
     {| db := setDecisions (db w)
                (decisions (db w)
                 ++ map (insightRow w meetingId topic participants)
                        (numbered 0 (filter yieldsDecision texts)))
                (decisionSeq (db w)
                 + List.length (filter yieldsDecision texts));
        OPENAI_API_KEY := OPENAI_API_KEY w;
        openaiReady := openaiReady w;
        fs := fs w;
        ticks := ticks w + List.length (filter yieldsDecision texts);
        remoteCalls := remoteCalls w;
        analyses := analyses w |}).
Proof.
  induction texts as [|s texts IH]; intros w.
  - destruct w as [[] ? ? ? ? ? ?]. cbn. unfold setDecisions. cbn.
    now rewrite app_nil_r, !Nat.add_0_r.
  - unfold deriveFromInsights in *. cbn [map forEach filter].
    assert (Y : yieldsDecision s = truthy s && isDecisionBearing s)
      by (unfold yieldsDecision; now rewrite isDecisionBearing_keywords).
    rewrite Y. cbn [insightTextOf]. unfold bind at 1.
    destruct (truthy s) eqn:T; cbn [negb andb].
    + destruct (isDecisionBearing s) eqn:B.
      * unfold bind at 1. rewrite resolveOwner_plain.
        unfold bind at 1. unfold now at 1.
        unfold bind at 1. unfold storage.createDecision at 1.
        cbn. rewrite IH. cbn. unfold setDecisions. cbn.
        rewrite <- app_assoc. cbn. rewrite numbered_shift.
        f_equal. f_equal; [|lia]. f_equal; [|lia].
        f_equal. f_equal.
        -- unfold insightRow. cbn. now rewrite !Nat.add_0_r.
        -- apply map_ext. intros [k e]. unfold insightRow. cbn.
           now rewrite !Nat.add_succ_r.
      * cbn. apply IH.
    + cbn. apply IH.
Qed.

(** C5, on the code.  Resolving the owner of an insight that carries a
    speaker (an object) never returns: [match] is called on the object and
    throws before any owner is chosen, whatever the speaker, the text and
    the participants. *)
Theorem attributed_owner_throws (insight text speaker : option string)
    (participants : list string) (w : World) :
  resolveOwner (AttributedInsight insight text speaker) participants w
  = (Throw (TypeError "insight.match is not a function"), w)
  /\ speakerNameOf (AttributedInsight insight text speaker)
     = (if truthyOpt speaker then speaker else None)
  /\ initials "John Doe" = "JD".
Proof. repeat split. Qed.

(** C4, on the code.  An object insight whose text is not empty and holds a
    keyword yields no decision: the pass over the insights throws at it,
    nothing is stored for it nor for the insights after it. *)
Theorem attributed_insight_aborts (meetingId : nat) (topic : string)
    (participants : list string) (insight text speaker : option string)
    (rest : list Insight) (w : World) :
  truthy (insightTextOf (AttributedInsight insight text speaker)) = true ->
  isDecisionBearing (insightTextOf (AttributedInsight insight text speaker))
  = true ->
  deriveFromInsights meetingId topic participants
    (AttributedInsight insight text speaker :: rest) w
  = (Throw (TypeError "insight.match is not a function"), w).
Proof.
  intros T B. unfold deriveFromInsights. cbn [forEach].
  unfold bind at 1. rewrite T, B. reflexivity.
Qed.

End DerivationClaims.

(** * Properties of the summarization client *)

Section ClientFacts.

Context {platform : Platform}.

(** What a call of [analyzeTranscript] leaves of the world: the call is
    recorded, the service may have been asked once, nothing else moves. *)
Lemma analyzeTranscript_world transcript meeting w :
  let w' := snd (analyzeTranscript transcript meeting w) in
  db w' = db w
  /\ OPENAI_API_KEY w' = OPENAI_API_KEY w
  /\ openaiReady w' = openaiReady w
  /\ fs w' = fs w
  /\ ticks w' = ticks w
  /\ analyses w' = (transcript, meeting) :: analyses w
  /\ exists data, fst (analyzeTranscript transcript meeting w) = Return data.
Proof.
  unfold analyzeTranscript, bind, enterAnalysis, getWorld, tryCatch, callRemote.
  cbn. destruct (truthyOpt (OPENAI_API_KEY w)); cbn.
  - destruct (openaiReady w); cbn.
    + destruct (remote (remoteCalls w)); cbn; repeat split; eauto.
    + repeat split; eauto.
  - repeat split; eauto.
Qed.

Lemma analyzeTranscript_result transcript meeting w :
  fst (analyzeTranscript transcript meeting w)
  = Return
      (if negb (truthyOpt (OPENAI_API_KEY w))
       then createPlaceholderSummary noKeyMessage
       else if negb (openaiReady w)
            then createPlaceholderSummary errorMessage
            else match remote (remoteCalls w) with
                 | Parsed data => data
                 | _ => createPlaceholderSummary errorMessage
                 end).
Proof.
  unfold analyzeTranscript, bind, enterAnalysis, getWorld, tryCatch, callRemote.
  cbn. destruct (truthyOpt (OPENAI_API_KEY w)); cbn; [|reflexivity].
  destruct (openaiReady w); cbn; [|reflexivity].
  destruct (remote (remoteCalls w)); reflexivity.
Qed.

(** C7, as amended.  When the client fails (no credential, no client, a
    call that throws or a reply without content or that does not parse),
    [analyzeTranscript] returns the placeholder, built around the message
    for a missing credential or the message for a failed call.  The
    placeholder has the fixed executive summary, exactly one discussion
    point (whose single insight is the message), one attendee, a follow-up
    structure with one deferred topic, one resource and one task
    assignment, a sentiment with tone and engagement filled in, and an
    empty list of transcript highlights. *)
Theorem failed_analysis_placeholder (transcript : string) (meeting : Meeting.t)
    (w : World) :
  analysisFails w = true ->
  let message :=
    if truthyOpt (OPENAI_API_KEY w) then errorMessage else noKeyMessage in
  let s := createPlaceholderSummary message in
  fst (analyzeTranscript transcript meeting w) = Return s
  /\ SummaryData.executiveSummary s
     = "Failed to generate summary. Please provide an OpenAI API key to enable this feature."
  /\ lengthOpt (SummaryData.keyDiscussionPoints s) = 1
  /\ option_map (map DiscussionPoint.insights)
       (SummaryData.keyDiscussionPoints s)
     = Some [Some [PlainInsight message]]
  /\ lengthOpt (SummaryData.attendees s) = 1
  /\ option_map (fun f => (lengthOpt (FollowUp.deferredTopics f),
                           lengthOpt (FollowUp.resources f),
                           lengthOpt (FollowUp.taskAssignments f)))
       (SummaryData.followUpRequirements s)
     = Some (1, 1, 1)
  /\ truthy (Sentiment.tone (SummaryData.sentimentAnalysis s)) = true
  /\ truthy (Sentiment.engagement (SummaryData.sentimentAnalysis s)) = true
  /\ SummaryData.transcriptHighlights s = [].
Proof.
  intros F. cbv zeta. split; [|repeat split].
  rewrite analyzeTranscript_result. unfold analysisFails in F.
  destruct (truthyOpt (OPENAI_API_KEY w)); cbn in *; [|reflexivity].
  destruct (openaiReady w); cbn in *; [|reflexivity].
  destruct (remote (remoteCalls w)); try reflexivity. discriminate.
Qed.

(** When nothing fails the reply of the service is returned as it is. *)
Lemma successful_analysis transcript meeting w data :
  truthyOpt (OPENAI_API_KEY w) = true ->
  openaiReady w = true ->
  remote (remoteCalls w) = Parsed data ->
  fst (analyzeTranscript transcript meeting w) = Return data.
Proof.
  intros K R P. rewrite analyzeTranscript_result, K, R, P. reflexivity.
Qed.

End ClientFacts.

(** * Properties of the orchestrator *)

(** A primitive keeps an invariant that does not read what it writes. *)
Ltac mprim := let w := fresh "w" in let H := fresh "H" in intros w H; exact H.

Ltac munfold :=
  unfold analyzeExisting, analyzeNew, analyzeTranscript, deriveDecisions,
    deriveActionItems, derivePoint, deriveFromDecisions, deriveFromInsights,
    deriveFromTasks, deriveFromResources, resolveOwner, today,
    storage.getMeeting, storage.createMeeting, storage.updateMeeting,
    storage.deleteMeeting, storage.createDecision, storage.createActionItem,
    storage.getMeetingSummaryByMeeting, storage.createMeetingSummary,
    storage.updateMeetingSummary, storage.deleteMeetingSummary.

Ltac mauto := repeat first [ solve [mprim] | solve [eauto] | mstep | progress munfold ].

Section OrchestratorFacts.

Context {platform : Platform}.

Lemma readTranscript_run file w :
  readTranscript file w = (Return (transcriptOf file w), w).
Proof.
  unfold readTranscript, transcriptOf, tryCatch, bind, readFileSync.
  destruct (isReadable file); [|reflexivity].
  destruct (fs w (File.path file)); [|reflexivity].
  destruct (isCsv file); reflexivity.
Qed.

Lemma patch_withTranscript file text (m : Meeting.t) :
  {| Meeting.id := Meeting.id m;
     Meeting.values := storage.patchMeeting (transcriptPatch file text) m |}
  = withTranscript file text m.
Proof.
  unfold withTranscript, storage.patchMeeting, transcriptPatch. cbn.
  destruct (truthyOpt text); reflexivity.
Qed.

(** The analysis of an upload leaves the table of meetings alone. *)
Lemma analyzeExisting_meetings L meetingId meeting text updated :
  maintains (fun w => meetings (db w) = L)
    (analyzeExisting meetingId meeting text updated).
Proof. mauto. Qed.

End OrchestratorFacts.

Section UploadFrame.

Context {platform : Platform}.

Lemma tryCatch_ret_world {A} (c : M A) (a : A) w :
  snd (tryCatch c (fun _ => ret a) w) = snd (c w).
Proof. unfold tryCatch. destruct (c w) as [[r|e] w']; reflexivity. Qed.

Lemma getMeeting_run id w :
  storage.getMeeting id w
  = (Return (find (fun m => Meeting.id m =? id) (meetings (db w))), w).
Proof. reflexivity. Qed.

Lemma updateMeeting_transcript file text meetingId w :
  storage.updateMeeting meetingId (transcriptPatch file text) w
  = (Return (find (fun m => Meeting.id m =? meetingId)
                  (uploadedTo file text meetingId (meetings (db w)))),
     {| db := setMeetings (db w)
                (uploadedTo file text meetingId (meetings (db w)))
                (meetingSeq (db w));
        OPENAI_API_KEY := OPENAI_API_KEY w; openaiReady := openaiReady w;
        fs := fs w; ticks := ticks w; remoteCalls := remoteCalls w;
        analyses := analyses w |}).
Proof.
  unfold storage.updateMeeting, bind, modifyDb, getWorld, ret, uploadedTo.
  cbn.
  assert (E : map (fun m : Meeting.t =>
                     if Meeting.id m =? meetingId
                     then {| Meeting.id := Meeting.id m;
                             Meeting.values :=
                               storage.patchMeeting (transcriptPatch file text) m |}
                     else m) (meetings (db w))
              = map (fun m => if Meeting.id m =? meetingId
                              then withTranscript file text m else m)
                    (meetings (db w))).
  { apply map_ext. intros m. now rewrite patch_withTranscript. }
  now rewrite E.
Qed.

Lemma find_uploadedTo file text meetingId rows meeting :
  find (fun m => Meeting.id m =? meetingId) rows = Some meeting ->
  find (fun m => Meeting.id m =? meetingId)
       (uploadedTo file text meetingId rows)
  = Some (withTranscript file text meeting).
Proof.
  unfold uploadedTo. induction rows as [|m rows IH]; cbn; [discriminate|].
  destruct (Meeting.id m =? meetingId) eqn:E; cbn.
  - rewrite E. now intros [= ->].
  - rewrite E. exact IH.
Qed.

(** The world after the upload of a transcript for an existing meeting, up
    to the analysis. *)
Lemma saveForExisting_meetings file meetingId meeting w :
  find (fun m => Meeting.id m =? meetingId) (meetings (db w)) = Some meeting ->
  meetings (db (snd (saveForExisting file meetingId w)))
  = uploadedTo file (transcriptOf file w) meetingId (meetings (db w)).
Proof.
  intros H. unfold saveForExisting.
  unfold bind at 1. rewrite getMeeting_run, H.
  unfold bind at 1. rewrite readTranscript_run.
  unfold bind at 1. rewrite updateMeeting_transcript.
  match goal with
  | |- meetings (db (snd (?c ?w1))) = ?L =>
      assert (K : maintains (fun w => meetings (db w) = L) c)
  end.
  { mstep; [mstep; [apply analyzeExisting_meetings | mauto] | mauto]. }
  apply K. reflexivity.
Qed.

End UploadFrame.

Section UploadFrameClaim.

Context {platform : Platform}.

(** C10.  The upload of a transcript file for an existing meeting rewrites
    the row of that meeting and no other; in the row only [transcriptUrl]
    (the path of the file) and [transcriptText] (the text read from the
    file, when there is one) change: title, date, start and end time,
    duration, participants, location, creator, team and visibility are
    those of before, whatever the analysis then does.  No participant is
    taken from the content of the file. *)
Theorem upload_changes_transcript_fields_only (file : File.t) (userId : nat)
    (meetingId : nat) (meeting : Meeting.t) (w : World) :
  meetingId <> 0 ->
  find (fun m => Meeting.id m =? meetingId) (meetings (db w)) = Some meeting ->
  let w' := snd (saveTranscriptToDatabase file userId (Some meetingId) w) in
  let text := transcriptOf file w in
  let meeting' := withTranscript file text meeting in
  meetings (db w') = uploadedTo file text meetingId (meetings (db w))
  /\ find (fun m => Meeting.id m =? meetingId) (meetings (db w'))
     = Some meeting'
  /\ Meeting.id meeting' = Meeting.id meeting
  /\ InsertMeeting.title meeting' = InsertMeeting.title meeting
  /\ InsertMeeting.date meeting' = InsertMeeting.date meeting
  /\ InsertMeeting.startTime meeting' = InsertMeeting.startTime meeting
  /\ InsertMeeting.endTime meeting' = InsertMeeting.endTime meeting
  /\ InsertMeeting.duration meeting' = InsertMeeting.duration meeting
  /\ InsertMeeting.participants meeting' = InsertMeeting.participants meeting
  /\ InsertMeeting.location meeting' = InsertMeeting.location meeting
  /\ InsertMeeting.createdBy meeting' = InsertMeeting.createdBy meeting
  /\ InsertMeeting.teamId meeting' = InsertMeeting.teamId meeting
  /\ InsertMeeting.isPublic meeting' = InsertMeeting.isPublic meeting
  /\ InsertMeeting.transcriptUrl meeting' = Some (File.path file)
  /\ InsertMeeting.transcriptText meeting'
     = (if truthyOpt text then text else InsertMeeting.transcriptText meeting).
Proof.
  intros N H. cbv zeta.
  assert (E : meetings (db (snd (saveTranscriptToDatabase file userId
                                   (Some meetingId) w)))
              = uploadedTo file (transcriptOf file w) meetingId
                  (meetings (db w))).
  { unfold saveTranscriptToDatabase. destruct meetingId as [|n]; [easy|].
    rewrite tryCatch_ret_world. now apply saveForExisting_meetings with meeting. }
  split; [exact E|]. split; [|repeat split].
  rewrite E. now apply find_uploadedTo.
Qed.

End UploadFrameClaim.

Section AnalysisTrigger.

Context {platform : Platform}.

Lemma analyzeTranscript_run transcript meeting w :
  exists data w',
    analyzeTranscript transcript meeting w = (Return data, w')
    /\ db w' = db w
    /\ OPENAI_API_KEY w' = OPENAI_API_KEY w
    /\ ticks w' = ticks w
    /\ analyses w' = (transcript, meeting) :: analyses w.
Proof.
  destruct (analyzeTranscript_world transcript meeting w)
    as (D & K & _ & _ & T & A & data & R).
  destruct (analyzeTranscript transcript meeting w) as [r w'] eqn:E.
  cbn in *. subst r. now exists data, w'.
Qed.

(** After the call of the client, the rest of an analysis pass records no
    further call. *)
Lemma analyzeExisting_analyses meetingId meeting text updated w :
  analyses (snd (analyzeExisting meetingId meeting text (Some updated) w))
  = if truthyOpt (OPENAI_API_KEY w) && truthyOpt text
    then (storage.orElse text EmptyString, updated) :: analyses w
    else analyses w.
Proof.
  unfold analyzeExisting. unfold bind at 1. cbn [getWorld].
  destruct (truthyOpt (OPENAI_API_KEY w) && truthyOpt text); [|reflexivity].
  unfold bind at 1.
  destruct (analyzeTranscript_run (storage.orElse text EmptyString) updated w)
    as (data & w' & -> & _ & _ & _ & A).
  match goal with
  | |- analyses (snd (?c ?w1)) = ?L =>
      assert (K : maintains (fun w => analyses w = L) c) by mauto
  end.
  apply K. exact A.
Qed.

Lemma analyzeNew_analyses (meeting : Meeting.t) w :
  analyses (snd (analyzeNew meeting w))
  = if truthyOpt (OPENAI_API_KEY w)
       && truthyOpt (InsertMeeting.transcriptText meeting)
    then (storage.orElse (InsertMeeting.transcriptText meeting) EmptyString,
          meeting) :: analyses w
    else analyses w.
Proof.
  unfold analyzeNew. unfold bind at 1. cbn [getWorld].
  destruct (truthyOpt (OPENAI_API_KEY w)
            && truthyOpt (InsertMeeting.transcriptText meeting));
    [|reflexivity].
  unfold bind at 1.
  destruct (analyzeTranscript_run
              (storage.orElse (InsertMeeting.transcriptText meeting)
                              EmptyString) meeting w)
    as (data & w' & -> & _ & _ & _ & A).
  match goal with
  | |- analyses (snd (?c ?w1)) = ?L =>
      assert (K : maintains (fun w => analyses w = L) c) by mauto
  end.
  apply K. exact A.
Qed.

(** The upload for an existing meeting calls the client exactly when a
    credential is configured and the text read from the file is not
    empty. *)
Lemma existing_upload_analysis file userId meetingId meeting w :
  meetingId <> 0 ->
  find (fun m => Meeting.id m =? meetingId) (meetings (db w)) = Some meeting ->
  let text := transcriptOf file w in
  analyses (snd (saveTranscriptToDatabase file userId (Some meetingId) w))
  = if truthyOpt (OPENAI_API_KEY w) && truthyOpt text
    then (storage.orElse text EmptyString, withTranscript file text meeting)
         :: analyses w
    else analyses w.
Proof.
  intros N H. cbv zeta. unfold saveTranscriptToDatabase.
  destruct meetingId as [|n]; [easy|].
  rewrite tryCatch_ret_world. unfold saveForExisting.
  unfold bind at 1. rewrite getMeeting_run, H.
  unfold bind at 1. rewrite readTranscript_run.
  unfold bind at 1. rewrite updateMeeting_transcript.
  erewrite find_uploadedTo by exact H.
  unfold bind at 1.
  match goal with
  | |- context [tryCatch ?c ?h ?w1] =>
      pose proof (tryCatch_ret_world c None w1) as T;
      pose proof (analyzeExisting_analyses (S n) meeting (transcriptOf file w)
                    (withTranscript file (transcriptOf file w) meeting) w1) as A;
      destruct (tryCatch c h w1) as [[r|e] w2]
  end; cbn [snd analyses OPENAI_API_KEY] in *; rewrite <- A, <- T.
  - destruct r; reflexivity.
  - reflexivity.
Qed.

End AnalysisTrigger.

Section NewMeetingUploads.

Context {platform : Platform}.

Lemma finish_world {A} (c : M (option A)) (d : A) w :
  snd ((analysed <- tryCatch c (fun _ => ret None) ;;
        match analysed with
        | Some result => ret result
        | None => ret d
        end) w)
  = snd (c w).
Proof.
  unfold bind, tryCatch. destruct (c w) as [[[r|]|e] w']; reflexivity.
Qed.

Lemma saveNewCsv_returns file userId raw : returns (saveNewCsv file userId raw).
Proof.
  unfold saveNewCsv. destruct (Normalizer.formatNew raw) as [text ps].
  apply returns_bind.
  - destruct (truthy _); [apply returns_ret|].
    apply returns_bind; [intros w; eexists; reflexivity | intros; apply returns_ret].
  - intros title. apply returns_bind; [intros w; eexists; reflexivity|].
    intros date. apply returns_bind; [intros w; eexists; reflexivity|].
    intros meeting. apply returns_bind.
    + apply returns_tryCatch. intros; apply returns_ret.
    + intros [r|]; apply returns_ret.
Qed.

Lemma saveNewText_returns file userId raw : returns (saveNewText file userId raw).
Proof. intros w. eexists. reflexivity. Qed.

Lemma saveForNew_read file userId raw w :
  isReadable file = true ->
  fs w (File.path file) = Some raw ->
  saveForNew file userId w
  = (if isCsv file then saveNewCsv file userId raw
     else saveNewText file userId raw) w.
Proof.
  intros R F. unfold saveForNew. rewrite R.
  unfold bind at 1. unfold tryCatch. unfold bind at 1.
  unfold readFileSync. rewrite F. unfold bind at 1.
  assert (T : returns (if isCsv file then saveNewCsv file userId raw
                       else saveNewText file userId raw)).
  { destruct (isCsv file);
      [apply saveNewCsv_returns | apply saveNewText_returns]. }
  destruct (returns_run w T) as (r & w' & ->). reflexivity.
Qed.

(** C9, on the code.  The upload of a plain text file without a meeting
    makes the meeting, stores the whole text as its transcript and returns:
    the client is not called and no summary is made, whether a credential
    is configured or not and whatever the text. *)
Theorem plain_text_upload_is_not_analysed (file : File.t) (userId : nat)
    (raw : string) (w : World) :
  isReadable file = true ->
  isCsv file = false ->
  fs w (File.path file) = Some raw ->
  let out := saveTranscriptToDatabase file userId None w in
  analyses (snd out) = analyses w
  /\ remoteCalls (snd out) = remoteCalls w
  /\ meetingSummaries (db (snd out)) = meetingSummaries (db w)
  /\ exists meeting,
       fst out
       = Return {| success := true;
                   message := "Transcript uploaded and new meeting created";
                   data := Some meeting |}
       /\ InsertMeeting.transcriptText meeting = Some raw
       /\ meetings (db (snd out)) = meetings (db w) ++ [meeting].
Proof.
  intros R C F. cbv zeta. unfold saveTranscriptToDatabase, tryCatch.
  rewrite saveForNew_read with (raw := raw) by assumption. rewrite C. cbn.
  repeat split. eexists. repeat split.
Qed.

(** The upload of a CSV file without a meeting calls the client, on the
    meeting it has made, exactly when a credential is configured and the
    formatted text is not empty. *)
Lemma csv_upload_analysis file userId raw w :
  isReadable file = true ->
  isCsv file = true ->
  fs w (File.path file) = Some raw ->
  let out := saveTranscriptToDatabase file userId None w in
  let text := fst (Normalizer.formatNew raw) in
  exists meeting,
    meetings (db (snd out)) = meetings (db w) ++ [meeting]
    /\ Meeting.id meeting = S (meetingSeq (db w))
    /\ InsertMeeting.transcriptText meeting = Some text
    /\ InsertMeeting.participants meeting = snd (Normalizer.formatNew raw)
    /\ analyses (snd out)
       = if truthyOpt (OPENAI_API_KEY w) && truthy text
         then (text, meeting) :: analyses w
         else analyses w.
Proof.
  intros R C F. cbv zeta. unfold saveTranscriptToDatabase.
  rewrite tryCatch_ret_world.
  rewrite saveForNew_read with (raw := raw) by assumption. rewrite C.
  unfold saveNewCsv. destruct (Normalizer.formatNew raw) as [text ps].
  cbn [fst snd].
  unfold bind at 1.
  destruct (truthy (Normalizer.titleOf (basename (File.originalname file) ".csv")));
    cbn -[analyzeNew]; rewrite !finish_world;
    match goal with
    | |- context [analyzeNew ?m ?w1] =>
        exists m;
        pose proof (analyzeNew_analyses m w1) as A;
        assert (K : maintains (fun w => meetings (db w) = meetings (db w1))
                      (analyzeNew m)) by mauto;
        specialize (K w1 eq_refl)
    end; rewrite A, K; repeat split.
Qed.

End NewMeetingUploads.

(** * A failed analysis inside the orchestrator *)

Section PlaceholderPass.

Context {platform : Platform}.

Lemma find_map_same {A} (p : A -> bool) (f : A -> A) (l : list A) :
  (forall x, p (f x) = p x) ->
  find p (map f l) = option_map f (find p l).
Proof.
  intros H. induction l as [|x l IH]; cbn; [reflexivity|].
  rewrite H. destruct (p x); [reflexivity | exact IH].
Qed.

Lemma find_none_existsb {A} (p : A -> bool) (l : list A) :
  find p l = None -> existsb p l = false.
Proof.
  induction l as [|x l IH]; cbn; [reflexivity|].
  destruct (p x); [discriminate | exact IH].
Qed.

Lemma find_app_new {A} (p : A -> bool) (l : list A) (x : A) :
  find p l = None -> p x = true -> find p (l ++ [x]) = Some x.
Proof.
  intros N T. induction l as [|y l IH]; cbn in *; [now rewrite T|].
  destruct (p y); [discriminate | now apply IH].
Qed.

Lemma find_some_true {A} (p : A -> bool) (l : list A) (x : A) :
  find p l = Some x -> p x = true.
Proof. intros H. now apply find_some in H. Qed.

(** The create-or-update step of lines 142-168 with the placeholder: it
    returns, the summary of the meeting then carries the placeholder, and
    nothing else moves. *)
Lemma persist_placeholder meetingId message w :
  exists w',
    (forall B (k : M B),
       (existingSummary <- storage.getMeetingSummaryByMeeting meetingId ;;
        match existingSummary with
        | Some existing =>
            storage.updateMeetingSummary (MeetingSummary.id existing)
              (SummaryPatch.ofData (createPlaceholderSummary message)) ;;
            ret tt
        | None =>
            storage.createMeetingSummary
              (summaryFor meetingId (createPlaceholderSummary message)) ;;
            ret tt
        end ;;
        k) w = k w')
    /\ decisions (db w') = decisions (db w)
    /\ decisionSeq (db w') = decisionSeq (db w)
    /\ actionItems (db w') = actionItems (db w)
    /\ actionItemSeq (db w') = actionItemSeq (db w)
    /\ ticks w' = ticks w
    /\ List.length (meetingSummaries (db w'))
       = match find (fun s => MeetingSummary.meetingId s =? meetingId)
                    (meetingSummaries (db w)) with
         | Some _ => List.length (meetingSummaries (db w))
         | None => S (List.length (meetingSummaries (db w)))
         end
    /\ exists summary,
         find (fun s => MeetingSummary.meetingId s =? meetingId)
              (meetingSummaries (db w')) = Some summary
         /\ holdsPlaceholder summary message.
Proof.
  destruct (find (fun s => MeetingSummary.meetingId s =? meetingId)
                 (meetingSummaries (db w))) as [existing|] eqn:E.
  - eexists. split.
    + intros B k. unfold bind at 1.
      unfold storage.getMeetingSummaryByMeeting at 1.
      cbn [bind getWorld ret]. rewrite E.
      unfold storage.updateMeetingSummary, bind, getWorld, modifyDb. cbn.
      reflexivity.
    + cbn. repeat split; try reflexivity.
      * now rewrite length_map.
      * rewrite find_map_same.
        -- rewrite E. cbn. eexists. split; [reflexivity|].
           rewrite Nat.eqb_refl. repeat split.
        -- intros x.
           destruct (MeetingSummary.id x =? MeetingSummary.id existing);
             reflexivity.
  - eexists. split.
    + intros B k. unfold bind at 1.
      unfold storage.getMeetingSummaryByMeeting at 1.
      cbn [bind getWorld ret]. rewrite E.
      unfold storage.createMeetingSummary, bind, getWorld, modifyDb.
      cbn -[existsb].
      rewrite (find_none_existsb _ _ E). cbn. reflexivity.
    + cbn. repeat split; try reflexivity.
      * rewrite length_app. cbn. lia.
      * eexists. split.
        -- apply find_app_new; [exact E | cbn; apply Nat.eqb_refl].
        -- repeat split.
Qed.

End PlaceholderPass.

Section PlaceholderClaim.

Context {platform : Platform}.

Lemma deriveDecisions_placeholder meetingId participants message w :
  deriveDecisions meetingId participants (createPlaceholderSummary message) w
  = (Return tt,
     {| db := setDecisions (db w)
                (decisions (db w) ++ [placeholderDecision w meetingId])
                (S (decisionSeq (db w)));
        OPENAI_API_KEY := OPENAI_API_KEY w; openaiReady := openaiReady w;
        fs := fs w; ticks := S (ticks w); remoteCalls := remoteCalls w;
        analyses := analyses w |}).
Proof.
  unfold deriveDecisions, derivePoint. cbn. reflexivity.
Qed.

Lemma deriveActionItems_placeholder meetingId participants message w :
  deriveActionItems meetingId participants (createPlaceholderSummary message) w
  = (Return tt,
     {| db := setActionItems (db w)
                (actionItems (db w)
                 ++ [{| ActionItem.id := S (actionItemSeq (db w));
                        ActionItem.values :=
                          {| InsertActionItem.meetingId := meetingId;
                             InsertActionItem.task :=
                               "Add OpenAI API key to environment variables";
                             InsertActionItem.assignee := "Administrator";
                             InsertActionItem.deadline :=
                               deadlineAt (clock (ticks w));
                             InsertActionItem.priority := "Medium";
                             InsertActionItem.status := "Pending";
                             InsertActionItem.notes := Some autoNotes |} |}])
                (S (actionItemSeq (db w)));
        OPENAI_API_KEY := OPENAI_API_KEY w; openaiReady := openaiReady w;
        fs := fs w; ticks := S (ticks w); remoteCalls := remoteCalls w;
        analyses := analyses w |}).
Proof. unfold deriveActionItems. cbn. reflexivity. Qed.

Lemma analyzeExisting_placeholder meetingId meeting text updated w :
  truthyOpt (OPENAI_API_KEY w) = true ->
  truthy text = true ->
  analysisFails w = true ->
  exists w',
    analyzeExisting meetingId meeting (Some text) (Some updated) w
    = (Return (Some
         {| success := true;
            message :=
              "Transcript uploaded, linked to meeting, and AI analysis completed";
            data := Some updated |}), w')
    /\ decisions (db w')
       = decisions (db w) ++ [placeholderDecision w meetingId]
    /\ actionItems (db w')
       = actionItems (db w) ++ [placeholderActionItem w meetingId]
    /\ exists summary,
         find (fun s => MeetingSummary.meetingId s =? meetingId)
              (meetingSummaries (db w')) = Some summary
         /\ holdsPlaceholder summary errorMessage.
Proof.
  intros K T F. unfold analyzeExisting. unfold bind at 1. cbn [getWorld].
  rewrite K. cbn [truthyOpt]. rewrite T. cbn [andb storage.orElse].
  unfold bind at 1.
  destruct (analyzeTranscript text updated w) as [r w1] eqn:RA.
  pose proof (analyzeTranscript_world text updated w) as W.
  rewrite RA in W. cbn in W. destruct W as (D & _ & _ & _ & Tk & _ & _).
  pose proof (analyzeTranscript_result text updated w) as P.
  rewrite RA, K in P. cbn in P. unfold analysisFails in F. rewrite K in F.
  cbn in F.
  assert (Pr : r = Return (createPlaceholderSummary errorMessage)).
  { rewrite P. destruct (openaiReady w); cbn in *; [|reflexivity].
    destruct (remote (remoteCalls w)); try reflexivity. discriminate. }
  clear P. subst r.
  destruct (persist_placeholder meetingId errorMessage w1)
    as (w2 & Run & D2 & S2 & A2 & AS2 & T2 & _ & Sum).
  rewrite Run.
  unfold bind at 1. rewrite deriveDecisions_placeholder.
  unfold bind at 1. rewrite deriveActionItems_placeholder.
  eexists. split; [reflexivity|]. cbn.
  unfold placeholderDecision, placeholderActionItem.
  rewrite D2, S2, A2, AS2, T2, D, Tk. repeat split. exact Sum.
Qed.

(** C8, as amended.  When a transcript with text is uploaded for an
    existing meeting, a credential is configured and the client fails, the
    pass still completes: the placeholder is stored as the summary of the
    meeting (created, or written over the one there was), and the
    derivation is run against it; it stores exactly one decision (the
    placeholder's own, to configure the key, owned by Administrator) and
    exactly one action item (the placeholder's task assignment). *)
Theorem failed_analysis_still_derives (file : File.t) (userId : nat)
    (meetingId : nat) (meeting : Meeting.t) (text : string) (w : World) :
  meetingId <> 0 ->
  find (fun m => Meeting.id m =? meetingId) (meetings (db w)) = Some meeting ->
  transcriptOf file w = Some text ->
  truthy text = true ->
  truthyOpt (OPENAI_API_KEY w) = true ->
  analysisFails w = true ->
  let out := saveTranscriptToDatabase file userId (Some meetingId) w in
  fst out
  = Return
      {| success := true;
         message :=
           "Transcript uploaded, linked to meeting, and AI analysis completed";
         data := Some (withTranscript file (Some text) meeting) |}
  /\ (exists summary,
        find (fun s => MeetingSummary.meetingId s =? meetingId)
             (meetingSummaries (db (snd out))) = Some summary
        /\ holdsPlaceholder summary errorMessage)
  /\ decisions (db (snd out))
     = decisions (db w) ++ [placeholderDecision w meetingId]
  /\ actionItems (db (snd out))
     = actionItems (db w) ++ [placeholderActionItem w meetingId].
Proof.
  intros N H R T K F. cbv zeta.
  assert (E : exists w',
    saveTranscriptToDatabase file userId (Some meetingId) w
    = (Return
         {| success := true;
            message :=
              "Transcript uploaded, linked to meeting, and AI analysis completed";
            data := Some (withTranscript file (Some text) meeting) |}, w')
    /\ decisions (db w')
       = decisions (db w) ++ [placeholderDecision w meetingId]
    /\ actionItems (db w')
       = actionItems (db w) ++ [placeholderActionItem w meetingId]
    /\ exists summary,
         find (fun s => MeetingSummary.meetingId s =? meetingId)
              (meetingSummaries (db w')) = Some summary
         /\ holdsPlaceholder summary errorMessage).
  { unfold saveTranscriptToDatabase.
    destruct meetingId as [|n]; [easy|].
    unfold tryCatch at 1. unfold saveForExisting.
    unfold bind at 1. rewrite getMeeting_run, H.
    unfold bind at 1. rewrite readTranscript_run, R.
    unfold bind at 1. rewrite updateMeeting_transcript.
    erewrite find_uploadedTo by exact H.
    unfold bind at 1. unfold tryCatch at 1.
    match goal with
    | |- context [analyzeExisting ?i ?m ?t (Some ?u) ?w1] =>
        destruct (@analyzeExisting_placeholder i m text u w1 K T F)
          as (w' & -> & D & A & S)
    end.
    exists w'. cbn in *. repeat split; assumption. }
  destruct E as (w' & -> & D & A & S). cbn [fst snd].
  repeat split; assumption.
Qed.

End PlaceholderClaim.

(** * One summary per meeting *)

Section SummaryTable.

(** Deleting rows keeps a column free of repeats. *)
Lemma NoDup_map_filter {Row Key} (column : Row -> Key) (keep : Row -> bool)
    (rows : list Row) (H : NoDup (map column rows)) :
  NoDup (map column (filter keep rows)).
Proof.
  induction rows as [|row rows IH]; cbn in *; [exact H|].
  inversion H as [|? ? Fresh Rest]; subst.
  destruct (keep row); cbn; [constructor|]; auto.
  intros Old. apply Fresh. apply in_map_iff in Old as (other & Same & Kept).
  apply filter_In in Kept as [Kept _]. apply in_map_iff. eauto.
Qed.

(** At most one row for a value of a column without repeats. *)
Lemma NoDup_filter_one {A} (f : A -> nat) (v : nat) (l : list A) :
  NoDup (map f l) -> List.length (filter (fun r => f r =? v) l) <= 1.
Proof.
  induction l as [|x l IH]; cbn; [lia|].
  intros H. inversion H as [|? ? N D]; subst.
  destruct (Nat.eqb_spec (f x) v) as [E|E]; cbn; [|auto].
  assert (Z : filter (fun r => f r =? v) l = []).
  { destruct (filter (fun r => f r =? v) l) as [|y t] eqn:F; [reflexivity|].
    exfalso. apply N.
    assert (I : In y (filter (fun r => f r =? v) l)) by (rewrite F; now left).
    apply filter_In in I as [I T]. apply Nat.eqb_eq in T.
    apply in_map_iff. exists y. split; [congruence | exact I]. }
  rewrite Z. cbn. lia.
Qed.

Lemma SummaryInv_seq s rows n :
  SummaryInv s -> meetingSummarySeq s <= n ->
  rows = meetingSummaries s ->
  SummaryInv (setMeetingSummaries s rows n).
Proof.
  intros (I & M & F) L ->. repeat split; cbn; auto.
  eapply Forall_impl; [|exact F]. cbn. intros; lia.
Qed.

Lemma SummaryInv_insert s row :
  SummaryInv s ->
  MeetingSummary.id row = S (meetingSummarySeq s) ->
  existsb (fun r => MeetingSummary.meetingId r =? MeetingSummary.meetingId row)
          (meetingSummaries s) = false ->
  SummaryInv (setMeetingSummaries s (meetingSummaries s ++ [row])
                (S (meetingSummarySeq s))).
Proof.
  intros (I & M & F) E X. unfold SummaryInv. cbn.
  rewrite !map_app. cbn. repeat split.
  - apply NoDup_app; [exact I | repeat constructor; intros [] |].
    intros x Hx [<-|[]]. apply in_map_iff in Hx as (r & Er & Hr).
    rewrite Forall_forall in F. specialize (F r Hr). lia.
  - apply NoDup_app; [exact M | repeat constructor; intros [] |].
    intros x Hx [<-|[]]. apply in_map_iff in Hx as (r & Er & Hr).
    assert (T : existsb (fun r => MeetingSummary.meetingId r
                                  =? MeetingSummary.meetingId row)
                        (meetingSummaries s) = true).
    { apply existsb_exists. exists r. split; [exact Hr|].
      now apply Nat.eqb_eq. }
    congruence.
  - apply Forall_app. split.
    + eapply Forall_impl; [|exact F]. cbn. intros; lia.
    + constructor; [lia | constructor].
Qed.

Lemma SummaryInv_delete s id :
  SummaryInv s ->
  SummaryInv (setMeetingSummaries s
                (filter (fun r => negb (MeetingSummary.id r =? id))
                        (meetingSummaries s))
                (meetingSummarySeq s)).
Proof.
  intros (I & M & F). unfold SummaryInv. cbn. repeat split.
  - now apply NoDup_map_filter.
  - now apply NoDup_map_filter.
  - rewrite Forall_forall in *. intros r Hr. apply filter_In in Hr as [Hr _].
    auto.
Qed.

End SummaryTable.

Section SummaryUpdate.

Variables (id : nat) (p : SummaryPatch.t).

Let f : MeetingSummary.t -> MeetingSummary.t := patchRow id p.

Lemma patched_id r : MeetingSummary.id (f r) = MeetingSummary.id r.
Proof.
  unfold f, patchRow. destruct (MeetingSummary.id r =? id); reflexivity.
Qed.

Lemma patched_ids rows :
  map MeetingSummary.id (map f rows) = map MeetingSummary.id rows.
Proof. rewrite map_map. apply map_ext. exact patched_id. Qed.

Lemma patched_absent rows :
  existsb (fun r => MeetingSummary.id r =? id) rows = false ->
  map f rows = rows.
Proof.
  induction rows as [|r rows IH]; cbn; [reflexivity|].
  intros H. apply orb_false_iff in H as [E H].
  unfold f at 1, patchRow. rewrite E. now rewrite IH.
Qed.

Lemma patched_meetingIds_kept rows :
  SummaryPatch.meetingId p = None ->
  map MeetingSummary.meetingId (map f rows)
  = map MeetingSummary.meetingId rows.
Proof.
  intros N. rewrite map_map. apply map_ext. intros r. unfold f, patchRow.
  destruct (MeetingSummary.id r =? id); [|reflexivity].
  unfold storage.patchSummary. cbn. now rewrite N.
Qed.

Lemma patched_meetingIds_moved m rows :
  SummaryPatch.meetingId p = Some m ->
  NoDup (map MeetingSummary.id rows) ->
  NoDup (map MeetingSummary.meetingId rows) ->
  existsb (fun r => negb (MeetingSummary.id r =? id)
                    && (MeetingSummary.meetingId r =? m)) rows = false ->
  NoDup (map MeetingSummary.meetingId (map f rows)).
Proof.
  intros P. induction rows as [|r rows IH]; cbn; [constructor|].
  intros I M X. inversion I as [|? ? NI DI]; subst.
  inversion M as [|? ? NM DM]; subst.
  apply orb_false_iff in X as [Xr X].
  constructor; [|now apply IH].
  intros In'. apply in_map_iff in In' as (y & Ey & Hy).
  apply in_map_iff in Hy as (z & <- & Hz).
  assert (Xz : negb (MeetingSummary.id z =? id)
               && (MeetingSummary.meetingId z =? m) = false).
  { rewrite <- not_true_iff_false. intros T.
    rewrite <- not_true_iff_false in X. apply X.
    apply existsb_exists. eauto. }
  assert (Dz : MeetingSummary.id z <> MeetingSummary.id r).
  { intros E. apply NI. apply in_map_iff. eauto. }
  assert (Mz : MeetingSummary.meetingId z <> MeetingSummary.meetingId r).
  { intros E. apply NM. apply in_map_iff. eauto. }
  unfold f, patchRow in Ey.
  destruct (Nat.eqb_spec (MeetingSummary.id z) id) as [Ez|Ez];
    destruct (Nat.eqb_spec (MeetingSummary.id r) id) as [Er|Er];
    cbn in *; try rewrite P in *; cbn in *; try congruence.
  - apply Nat.eqb_neq in Xr. congruence.
  - apply Nat.eqb_neq in Xz. congruence.
Qed.

Lemma SummaryInv_update s :
  SummaryInv s ->
  match SummaryPatch.meetingId p with
  | Some m =>
      existsb (fun r => MeetingSummary.id r =? id) (meetingSummaries s)
      && existsb (fun r => negb (MeetingSummary.id r =? id)
                           && (MeetingSummary.meetingId r =? m))
                 (meetingSummaries s)
  | None => false
  end = false ->
  SummaryInv (setMeetingSummaries s (map f (meetingSummaries s))
                (meetingSummarySeq s)).
Proof.
  intros (I & M & F) C. unfold SummaryInv. cbn. rewrite patched_ids.
  repeat split; [exact I | |].
  - destruct (SummaryPatch.meetingId p) as [m|] eqn:P.
    + apply andb_false_iff in C as [C|C].
      * now rewrite patched_absent.
      * now apply patched_meetingIds_moved with m.
    + now rewrite patched_meetingIds_kept.
  - rewrite Forall_forall in *. intros r Hr.
    apply in_map_iff in Hr as (z & <- & Hz). rewrite patched_id. auto.
Qed.

End SummaryUpdate.

Section SummaryInvariant.

Context {platform : Platform}.

Lemma createMeetingSummary_inv summary :
  maintains (fun w : World => SummaryInv (db w))
    (storage.createMeetingSummary summary).
Proof.
  intros w H. unfold storage.createMeetingSummary, bind, getWorld, modifyDb.
  cbn -[existsb].
  assert (B : SummaryInv
                (setMeetingSummaries (db w) (meetingSummaries (db w))
                   (S (meetingSummarySeq (db w)))))
    by (apply SummaryInv_seq; auto).
  destruct (SummaryData.keyDiscussionPoints summary) as [points|];
    [|exact B].
  destruct (SummaryData.followUpRequirements summary) as [followUp|];
    [|exact B].
  destruct (existsb _ _) eqn:X; [exact B|].
  cbn. apply (SummaryInv_insert _ H); [reflexivity | exact X].
Qed.

Lemma updateMeetingSummary_inv id summaryData :
  maintains (fun w : World => SummaryInv (db w))
    (storage.updateMeetingSummary id summaryData).
Proof.
  intros w H. unfold storage.updateMeetingSummary, bind, getWorld, modifyDb.
  cbn -[existsb].
  match goal with |- context [if ?c then _ else _] => destruct c eqn:C end.
  - exact H.
  - cbn. now apply SummaryInv_update.
Qed.

Lemma deleteMeetingSummary_inv id :
  maintains (fun w : World => SummaryInv (db w))
    (storage.deleteMeetingSummary id).
Proof. intros w H. cbn. now apply SummaryInv_delete. Qed.

End SummaryInvariant.

Create HintDb maintain.

#[local] Hint Resolve createMeetingSummary_inv updateMeetingSummary_inv
  deleteMeetingSummary_inv : maintain.

Ltac munfold_routes :=
  unfold handle, createTestMeeting, postMeeting, putMeeting, deleteMeetingRoute,
    postMeetingSummary, putMeetingSummary, deleteMeetingSummaryRoute,
    postAnalyzeTranscript, postUploadTranscript, saveTranscriptToDatabase,
    saveForExisting, saveForNew, saveNewCsv, saveNewText, readTranscript.

Ltac munfold_pipeline :=
  unfold analyzeExisting, analyzeNew, analyzeTranscript, deriveDecisions,
    deriveActionItems, derivePoint, deriveFromDecisions, deriveFromInsights,
    deriveFromTasks, deriveFromResources, resolveOwner, today.

Ltac munfold_storage :=
  unfold storage.getMeeting, storage.createMeeting, storage.updateMeeting,
    storage.deleteMeeting, storage.createDecision, storage.createActionItem,
    storage.getMeetingSummaryByMeeting.

Ltac minv :=
  repeat first
    [ solve [mprim]
    | solve [eauto with maintain]
    | mstep
    | progress munfold_routes
    | progress munfold_pipeline
    | progress munfold_storage ].

Section ServerInvariant.

Context {platform : Platform}.

Lemma handle_inv (r : Request) :
  maintains (fun w => SummaryInv (db w)) (handle r).
Proof. destruct r; minv. Qed.

Lemma serve_inv (requests : list Request) : forall w,
  SummaryInv (db w) -> SummaryInv (db (serve requests w)).
Proof.
  induction requests as [|r requests IH]; intros w H; cbn; [exact H|].
  apply IH. now apply handle_inv.
Qed.

Lemma emptyStore_inv : SummaryInv emptyStore.
Proof. repeat split; constructor. Qed.

Lemma summaryIdsOf_one s meetingId :
  SummaryInv s ->
  List.length (summaryIdsOf meetingId s) <= 1
  /\ NoDup (summaryIdsOf meetingId s).
Proof.
  intros (I & M & _). unfold summaryIdsOf. split.
  - rewrite length_map. now apply NoDup_filter_one.
  - now apply NoDup_map_filter.
Qed.

End ServerInvariant.

Section UpdatePath.

Context {platform : Platform}.

Lemma updateMeetingSummary_data (existing : MeetingSummary.t) data w :
  storage.updateMeetingSummary (MeetingSummary.id existing)
    (SummaryPatch.ofData data) w
  = (Return (find (fun s => MeetingSummary.id s =? MeetingSummary.id existing)
                  (summariesUpdated existing data (meetingSummaries (db w)))),
     withSummaries w
       (summariesUpdated existing data (meetingSummaries (db w)))).
Proof. reflexivity. Qed.

(** Lines 142-168 when the meeting has a summary: the summary is rewritten
    in place and no row is inserted. *)
Lemma update_path meetingId data existing w B (k : M B) :
  find (fun s => MeetingSummary.meetingId s =? meetingId)
       (meetingSummaries (db w)) = Some existing ->
  (existingSummary <- storage.getMeetingSummaryByMeeting meetingId ;;
   match existingSummary with
   | Some existing =>
       storage.updateMeetingSummary (MeetingSummary.id existing)
         (SummaryPatch.ofData data) ;;
       ret tt
   | None =>
       storage.createMeetingSummary (summaryFor meetingId data) ;;
       ret tt
   end ;;
   k) w
  = k (withSummaries w
         (summariesUpdated existing data (meetingSummaries (db w)))).
Proof.
  intros E. unfold bind at 1.
  unfold storage.getMeetingSummaryByMeeting at 1.
  cbn [bind getWorld ret]. rewrite E.
  unfold bind at 1. unfold bind at 1. now rewrite updateMeetingSummary_data.
Qed.

Lemma analyzeTranscript_full transcript meeting w :
  exists w',
    analyzeTranscript transcript meeting w = (Return (analysisOf w), w')
    /\ db w' = db w
    /\ OPENAI_API_KEY w' = OPENAI_API_KEY w
    /\ ticks w' = ticks w.
Proof.
  pose proof (analyzeTranscript_world transcript meeting w) as W.
  pose proof (analyzeTranscript_result transcript meeting w) as R.
  destruct (analyzeTranscript transcript meeting w) as [r w'].
  cbn in *. destruct W as (D & K & _ & _ & T & _). subst r.
  exists w'. repeat split; assumption.
Qed.

Lemma derivations_keep_summaries L n meetingId participants data A (a : A) :
  maintains (fun w => meetingSummaries (db w) = L
                      /\ meetingSummarySeq (db w) = n)
    (deriveDecisions meetingId participants data ;;
     deriveActionItems meetingId participants data ;;
     ret a).
Proof. mauto. Qed.

(** The analysis of an upload for a meeting that has a summary takes the
    update path. *)
Lemma analyzeExisting_updates meetingId meeting text updated existing w :
  truthyOpt (OPENAI_API_KEY w) && truthyOpt text = true ->
  find (fun s => MeetingSummary.meetingId s =? meetingId)
       (meetingSummaries (db w)) = Some existing ->
  let w' := snd (analyzeExisting meetingId meeting text (Some updated) w) in
  meetingSummaries (db w')
  = summariesUpdated existing (analysisOf w) (meetingSummaries (db w))
  /\ meetingSummarySeq (db w') = meetingSummarySeq (db w).
Proof.
  intros G E. cbv zeta.
  remember (analyzeExisting meetingId meeting text (Some updated) w) as out
    eqn:Eo.
  unfold analyzeExisting in Eo. unfold bind at 1 in Eo.
  cbn [getWorld] in Eo. rewrite G in Eo. unfold bind at 1 in Eo.
  destruct (analyzeTranscript_full (storage.orElse text EmptyString) updated w)
    as (w1 & R & D & _ & _).
  rewrite R in Eo.
  rewrite update_path with (existing := existing) in Eo by (now rewrite D).
  subst out.
  match goal with
  | |- meetingSummaries (db (snd (?c ?w2))) = ?L /\ meetingSummarySeq _ = ?n =>
      apply (@derivations_keep_summaries L n _ _ _ _ _ w2)
  end.
  cbn. rewrite D. split; reflexivity.
Qed.

End UpdatePath.

Section UpdatePathRoutes.

Context {platform : Platform}.

Lemma upload_updates file userId meetingId meeting existing w :
  meetingId <> 0 ->
  find (fun m => Meeting.id m =? meetingId) (meetings (db w)) = Some meeting ->
  truthyOpt (OPENAI_API_KEY w) && truthyOpt (transcriptOf file w) = true ->
  find (fun s => MeetingSummary.meetingId s =? meetingId)
       (meetingSummaries (db w)) = Some existing ->
  let w' := snd (saveTranscriptToDatabase file userId (Some meetingId) w) in
  meetingSummaries (db w')
  = summariesUpdated existing (analysisOf w) (meetingSummaries (db w))
  /\ meetingSummarySeq (db w') = meetingSummarySeq (db w).
Proof.
  intros N H G E. cbv zeta. unfold saveTranscriptToDatabase.
  destruct meetingId as [|n]; [easy|].
  rewrite tryCatch_ret_world.
  remember (saveForExisting file (S n) w) as out eqn:Eo.
  unfold saveForExisting in Eo.
  unfold bind at 1 in Eo. rewrite getMeeting_run, H in Eo.
  unfold bind at 1 in Eo. rewrite readTranscript_run in Eo.
  unfold bind at 1 in Eo. rewrite updateMeeting_transcript in Eo.
  erewrite find_uploadedTo in Eo by exact H.
  subst out. rewrite finish_world.
  match goal with
  | |- context [analyzeExisting ?i ?m ?t (Some ?u) ?w1] =>
      apply (@analyzeExisting_updates _ i m t u existing w1 G E)
  end.
Qed.

Lemma endpoint_updates meetingId (meeting : Meeting.t) existing w :
  meetingId <> 0 ->
  find (fun m => Meeting.id m =? meetingId) (meetings (db w)) = Some meeting ->
  truthyOpt (InsertMeeting.transcriptText meeting) = true ->
  find (fun s => MeetingSummary.meetingId s =? Meeting.id meeting)
       (meetingSummaries (db w)) = Some existing ->
  let out := postAnalyzeTranscript (Some meetingId) w in
  meetingSummaries (db (snd out))
  = summariesUpdated existing (analysisOf w) (meetingSummaries (db w))
  /\ meetingSummarySeq (db (snd out)) = meetingSummarySeq (db w)
  /\ fst out
     = Return
         {| status := 200;
            body := JsonSummary
              (find (fun s => MeetingSummary.id s =? MeetingSummary.id existing)
                    (summariesUpdated existing (analysisOf w)
                       (meetingSummaries (db w)))) |}.
Proof.
  intros N H T E. cbv zeta.
  remember (postAnalyzeTranscript (Some meetingId) w) as out eqn:Eo.
  unfold postAnalyzeTranscript in Eo.
  destruct meetingId as [|n]; [easy|].
  unfold tryCatch in Eo.
  unfold bind at 1 in Eo. rewrite getMeeting_run, H, T in Eo.
  cbn [negb] in Eo. unfold bind at 1 in Eo.
  destruct (analyzeTranscript_full
              (storage.orElse (InsertMeeting.transcriptText meeting)
                              EmptyString) meeting w)
    as (w1 & R & D & _ & _).
  rewrite R in Eo. unfold bind at 1 in Eo.
  unfold storage.getMeetingSummaryByMeeting at 1 in Eo.
  cbn [bind getWorld ret] in Eo. rewrite D, E in Eo.
  unfold bind at 1 in Eo. rewrite updateMeetingSummary_data in Eo.
  rewrite D in Eo. subst out. cbn. repeat split. now rewrite D.
Qed.

(** [POST /api/meeting-summaries] for a meeting that has a summary: the
    request is rejected and nothing is written. *)
Lemma post_summary_rejected (data : InsertMeetingSummary.t) meeting existing w :
  validSummary data = true ->
  find (fun m => Meeting.id m =? InsertMeetingSummary.meetingId data)
       (meetings (db w)) = Some meeting ->
  find (fun s => MeetingSummary.meetingId s
                 =? InsertMeetingSummary.meetingId data)
       (meetingSummaries (db w)) = Some existing ->
  postMeetingSummary (Some data) w
  = (Return {| status := 409;
               body := JsonMessage "A summary already exists for this meeting" |},
     w).
Proof.
  intros V H E. unfold postMeetingSummary, tryCatch. rewrite V. cbn [negb].
  unfold bind at 1. rewrite getMeeting_run, H.
  unfold bind at 1. unfold storage.getMeetingSummaryByMeeting at 1.
  cbn [bind getWorld ret]. rewrite E. reflexivity.
Qed.

End UpdatePathRoutes.

Section OneSummaryClaim.

Context {platform : Platform}.

(** C1, as amended.  In every world the server reaches by handling
    requests one after the other, from a world whose table of summaries is
    in order (the empty table is), each meeting has at most one summary:
    the ids of the summaries that refer to it are a list without repeats of
    length at most one.  There, the analysis pass of an upload for an
    existing meeting and the analyze-transcript endpoint, run for a meeting
    that has a summary, rewrite that summary in place with what the client
    returned and draw no new id; and the explicit creation of a summary for
    a meeting that has one is answered with status 409 and writes
    nothing. *)
Theorem one_summary_per_meeting (w0 : World) (requests : list Request) :
  SummaryInv (db w0) ->
  let w := serve requests w0 in
  (forall meetingId,
     List.length (summaryIdsOf meetingId (db w)) <= 1
     /\ NoDup (summaryIdsOf meetingId (db w)))
  /\ (forall file userId meetingId meeting existing,
        meetingId <> 0 ->
        find (fun m => Meeting.id m =? meetingId) (meetings (db w))
        = Some meeting ->
        truthyOpt (OPENAI_API_KEY w) && truthyOpt (transcriptOf file w)
        = true ->
        find (fun s => MeetingSummary.meetingId s =? meetingId)
             (meetingSummaries (db w)) = Some existing ->
        let w' :=
          snd (saveTranscriptToDatabase file userId (Some meetingId) w) in
        meetingSummaries (db w')
        = summariesUpdated existing (analysisOf w) (meetingSummaries (db w))
        /\ meetingSummarySeq (db w') = meetingSummarySeq (db w))
  /\ (forall meetingId (meeting : Meeting.t) existing,
        meetingId <> 0 ->
        find (fun m => Meeting.id m =? meetingId) (meetings (db w))
        = Some meeting ->
        truthyOpt (InsertMeeting.transcriptText meeting) = true ->
        find (fun s => MeetingSummary.meetingId s =? Meeting.id meeting)
             (meetingSummaries (db w)) = Some existing ->
        let w' := snd (postAnalyzeTranscript (Some meetingId) w) in
        meetingSummaries (db w')
        = summariesUpdated existing (analysisOf w) (meetingSummaries (db w))
        /\ meetingSummarySeq (db w') = meetingSummarySeq (db w))
  /\ (forall (data : InsertMeetingSummary.t) meeting existing,
        validSummary data = true ->
        find (fun m => Meeting.id m =? InsertMeetingSummary.meetingId data)
             (meetings (db w)) = Some meeting ->
        find (fun s => MeetingSummary.meetingId s
                       =? InsertMeetingSummary.meetingId data)
             (meetingSummaries (db w)) = Some existing ->
        postMeetingSummary (Some data) w
        = (Return
             {| status := 409;
                body :=
                  JsonMessage "A summary already exists for this meeting" |},
           w)).
Proof.
  intros I. cbv zeta. split; [|split; [|split]].
  - intros meetingId. apply summaryIdsOf_one. now apply serve_inv.
  - intros. now apply upload_updates with meeting.
  - intros meetingId meeting existing N H T E.
    destruct (@endpoint_updates _ _ _ _ _ N H T E) as (A & B & _). now split.
  - intros. now apply post_summary_rejected with meeting existing.
Qed.

End OneSummaryClaim.

(** * Further properties of the normalizer *)

Section NormalizerMore.

Import NormalizerSpec.

Lemma firstSeen_In x l : In x (firstSeen l) <-> In x l.
Proof.
  induction l as [|y l IH]; simpl; [tauto|].
  rewrite filter_In, IH, negb_true_iff.
  destruct (String.eqb_spec x y) as [->|N]; split; intros H; auto.
  - destruct H as [E|[H _]]; auto.
  - destruct H as [E|H]; [now left | right; split; [exact H|reflexivity]].
Qed.

Lemma firstSeen_NoDup l : NoDup (firstSeen l).
Proof.
  induction l as [|y l IH]; simpl; constructor.
  - rewrite filter_In, negb_true_iff, String.eqb_refl. intros [_ H].
    discriminate.
  - now apply NoDup_filter.
Qed.

Lemma participants_firstSeen rawContent :
  snd (Normalizer.formatNew rawContent)
  = firstSeen (filter keepSpeaker (speakerValues (Normalizer.body rawContent))).
Proof.
  unfold Normalizer.formatNew. rewrite fold_stepNew_participants.
  rewrite fold_setAdd. cbn [snd app existsb negb].
  induction (firstSeen _) as [|x l IH]; [reflexivity|].
  cbn [filter]. now rewrite IH.
Qed.

Lemma speakerValues_In p rows :
  In p (speakerValues rows)
  <-> exists r, In r rows /\ isBlank r = false
                /\ 3 <= List.length (fields r)
                /\ p = Normalizer.speakerOf (fields r).
Proof.
  unfold speakerValues. rewrite in_flat_map. split.
  - intros [r [I H]]. exists r. split; [exact I|].
    destruct (isBlank r); cbn [negb andb] in H; [contradiction|].
    destruct (3 <=? List.length (fields r)) eqn:L; [|contradiction].
    apply Nat.leb_le in L. destruct H as [<-|[]]. auto.
  - intros [r [I [B [L ->]]]]. exists r. split; [exact I|].
    rewrite B. apply Nat.leb_le in L. rewrite L. now left.
Qed.

(** X1.
    The participants taken from a CSV upload hold no name twice, never the
    empty name and never the name [undefined]; and they are exactly the
    cleaned second fields, other than these two, of the lines of the body
    that are not blank and have three fields or more: no speaker is lost
    and none is invented. *)
Theorem csv_participants_distinct (rawContent : string) :
  let participants := snd (Normalizer.formatNew rawContent) in
  NoDup participants
  /\ ~ In EmptyString participants
  /\ ~ In "undefined" participants
  /\ forall p,
       In p participants
       <-> (p <> EmptyString /\ p <> "undefined"
            /\ exists rawLine,
                 In rawLine (Normalizer.body rawContent)
                 /\ isBlank rawLine = false
                 /\ 3 <= List.length (fields rawLine)
                 /\ p = Normalizer.speakerOf (fields rawLine)).
Proof.
  cbv zeta. rewrite participants_firstSeen.
  assert (K : forall p,
    In p (firstSeen (filter keepSpeaker
                       (speakerValues (Normalizer.body rawContent))))
    <-> keepSpeaker p = true
        /\ In p (speakerValues (Normalizer.body rawContent))).
  { intros p. rewrite firstSeen_In, filter_In. tauto. }
  assert (S : forall p, keepSpeaker p = true
                        <-> p <> EmptyString /\ p <> "undefined").
  { intros p. unfold keepSpeaker, truthy.
    rewrite andb_true_iff, negb_true_iff.
    destruct (String.eqb_spec p "undefined") as [->|N].
    - simpl. split; [intros [_ H]; discriminate | intros [_ H]; now elim H].
    - destruct p; simpl.
      + split; [intros [H _]; discriminate | intros [H _]; now elim H].
      + split; [intros _; split; [discriminate | exact N] | auto]. }
  split; [apply firstSeen_NoDup|].
  split; [rewrite K, S; intros [[H _] _]; now apply H|].
  split; [rewrite K, S; intros [[_ H] _]; now apply H|].
  intros p. rewrite K, S, speakerValues_In. tauto.
Qed.

(** X2.
    The loop of the upload for an existing meeting and the loop of the
    upload that creates a meeting, two copies of the same text in the
    source, format every content alike. *)
Theorem csv_loops_agree (rawContent : string) :
  Normalizer.formatExisting rawContent
  = fst (Normalizer.formatNew rawContent).
Proof.
  unfold Normalizer.formatExisting, Normalizer.formatNew.
  rewrite fold_stepExisting_text, fold_stepNew_text. reflexivity.
Qed.

(** X3.
    Whatever the content, well formed or not, the formatted transcript has
    one line, closed by a line feed, for each line of the body that is not
    blank: no line of the upload is dropped or merged, and an empty body
    gives the empty text. *)
Theorem csv_one_line_per_row (rawContent : string) :
  count LF (Normalizer.formatExisting rawContent)
  = List.length (filter (fun rawLine => negb (isBlank rawLine))
                        (Normalizer.body rawContent))
  /\ (Forall (fun rawLine => isBlank rawLine = true)
             (Normalizer.body rawContent) ->
      Normalizer.formatExisting rawContent = EmptyString).
Proof.
  unfold Normalizer.formatExisting. rewrite fold_stepExisting_text.
  cbn [append]. split.
  - apply concat_rows_count, body_rows.
  - induction (Normalizer.body rawContent) as [|r rows IH]; intros F;
      [reflexivity|].
    inversion F as [|? ? B F']; subst. cbn [map concatAll fold_right].
    unfold rowOutput at 1. rewrite B. cbn [append].
    now apply IH.
Qed.

Lemma splitCsv_nonempty s : splitCsv s <> [].
Proof.
  destruct s as [|c s]; simpl; [discriminate|].
  destruct (Ascii.eqb c "," && Nat.even (countQuotes s)); [discriminate|].
  destruct (splitCsv s); discriminate.
Qed.

(** X4.
    Splitting a line into its fields loses nothing: the fields joined by
    commas are the line again.  So the text column of a line with more
    than three fields, which is the fields from the third on joined by
    commas, is the rest of the line after its second separating comma,
    commas included, before quotes are removed and the ends trimmed. *)
Theorem csv_fields_join (line : string) :
  join "," (splitCsv line) = line
  /\ forall timestamp speaker text more,
       splitCsv line = timestamp :: speaker :: text :: more ->
       line = (timestamp ^ "," ^ speaker ^ "," ^ join "," (text :: more))%string
       /\ Normalizer.textOf (splitCsv line)
          = trim (stripQuotes (join "," (text :: more))).
Proof.
  assert (J : forall s, join "," (splitCsv s) = s).
  { induction s as [|c s IH]; [reflexivity|].
    cbn [splitCsv].
    destruct (Ascii.eqb_spec c ",") as [->|N]; cbn [andb].
    - destruct (Nat.even (countQuotes s)).
      + unfold join in *. cbn [concat].
        pose proof (splitCsv_nonempty s) as NE.
        destruct (splitCsv s) as [|h t] eqn:E; [now elim NE|].
        rewrite IH. reflexivity.
      + pose proof (splitCsv_nonempty s) as NE.
        destruct (splitCsv s) as [|h t] eqn:E; [now elim NE|].
        unfold join in *. rewrite <- IH.
        destruct t; reflexivity.
    - pose proof (splitCsv_nonempty s) as NE.
      destruct (splitCsv s) as [|h t] eqn:E; [now elim NE|].
      unfold join in *. rewrite <- IH.
      destruct t; reflexivity. }
  split; [apply J|].
  intros timestamp speaker text more E. split.
  - rewrite <- (J line) at 1. rewrite E. reflexivity.
  - rewrite E. reflexivity.
Qed.

End NormalizerMore.

(** * Further properties of the entity derivation *)

Section DerivationMore.

Context {platform : Platform}.

Lemma afterDecisions_nil w : afterDecisions w [] = w.
Proof.
  destruct w as [[] ? ? ? ? ? ?]. unfold afterDecisions, setDecisions. cbn.
  now rewrite app_nil_r, !Nat.add_0_r.
Qed.

Lemma afterDecisions_app w rows rows' :
  afterDecisions (afterDecisions w rows) rows' = afterDecisions w (rows ++ rows').
Proof.
  unfold afterDecisions, setDecisions. cbn.
  rewrite length_app, <- app_assoc, !Nat.add_assoc. reflexivity.
Qed.

Lemma numbered_app {A} (l l' : list A) n :
  numbered n (l ++ l') = numbered n l ++ numbered (n + List.length l) l'.
Proof.
  revert n. induction l as [|x l IH]; intros n; simpl.
  - now rewrite Nat.add_0_r.
  - now rewrite IH, Nat.add_succ_r.
Qed.

Lemma numbered_map {A B} (f : A -> B) (l : list A) n :
  numbered n (map f l) = map (fun e => (fst e, f (snd e))) (numbered n l).
Proof.
  revert n. induction l as [|x l IH]; intros n; simpl; [reflexivity|].
  now rewrite IH.
Qed.

Lemma numbered_from {A B} (f : nat * A -> B) (l : list A) n :
  map f (numbered n l) = map (fun e => f (n + fst e, snd e)) (numbered 0 l).
Proof.
  revert f. induction n as [|n IH]; intros f.
  - apply map_ext. now intros [k e].
  - rewrite numbered_shift, IH. apply map_ext. intros [k e].
    reflexivity.
Qed.

Lemma draftRow_later w rows meetingId (drafts : list Draft) :
  map (draftRow (afterDecisions w rows) meetingId) (numbered 0 drafts)
  = map (draftRow w meetingId) (numbered (List.length rows) drafts).
Proof.
  rewrite (numbered_from (draftRow w meetingId)).
  apply map_ext. intros [k e]. unfold draftRow. cbn.
  now rewrite !Nat.add_assoc.
Qed.

Lemma createDecision_step meetingId (draft : Draft) w :
  (t <- now ;;
   storage.createDecision
     {| InsertDecision.meetingId := meetingId;
        InsertDecision.description := draftDescription draft;
        InsertDecision.owner := draftOwner draft;
        InsertDecision.timestamp := toLocaleTimeString t;
        InsertDecision.context := draftContext draft |} ;;
   ret tt) w
  = (Return tt, afterDecisions w [draftRow w meetingId (0, draft)]).
Proof.
  destruct w as [[] ? ? ? ? ? ?]. cbn.
  unfold afterDecisions, setDecisions, draftRow. cbn.
  now rewrite !Nat.add_0_r, !Nat.add_1_r.
Qed.

(** The pass over the insights of a point when none of them stops it. *)
Lemma deriveFromInsights_quiet meetingId topic participants insights :
  forallb quiet insights = true ->
  forall w,
  deriveFromInsights meetingId topic participants insights w
  = (Return tt,
     afterDecisions w
       (map (draftRow w meetingId)
          (numbered 0
             (map (fun text =>
                     {| draftDescription := text;
                        draftOwner := plainOwner text participants;
                        draftContext := topic |})
                  (yieldingTexts insights))))).
Proof.
  induction insights as [|insight insights IH]; intros Q w.
  - cbn. now rewrite afterDecisions_nil.
  - cbn [forallb] in Q. apply andb_true_iff in Q. destruct Q as [Q Qs].
    specialize (IH Qs).
    unfold deriveFromInsights in *. cbn [forEach].
    unfold bind at 1.
    destruct insight as [s|i t sp].
    + assert (Y : yieldsDecision s = truthy s && isDecisionBearing s)
        by (unfold yieldsDecision; now rewrite isDecisionBearing_keywords).
      unfold yieldingTexts. cbn [flat_map]. fold (yieldingTexts insights).
      rewrite Y. cbn [insightTextOf].
      destruct (truthy s) eqn:T; cbn [negb andb]; [|cbn; apply IH].
      destruct (isDecisionBearing s) eqn:B; [|cbn; apply IH].
      unfold bind at 1. rewrite resolveOwner_plain.
      pose proof (createDecision_step meetingId
                    {| draftDescription := s;
                       draftOwner := plainOwner s participants;
                       draftContext := topic |} w) as St.
      cbn [draftDescription draftOwner draftContext] in St.
      cbn [descriptionOf]. rewrite St.
      rewrite IH. cbn [app map numbered].
      rewrite draftRow_later, afterDecisions_app.
      reflexivity.
    + unfold quiet in Q. apply negb_true_iff in Q.
      unfold yieldingTexts. cbn [flat_map app]. fold (yieldingTexts insights).
      destruct (truthy (insightTextOf (AttributedInsight i t sp))) eqn:T;
        cbn [negb]; [|cbn; apply IH].
      cbn [andb] in Q. rewrite Q. cbn. apply IH.
Qed.

(** The pass over the insights of a point, whatever they are: it stores
    the drafts of the plan, then returns or throws as the plan says. *)
Lemma deriveFromInsights_plan meetingId topic participants insights :
  forall w,
  deriveFromInsights meetingId topic participants insights w
  = (planOutcome (snd (insightPlan participants topic insights)),
     afterDecisions w
       (map (draftRow w meetingId)
            (numbered 0 (fst (insightPlan participants topic insights))))).
Proof.
  induction insights as [|insight insights IH]; intros w.
  - cbn. now rewrite afterDecisions_nil.
  - unfold deriveFromInsights in *. cbn [forEach insightPlan].
    unfold bind at 1.
    destruct insight as [s|i t sp].
    + assert (Y : yieldsDecision s = truthy s && isDecisionBearing s)
        by (unfold yieldsDecision; now rewrite isDecisionBearing_keywords).
      cbn [quiet insightTextOf]. rewrite Y.
      destruct (insightPlan participants topic insights) as [drafts stopped]
        eqn:P.
      cbn [fst snd] in *.
      destruct (truthy s) eqn:T; cbn [negb andb app]; [|cbn; apply IH].
      destruct (isDecisionBearing s) eqn:B; cbn [app]; [|cbn; apply IH].
      unfold bind at 1. rewrite resolveOwner_plain.
      pose proof (createDecision_step meetingId
                    {| draftDescription := s;
                       draftOwner := plainOwner s participants;
                       draftContext := topic |} w) as St.
      cbn [draftDescription draftOwner draftContext] in St.
      cbn [descriptionOf]. rewrite St.
      rewrite IH. cbn [app map numbered].
      rewrite draftRow_later, afterDecisions_app.
      reflexivity.
    + destruct (quiet (AttributedInsight i t sp)) eqn:Q.
      * destruct (insightPlan participants topic insights)
          as [drafts stopped] eqn:P.
        cbn [fst snd app] in *.
        unfold quiet in Q. apply negb_true_iff in Q.
        destruct (truthy (insightTextOf (AttributedInsight i t sp))) eqn:T;
          cbn [negb]; [|cbn; apply IH].
        cbn [andb] in Q. rewrite Q. cbn. apply IH.
      * unfold quiet in Q. apply negb_false_iff in Q.
        apply andb_true_iff in Q. destruct Q as [T B].
        rewrite T, B. cbn. now rewrite afterDecisions_nil.
Qed.

Lemma deriveFromDecisions_drafts meetingId topic entries w :
  deriveFromDecisions meetingId topic entries w
  = (Return tt,
     afterDecisions w
       (map (draftRow w meetingId)
          (numbered 0
             (map (fun d => {| draftDescription := DecisionDetail.decision d;
                               draftOwner := DecisionDetail.owner d;
                               draftContext := topic |})
                  entries)))).
Proof.
  rewrite deriveFromDecisions_run. unfold afterDecisions.
  rewrite numbered_map, map_map, !length_map, numbered_length.
  reflexivity.
Qed.

Lemma derivePoint_quiet meetingId participants point w :
  quietPoint point = true ->
  derivePoint meetingId participants point w
  = (Return tt,
     afterDecisions w
       (map (draftRow w meetingId)
            (numbered 0 (draftsOfPoint participants point)))).
Proof.
  unfold quietPoint, derivePoint, draftsOfPoint. intros Q.
  destruct (DiscussionPoint.decisions point) as [[|d ds]|].
  - destruct (DiscussionPoint.insights point) as [[|i ins]|].
    + cbn. now rewrite afterDecisions_nil.
    + now apply deriveFromInsights_quiet.
    + cbn. now rewrite afterDecisions_nil.
  - apply deriveFromDecisions_drafts.
  - destruct (DiscussionPoint.insights point) as [[|i ins]|].
    + cbn. now rewrite afterDecisions_nil.
    + now apply deriveFromInsights_quiet.
    + cbn. now rewrite afterDecisions_nil.
Qed.

Lemma derivePoints_quiet meetingId participants points :
  forallb quietPoint points = true ->
  forall w,
  forEach points (derivePoint meetingId participants) w
  = (Return tt,
     afterDecisions w
       (map (draftRow w meetingId)
            (numbered 0 (flat_map (draftsOfPoint participants) points)))).
Proof.
  induction points as [|point points IH]; intros Q w.
  - cbn. now rewrite afterDecisions_nil.
  - cbn [forallb] in Q. apply andb_true_iff in Q. destruct Q as [Q Qs].
    cbn [forEach flat_map]. unfold bind at 1.
    rewrite derivePoint_quiet by exact Q.
    rewrite (IH Qs), draftRow_later, afterDecisions_app.
    rewrite numbered_app, map_app, length_map, numbered_length.
    reflexivity.
Qed.

Lemma deriveDecisions_quiet meetingId participants summaryData w :
  forallb quietPoint
    (storage.orElse (SummaryData.keyDiscussionPoints summaryData) []) = true ->
  deriveDecisions meetingId participants summaryData w
  = (Return tt,
     afterDecisions w
       (map (draftRow w meetingId)
            (numbered 0 (draftsOf participants summaryData)))).
Proof.
  unfold deriveDecisions, draftsOf. intros Q.
  destruct (SummaryData.keyDiscussionPoints summaryData) as [[|p ps]|].
  - cbn. now rewrite afterDecisions_nil.
  - now apply derivePoints_quiet.
  - cbn. now rewrite afterDecisions_nil.
Qed.

Lemma derivePoint_plan meetingId participants point w :
  derivePoint meetingId participants point w
  = (planOutcome (snd (pointPlan participants point)),
     afterDecisions w
       (map (draftRow w meetingId)
            (numbered 0 (fst (pointPlan participants point))))).
Proof.
  unfold derivePoint, pointPlan.
  destruct (DiscussionPoint.decisions point) as [[|d ds]|].
  - destruct (DiscussionPoint.insights point) as [[|i ins]|].
    + cbn. now rewrite afterDecisions_nil.
    + apply deriveFromInsights_plan.
    + cbn. now rewrite afterDecisions_nil.
  - apply deriveFromDecisions_drafts.
  - destruct (DiscussionPoint.insights point) as [[|i ins]|].
    + cbn. now rewrite afterDecisions_nil.
    + apply deriveFromInsights_plan.
    + cbn. now rewrite afterDecisions_nil.
Qed.

Lemma derivePoints_plan meetingId participants points :
  forall w,
  forEach points (derivePoint meetingId participants) w
  = (planOutcome (snd (pointsPlan participants points)),
     afterDecisions w
       (map (draftRow w meetingId)
            (numbered 0 (fst (pointsPlan participants points))))).
Proof.
  induction points as [|point points IH]; intros w.
  - cbn. now rewrite afterDecisions_nil.
  - cbn [forEach pointsPlan]. unfold bind at 1.
    rewrite derivePoint_plan.
    destruct (pointPlan participants point) as [drafts stopped].
    cbn [fst snd]. destruct stopped; cbn [planOutcome]; [reflexivity|].
    rewrite IH.
    destruct (pointsPlan participants points) as [later stopped'].
    cbn [fst snd].
    rewrite draftRow_later, afterDecisions_app.
    rewrite numbered_app, map_app, length_map, numbered_length.
    reflexivity.
Qed.

Lemma deriveDecisions_forEach meetingId participants summaryData w :
  deriveDecisions meetingId participants summaryData w
  = forEach (storage.orElse (SummaryData.keyDiscussionPoints summaryData) [])
            (derivePoint meetingId participants) w.
Proof.
  unfold deriveDecisions.
  destruct (SummaryData.keyDiscussionPoints summaryData) as [[|p ps]|];
    reflexivity.
Qed.

Lemma forEach_app {A} (l l' : list A) (body : A -> M unit) w :
  forEach (l ++ l') body w
  = match forEach l body w with
    | (Return _, w1) => forEach l' body w1
    | (Throw e, w1) => (Throw e, w1)
    end.
Proof.
  revert w. induction l as [|x l IH]; intros w; [reflexivity|].
  cbn [app forEach]. unfold bind.
  destruct (body x w) as [[u|e] w1]; [apply IH | reflexivity].
Qed.

(** Explicit decisions of a point the pass reaches.  In a pass over a
    summary, a discussion point whose [decisions] array is not empty and
    which the pass reaches (the pass over the points before it has
    returned) yields exactly one decision per entry, in order, stored
    right after the decisions of the earlier points: the description is
    the entry's [decision], the owner the entry's [owner], the context the
    topic of the point.  What follows these rows is what the later points
    store, and the whole pass is the same whatever the insights of the
    point are: they are not looked at. *)
Lemma explicit_decisions_when_reached (meetingId : nat) (participants : list string)
    (summaryData : SummaryData.t) (before : list DiscussionPoint.t)
    (point : DiscussionPoint.t) (after : list DiscussionPoint.t)
    (d : DecisionDetail.t) (ds : list DecisionDetail.t) (w : World) :
  SummaryData.keyDiscussionPoints summaryData
  = Some (before ++ point :: after) ->
  DiscussionPoint.decisions point = Some (d :: ds) ->
  fst (forEach before (derivePoint meetingId participants) w) = Return tt ->
  let reached := snd (forEach before (derivePoint meetingId participants) w) in
  let rows :=
    map (decisionRow reached meetingId (DiscussionPoint.topic point))
        (numbered 0 (d :: ds)) in
  let out := deriveDecisions meetingId participants summaryData w in
  exists later,
    decisions (db (snd out)) = decisions (db reached) ++ rows ++ later
    /\ decisions
         (db (snd (forEach after (derivePoint meetingId participants)
                     (afterDecisions reached rows))))
       = decisions (db reached) ++ rows ++ later
    /\ (forall point' summaryData',
          DiscussionPoint.decisions point' = DiscussionPoint.decisions point ->
          DiscussionPoint.topic point' = DiscussionPoint.topic point ->
          SummaryData.keyDiscussionPoints summaryData'
          = Some (before ++ point' :: after) ->
          deriveDecisions meetingId participants summaryData' w = out).
Proof.
  intros K H R. cbv zeta.
  assert (Run : forall point' summaryData',
    DiscussionPoint.decisions point' = Some (d :: ds) ->
    DiscussionPoint.topic point' = DiscussionPoint.topic point ->
    SummaryData.keyDiscussionPoints summaryData'
    = Some (before ++ point' :: after) ->
    deriveDecisions meetingId participants summaryData' w
    = forEach after (derivePoint meetingId participants)
        (afterDecisions
           (snd (forEach before (derivePoint meetingId participants) w))
           (map (decisionRow
                   (snd (forEach before (derivePoint meetingId participants) w))
                   meetingId (DiscussionPoint.topic point))
                (numbered 0 (d :: ds))))).
  { intros point' summaryData' H' T' K'.
    rewrite deriveDecisions_forEach, K'. cbn [storage.orElse].
    rewrite forEach_app.
    destruct (forEach before (derivePoint meetingId participants) w)
      as [[u|e] w1]; [|discriminate R].
    cbn [snd forEach]. unfold bind at 1. unfold derivePoint at 1.
    rewrite H', T', deriveFromDecisions_run.
    unfold afterDecisions. now rewrite length_map, numbered_length. }
  rewrite (Run point summaryData H eq_refl K).
  rewrite derivePoints_plan.
  exists (map (draftRow
                 (afterDecisions
                    (snd (forEach before (derivePoint meetingId participants) w))
                    (map (decisionRow
                            (snd (forEach before
                                    (derivePoint meetingId participants) w))
                            meetingId (DiscussionPoint.topic point))
                         (numbered 0 (d :: ds))))
                 meetingId)
              (numbered 0 (fst (pointsPlan participants after)))).
  cbn [snd db decisions afterDecisions setDecisions].
  split; [now rewrite app_assoc|]. split; [now rewrite app_assoc|].
  intros point' summaryData' H' T' K'.
  rewrite (Run point' summaryData' (eq_trans H' H) T' K').
  now rewrite derivePoints_plan.
Qed.

(** C3, on the code.  A discussion point whose [decisions] array is not
    empty yields no decision when the pass over the points before it
    throws: the derivation then throws the same exception, the decisions
    stored are those the earlier points had stored, and the pass is the
    same whatever the point and the points after it are.  (The pass over
    the earlier points throws at an object insight that holds a keyword,
    see C4.) *)
Theorem explicit_decisions_not_reached (meetingId : nat)
    (participants : list string) (summaryData : SummaryData.t)
    (before : list DiscussionPoint.t) (point : DiscussionPoint.t)
    (after : list DiscussionPoint.t) (d : DecisionDetail.t)
    (ds : list DecisionDetail.t) (e : exn) (w : World) :
  SummaryData.keyDiscussionPoints summaryData
  = Some (before ++ point :: after) ->
  DiscussionPoint.decisions point = Some (d :: ds) ->
  fst (forEach before (derivePoint meetingId participants) w) = Throw e ->
  let out := deriveDecisions meetingId participants summaryData w in
  fst out = Throw e
  /\ decisions (db (snd out))
     = decisions
         (db (snd (forEach before (derivePoint meetingId participants) w)))
  /\ (forall point' after' summaryData',
        SummaryData.keyDiscussionPoints summaryData'
        = Some (before ++ point' :: after') ->
        deriveDecisions meetingId participants summaryData' w = out).
Proof.
  intros K H R. cbv zeta.
  assert (Run : forall point' after' summaryData',
    SummaryData.keyDiscussionPoints summaryData'
    = Some (before ++ point' :: after') ->
    deriveDecisions meetingId participants summaryData' w
    = forEach before (derivePoint meetingId participants) w).
  { intros point' after' summaryData' K'.
    rewrite deriveDecisions_forEach, K'. cbn [storage.orElse].
    rewrite forEach_app.
    destruct (forEach before (derivePoint meetingId participants) w)
      as [[u|e'] w1]; [discriminate R | reflexivity]. }
  rewrite (Run point after summaryData K).
  split; [exact R|]. split; [reflexivity|].
  intros point' after' summaryData' K'.
  exact (Run point' after' summaryData' K').
Qed.

Lemma draftOf_rows w meetingId (drafts : list Draft) : forall k,
  map draftOf (map (draftRow w meetingId) (numbered k drafts)) = drafts.
Proof.
  induction drafts as [|[d o c] drafts IH]; intros k; [reflexivity|].
  cbn [numbered map]. f_equal. apply IH.
Qed.

Lemma draftRow_ids w meetingId (drafts : list Draft) : forall k,
  map Decision.id (map (draftRow w meetingId) (numbered k drafts))
  = seq (S (decisionSeq (db w) + k)) (List.length drafts).
Proof.
  induction drafts as [|d drafts IH]; intros k; [reflexivity|].
  cbn [numbered map List.length seq]. f_equal.
  rewrite IH. now rewrite Nat.add_succ_r.
Qed.

(** X5.
    The decisions derived from a summary in which no object insight with
    a keyword is reached: the pass returns, and it appends to the table,
    in the order of the discussion points, one row for each explicit
    decision of a point that has some and, for a point that has none, one
    row for each string insight that is not empty and holds a keyword,
    with the text of the insight as description and the owner read from
    it.  The rows get the next identities, and no other table, nor any
    earlier decision, is touched. *)
Theorem derived_decisions (meetingId : nat) (participants : list string)
    (summaryData : SummaryData.t) (w : World) :
  forallb quietPoint
    (storage.orElse (SummaryData.keyDiscussionPoints summaryData) []) = true ->
  let rows := map (draftRow w meetingId)
                  (numbered 0 (draftsOf participants summaryData)) in
  deriveDecisions meetingId participants summaryData w
  = (Return tt, afterDecisions w rows)
  /\ map draftOf rows = draftsOf participants summaryData
  /\ map Decision.id rows
     = seq (S (decisionSeq (db w)))
           (List.length (draftsOf participants summaryData))
  /\ Forall (fun row : Decision.t => InsertDecision.meetingId row = meetingId)
            rows.
Proof.
  intros Q. cbv zeta. split; [now apply deriveDecisions_quiet|].
  split; [apply draftOf_rows|split].
  - rewrite draftRow_ids. now rewrite Nat.add_0_r.
  - apply Forall_forall. intros row I. apply in_map_iff in I.
    destruct I as [e [<- _]]. reflexivity.
Qed.


(** An object insight with a keyword, first in the first discussion point
    when that point has no explicit decision, stops the whole derivation
    of decisions before anything is stored. *)
Lemma deriveDecisions_stops meetingId participants summaryData point points
    insight text speaker rest w :
  SummaryData.keyDiscussionPoints summaryData = Some (point :: points) ->
  lengthOpt (DiscussionPoint.decisions point) = 0 ->
  DiscussionPoint.insights point
  = Some (AttributedInsight insight text speaker :: rest) ->
  truthy (insightTextOf (AttributedInsight insight text speaker)) = true ->
  isDecisionBearing (insightTextOf (AttributedInsight insight text speaker))
  = true ->
  deriveDecisions meetingId participants summaryData w
  = (Throw (TypeError "insight.match is not a function"), w).
Proof.
  intros K D I T B. unfold deriveDecisions. rewrite K.
  cbn [forEach]. unfold bind at 1. unfold derivePoint.
  destruct (DiscussionPoint.decisions point) as [[|d ds]|];
    try discriminate; rewrite I;
    unfold deriveFromInsights; cbn [forEach]; unfold bind at 1;
    rewrite T, B; reflexivity.
Qed.

Lemma deriveFromResources_run meetingId attendees participants resources :
  forall w,
  deriveFromResources meetingId attendees participants resources w
  = (Return tt,
     afterActionItems w
       (map (resourceRow w meetingId (resolveAssignee attendees participants))
            (numbered 0 resources))).
Proof.
  induction resources as [|r resources IH]; intros w.
  - destruct w as [[] ? ? ? ? ? ?]. cbn.
    unfold afterActionItems, setActionItems. cbn.
    now rewrite app_nil_r, !Nat.add_0_r.
  - unfold deriveFromResources in *. cbn [forEach].
    unfold bind at 1. unfold bind at 1. unfold now at 1.
    unfold bind at 1. unfold storage.createActionItem at 1.
    cbn [bind getWorld ret modifyDb fst snd]. rewrite IH.
    unfold afterActionItems, setActionItems. cbn.
    rewrite <- app_assoc. cbn. rewrite numbered_shift.
    rewrite !length_map, !numbered_length.
    f_equal. f_equal; [|lia]. f_equal; [|lia].
    f_equal. f_equal.
    + unfold resourceRow. cbn. now rewrite !Nat.add_0_r.
    + apply map_ext. intros [k e]. unfold resourceRow. cbn.
      now rewrite !Nat.add_succ_r.
Qed.

(** X7.
    When the follow-up requirements bring no task assignment, each
    resource becomes one action item, in order: the task is the resource
    after the words [Share resource: ], every item of the pass has the same
    assignee, priority Medium, status Pending and a deadline a week after
    its own clock reading.  With no resource listed nothing is stored, and
    the pass never throws. *)
Theorem resources_become_action_items (meetingId : nat)
    (participants : list string) (summaryData : SummaryData.t)
    (followUp : FollowUp.t) (resources : list string) (w : World) :
  SummaryData.followUpRequirements summaryData = Some followUp ->
  lengthOpt (FollowUp.taskAssignments followUp) = 0 ->
  FollowUp.resources followUp = Some resources ->
  let assignee :=
    resolveAssignee (SummaryData.attendees summaryData) participants in
  let rows := map (resourceRow w meetingId assignee) (numbered 0 resources) in
  deriveActionItems meetingId participants summaryData w
  = (Return tt, afterActionItems w rows)
  /\ map (fun row : ActionItem.t => InsertActionItem.task row) rows
     = map (fun resource => ("Share resource: " ^ resource)%string) resources
  /\ Forall (fun row : ActionItem.t =>
               InsertActionItem.meetingId row = meetingId
               /\ InsertActionItem.assignee row = assignee
               /\ InsertActionItem.priority row = "Medium"
               /\ InsertActionItem.status row = "Pending")
            rows.
Proof.
  intros F T R. cbv zeta. split; [|split].
  - unfold deriveActionItems. rewrite F, R.
    destruct (FollowUp.taskAssignments followUp) as [[|t ts]|];
      try discriminate; apply deriveFromResources_run.
  - rewrite map_map. clear R.
    generalize 0 as n. induction resources as [|r rs IH]; intros n;
      [reflexivity|].
    cbn [numbered map]. rewrite IH. reflexivity.
  - apply Forall_forall. intros row I. apply in_map_iff in I.
    destruct I as [e [<- _]]. repeat split.
Qed.


(** X9.
    The owner of a decision read from a string insight.  When the text
    starts with a name followed by a colon, the owner is that name with
    its ends trimmed, whoever is named later in the text; a text with no
    colon, or that starts with one, gives the first participant of the
    meeting whose name occurs in the text, and [Team] when none does. *)
Theorem string_insight_owner (participants : list string) (w : World) :
  (forall name rest,
     name <> EmptyString -> count ":" name = 0 ->
     resolveOwner (PlainInsight (name ^ ":" ^ rest)) participants w
     = (Return (trim name), w))
  /\ (forall text,
        count ":" text = 0 \/ (exists rest, text = String ":" rest) ->
        resolveOwner (PlainInsight text) participants w
        = (Return (match find (fun p => includes text p) participants with
                   | Some participant => participant
                   | None => "Team"
                   end), w)).
Proof.
  assert (B : forall name rest, count ":" name = 0 ->
            beforeColon (name ^ ":" ^ rest) = Some name).
  { induction name as [|c name IH]; intros rest C; [reflexivity|].
    cbn [count] in C. cbn [append beforeColon].
    destruct (Ascii.eqb c ":"); [discriminate|].
    pose proof (IH rest C) as E. cbn [append] in E. now rewrite E. }
  assert (N : forall text, count ":" text = 0 -> beforeColon text = None).
  { induction text as [|c text IH]; intros C; [reflexivity|].
    cbn [count] in C. cbn [beforeColon].
    destruct (Ascii.eqb c ":"); [discriminate|].
    now rewrite IH. }
  split.
  - intros name rest NE C. rewrite resolveOwner_plain. unfold plainOwner.
    unfold matchSpeakerPrefix. rewrite B by exact C.
    destruct name; [now elim NE | reflexivity].
  - intros text H. rewrite resolveOwner_plain. unfold plainOwner.
    unfold matchSpeakerPrefix.
    destruct H as [C|[rest ->]]; [now rewrite N | reflexivity].
Qed.

End DerivationMore.

(** * Further properties of the client and of the orchestrator *)

Section EnsuresFacts.

Lemma ensures_ret {A} (P : A -> Prop) (a : A) : P a -> ensures P (ret a).
Proof. intros H w a' w' [= <- _]. exact H. Qed.

Lemma ensures_throw {A} (P : A -> Prop) e : ensures P (@throw A e).
Proof. intros w a w' E. discriminate. Qed.

Lemma ensures_bind {A B} (P : B -> Prop) (c : M A) (k : A -> M B) :
  (forall a, ensures P (k a)) -> ensures P (bind c k).
Proof.
  intros H w b w' E. unfold bind in E.
  destruct (c w) as [[a|e] w1]; [|discriminate].
  exact (H a w1 b w' E).
Qed.

Lemma ensures_tryCatch {A} (P : A -> Prop) (c : M A) (h : exn -> M A) :
  ensures P c -> (forall e, ensures P (h e)) -> ensures P (tryCatch c h).
Proof.
  intros Hc Hh w a w' E. unfold tryCatch in E.
  destruct (c w) as [[a'|e] w1] eqn:C.
  - inversion E; subst. exact (Hc _ _ _ C).
  - exact (Hh e w1 a w' E).
Qed.

End EnsuresFacts.

Section ClientMore.

Context {platform : Platform}.

Lemma analyzeTranscript_calls transcript meeting w :
  remoteCalls (snd (analyzeTranscript transcript meeting w))
  = (if truthyOpt (OPENAI_API_KEY w) && openaiReady w
     then S (remoteCalls w) else remoteCalls w).
Proof.
  unfold analyzeTranscript, bind, enterAnalysis, getWorld, tryCatch, callRemote.
  cbn. destruct (truthyOpt (OPENAI_API_KEY w)); cbn; [|reflexivity].
  destruct (openaiReady w); cbn; [|reflexivity].
  destruct (remote (remoteCalls w)); reflexivity.
Qed.

(** X10.
    [analyzeTranscript] never throws and never writes: whatever the
    service does, it returns a summary (the reply when there is a
    credential, a client and a reply that parses, the placeholder
    otherwise) and leaves the database, the files and the clock as they
    were.  The service is asked once when a credential is configured and
    the client was built, and not at all otherwise. *)
Theorem analysis_is_contained (transcript : string) (meeting : Meeting.t)
    (w : World) :
  let out := analyzeTranscript transcript meeting w in
  fst out = Return (analysisOf w)
  /\ db (snd out) = db w
  /\ fs (snd out) = fs w
  /\ ticks (snd out) = ticks w
  /\ remoteCalls (snd out)
     = (if truthyOpt (OPENAI_API_KEY w) && openaiReady w
        then S (remoteCalls w) else remoteCalls w).
Proof.
  cbv zeta.
  unfold analyzeTranscript, analysisOf, bind, enterAnalysis, getWorld, tryCatch,
    callRemote.
  cbn. destruct (truthyOpt (OPENAI_API_KEY w)); cbn.
  - destruct (openaiReady w); cbn.
    + destruct (remote (remoteCalls w)); cbn; repeat split.
    + repeat split.
  - repeat split.
Qed.

End ClientMore.

Section PassMore.

Context {platform : Platform}.

Lemma deriveActionItems_run meetingId participants summaryData w :
  deriveActionItems meetingId participants summaryData w
  = (Return tt,
     afterActionItems w (itemsAt w meetingId participants summaryData)).
Proof.
  assert (Z : afterActionItems w [] = w).
  { destruct w as [[] ? ? ? ? ? ?].
    unfold afterActionItems, setActionItems. cbn.
    now rewrite app_nil_r, !Nat.add_0_r. }
  unfold deriveActionItems, itemsAt.
  destruct (SummaryData.followUpRequirements summaryData) as [followUp|];
    [|cbn; now rewrite Z].
  destruct (FollowUp.taskAssignments followUp) as [[|t ts]|].
  - destruct (FollowUp.resources followUp) as [resources|];
      [apply deriveFromResources_run | cbn; now rewrite Z].
  - rewrite deriveFromTasks_run. unfold afterActionItems.
    now rewrite length_map, numbered_length.
  - destruct (FollowUp.resources followUp) as [resources|];
      [apply deriveFromResources_run | cbn; now rewrite Z].
Qed.

Lemma draftRow_ext w1 w2 meetingId :
  decisionSeq (db w1) = decisionSeq (db w2) ->
  ticks w1 = ticks w2 ->
  forall entry, draftRow w1 meetingId entry = draftRow w2 meetingId entry.
Proof. intros S T entry. unfold draftRow. now rewrite S, T. Qed.

Lemma itemsAt_ext w1 w2 meetingId participants summaryData :
  actionItemSeq (db w1) = actionItemSeq (db w2) ->
  ticks w1 = ticks w2 ->
  itemsAt w1 meetingId participants summaryData
  = itemsAt w2 meetingId participants summaryData.
Proof.
  intros S T. unfold itemsAt, taskRow, resourceRow. now rewrite S, T.
Qed.

(** The create-or-update step of lines 142-168 for a summary that has its
    two required columns: it returns, the summary of the meeting then
    carries the data, and nothing else moves. *)
Lemma persist_valid meetingId data points followUp w :
  SummaryData.keyDiscussionPoints data = Some points ->
  SummaryData.followUpRequirements data = Some followUp ->
  exists w',
    (forall B (k : M B),
       (existingSummary <- storage.getMeetingSummaryByMeeting meetingId ;;
        match existingSummary with
        | Some existing =>
            storage.updateMeetingSummary (MeetingSummary.id existing)
              (SummaryPatch.ofData data) ;;
            ret tt
        | None =>
            storage.createMeetingSummary (summaryFor meetingId data) ;;
            ret tt
        end ;;
        k) w = k w')
    /\ meetings (db w') = meetings (db w)
    /\ decisions (db w') = decisions (db w)
    /\ decisionSeq (db w') = decisionSeq (db w)
    /\ actionItems (db w') = actionItems (db w)
    /\ actionItemSeq (db w') = actionItemSeq (db w)
    /\ ticks w' = ticks w
    /\ exists summary,
         find (fun s => MeetingSummary.meetingId s =? meetingId)
              (meetingSummaries (db w')) = Some summary
         /\ holdsData summary data.
Proof.
  intros K F.
  destruct (find (fun s => MeetingSummary.meetingId s =? meetingId)
                 (meetingSummaries (db w))) as [existing|] eqn:E.
  - eexists. split.
    + intros B k. unfold bind at 1.
      unfold storage.getMeetingSummaryByMeeting at 1.
      cbn [bind getWorld ret]. rewrite E.
      unfold storage.updateMeetingSummary, bind, getWorld, modifyDb. cbn.
      reflexivity.
    + cbn. do 6 (split; [reflexivity|]).
      rewrite find_map_same.
      * rewrite E. cbn. eexists. split; [reflexivity|].
        rewrite Nat.eqb_refl. unfold holdsData. cbn. rewrite K, F. cbn.
        repeat split.
      * intros x.
        destruct (MeetingSummary.id x =? MeetingSummary.id existing);
          reflexivity.
  - eexists. split.
    + intros B k. unfold bind at 1.
      unfold storage.getMeetingSummaryByMeeting at 1.
      cbn [bind getWorld ret]. rewrite E.
      unfold storage.createMeetingSummary, bind, getWorld, modifyDb.
      cbn -[existsb]. rewrite K, F.
      rewrite (find_none_existsb _ _ E). cbn. reflexivity.
    + cbn. do 6 (split; [reflexivity|]).
      eexists. split.
      * apply find_app_new; [exact E | cbn; apply Nat.eqb_refl].
      * unfold holdsData. cbn. rewrite K, F. repeat split.
Qed.

Lemma analyzeExisting_success meetingId (meeting : Meeting.t) text
    (updated : Meeting.t) data points followUp w :
  truthyOpt (OPENAI_API_KEY w) && truthyOpt text = true ->
  analysisOf w = data ->
  SummaryData.keyDiscussionPoints data = Some points ->
  SummaryData.followUpRequirements data = Some followUp ->
  forallb quietPoint points = true ->
  let rows :=
    map (draftRow w meetingId)
        (numbered 0 (draftsOf (InsertMeeting.participants meeting) data)) in
  exists w',
    analyzeExisting meetingId meeting text (Some updated) w
    = (Return (Some
         {| success := true;
            message :=
              "Transcript uploaded, linked to meeting, and AI analysis completed";
            data := Some updated |}), w')
    /\ meetings (db w') = meetings (db w)
    /\ decisions (db w') = decisions (db w) ++ rows
    /\ actionItems (db w')
       = actionItems (db w)
         ++ itemsAt (afterDecisions w rows) meetingId
              (InsertMeeting.participants meeting) data
    /\ exists summary,
         find (fun s => MeetingSummary.meetingId s =? meetingId)
              (meetingSummaries (db w')) = Some summary
         /\ holdsData summary data.
Proof.
  intros G A K F Q. cbv zeta.
  unfold analyzeExisting. unfold bind at 1. cbn [getWorld]. rewrite G.
  unfold bind at 1.
  destruct (analyzeTranscript_full (storage.orElse text EmptyString) updated w)
    as (w1 & R & D & _ & T).
  rewrite R, A.
  destruct (persist_valid meetingId data w1 K F)
    as (w2 & Run & M2 & D2 & S2 & A2 & AS2 & T2 & Sum).
  rewrite Run.
  unfold bind at 1.
  rewrite deriveDecisions_quiet by (rewrite K; exact Q).
  unfold bind at 1. rewrite deriveActionItems_run.
  eexists. split; [reflexivity|]. cbn [db snd afterActionItems afterDecisions].
  cbn [meetings decisions actionItems meetingSummaries setActionItems
       setDecisions].
  rewrite M2, D2, A2, D.
  split; [reflexivity|]. split; [|split].
  - f_equal. apply map_ext. intros e. apply draftRow_ext; congruence.
  - f_equal. apply itemsAt_ext; cbn; [congruence|].
    rewrite !length_map, !numbered_length. congruence.
  - exact Sum.
Qed.

(** X11.
    An upload for an existing meeting whose analysis succeeds stores the
    whole result in one pass: the summary of the meeting carries the reply
    (created, or written over the one there was), the decisions the reply
    stands for are appended in order, then its action items, each with
    the identity of the meeting, and the upload reports the completed
    analysis.  The reply must bring its discussion points and follow-up
    requirements and reach no object insight with a keyword. *)
Theorem analysed_upload_stores_entities (file : File.t) (userId : nat)
    (meetingId : nat) (meeting : Meeting.t) (data : SummaryData.t)
    (points : list DiscussionPoint.t) (followUp : FollowUp.t) (w : World) :
  meetingId <> 0 ->
  find (fun m => Meeting.id m =? meetingId) (meetings (db w)) = Some meeting ->
  truthyOpt (OPENAI_API_KEY w) && truthyOpt (transcriptOf file w) = true ->
  openaiReady w = true ->
  remote (remoteCalls w) = Parsed data ->
  SummaryData.keyDiscussionPoints data = Some points ->
  SummaryData.followUpRequirements data = Some followUp ->
  forallb quietPoint points = true ->
  let out := saveTranscriptToDatabase file userId (Some meetingId) w in
  let rows :=
    map (draftRow w meetingId)
        (numbered 0 (draftsOf (InsertMeeting.participants meeting) data)) in
  fst out
  = Return
      {| success := true;
         message :=
           "Transcript uploaded, linked to meeting, and AI analysis completed";
         data := Some (withTranscript file (transcriptOf file w) meeting) |}
  /\ decisions (db (snd out)) = decisions (db w) ++ rows
  /\ actionItems (db (snd out))
     = actionItems (db w)
       ++ itemsAt (afterDecisions w rows) meetingId
            (InsertMeeting.participants meeting) data
  /\ exists summary,
       find (fun s => MeetingSummary.meetingId s =? meetingId)
            (meetingSummaries (db (snd out))) = Some summary
       /\ holdsData summary data.
Proof.
  intros N H G Rd Rm K F Q. cbv zeta.
  assert (E : exists w',
    saveTranscriptToDatabase file userId (Some meetingId) w
    = (Return
         {| success := true;
            message :=
              "Transcript uploaded, linked to meeting, and AI analysis completed";
            data := Some (withTranscript file (transcriptOf file w) meeting) |},
       w')
    /\ decisions (db w')
       = decisions (db w)
         ++ map (draftRow w meetingId)
              (numbered 0 (draftsOf (InsertMeeting.participants meeting) data))
    /\ actionItems (db w')
       = actionItems (db w)
         ++ itemsAt
              (afterDecisions w
                 (map (draftRow w meetingId)
                    (numbered 0
                       (draftsOf (InsertMeeting.participants meeting) data))))
              meetingId (InsertMeeting.participants meeting) data
    /\ exists summary,
         find (fun s => MeetingSummary.meetingId s =? meetingId)
              (meetingSummaries (db w')) = Some summary
         /\ holdsData summary data).
  { unfold saveTranscriptToDatabase.
    destruct meetingId as [|n]; [easy|].
    unfold tryCatch at 1. unfold saveForExisting.
    unfold bind at 1. rewrite getMeeting_run, H.
    unfold bind at 1. rewrite readTranscript_run.
    unfold bind at 1. rewrite updateMeeting_transcript.
    erewrite find_uploadedTo by exact H.
    unfold bind at 1. unfold tryCatch at 1.
    assert (Ad : analysisOf w = data).
    { unfold analysisOf. apply andb_true_iff in G. destruct G as [Gk _].
      now rewrite Gk, Rd, Rm. }
    match goal with
    | |- context [analyzeExisting ?i ?m ?t (Some ?u) ?w1] =>
        destruct (@analyzeExisting_success i m t u data points followUp w1
                    G Ad K F Q)
          as (w' & -> & M' & D' & A' & S')
    end.
    exists w'. cbn in D', A'. split; [reflexivity|].
    split; [exact D'|]. split; [exact A' | exact S']. }
  destruct E as (w' & -> & D & A & S). cbn [fst snd].
  repeat split; assumption.
Qed.

(** The pass of an upload stops at an object insight with a keyword. *)
Lemma analyzeExisting_stops meetingId (meeting : Meeting.t) text
    (updated : Meeting.t) data point points insight itext speaker rest w :
  truthyOpt (OPENAI_API_KEY w) && truthyOpt text = true ->
  analysisOf w = data ->
  SummaryData.keyDiscussionPoints data = Some (point :: points) ->
  lengthOpt (DiscussionPoint.decisions point) = 0 ->
  DiscussionPoint.insights point
  = Some (AttributedInsight insight itext speaker :: rest) ->
  truthy (insightTextOf (AttributedInsight insight itext speaker)) = true ->
  isDecisionBearing (insightTextOf (AttributedInsight insight itext speaker))
  = true ->
  exists e w',
    analyzeExisting meetingId meeting text (Some updated) w = (Throw e, w')
    /\ decisions (db w') = decisions (db w)
    /\ actionItems (db w') = actionItems (db w).
Proof.
  intros G A K D I T B.
  unfold analyzeExisting. unfold bind at 1. cbn [getWorld]. rewrite G.
  unfold bind at 1.
  destruct (analyzeTranscript_full (storage.orElse text EmptyString) updated w)
    as (w1 & R & Dw & _ & _).
  rewrite R, A. rewrite <- Dw.
  unfold bind at 1. unfold storage.getMeetingSummaryByMeeting at 1.
  cbn [bind getWorld ret].
  match goal with
  | |- context [bind ?c _ w1] =>
      assert (Keep : maintains
                (fun w => decisions (db w) = decisions (db w1)
                          /\ actionItems (db w) = actionItems (db w1)) c)
        by (destruct (find _ (meetingSummaries (db w1))); mauto);
      specialize (Keep w1 (conj eq_refl eq_refl));
      unfold bind at 1;
      destruct (c w1) as [[u|e] w2]
  end; cbn [snd] in Keep.
  - unfold bind at 1.
    rewrite (deriveDecisions_stops meetingId _ _ w2 K D I T B).
    eexists. exists w2. split; [reflexivity | exact Keep].
  - exists e, w2. split; [reflexivity | exact Keep].
Qed.

(** X12.
    One object insight with a keyword costs the pass all its entities:
    when the reply of the service has such an insight first in its first
    discussion point, and that point has no explicit decision, the upload
    stores no decision and no action item, not even the task assignments
    of the reply, and still reports success, with the message of an upload
    without analysis. *)
Theorem attributed_insight_loses_entities (file : File.t) (userId : nat)
    (meetingId : nat) (meeting : Meeting.t) (data : SummaryData.t)
    (point : DiscussionPoint.t) (points : list DiscussionPoint.t)
    (insight itext speaker : option string) (rest : list Insight)
    (w : World) :
  meetingId <> 0 ->
  find (fun m => Meeting.id m =? meetingId) (meetings (db w)) = Some meeting ->
  truthyOpt (OPENAI_API_KEY w) && truthyOpt (transcriptOf file w) = true ->
  openaiReady w = true ->
  remote (remoteCalls w) = Parsed data ->
  SummaryData.keyDiscussionPoints data = Some (point :: points) ->
  lengthOpt (DiscussionPoint.decisions point) = 0 ->
  DiscussionPoint.insights point
  = Some (AttributedInsight insight itext speaker :: rest) ->
  truthy (insightTextOf (AttributedInsight insight itext speaker)) = true ->
  isDecisionBearing (insightTextOf (AttributedInsight insight itext speaker))
  = true ->
  let out := saveTranscriptToDatabase file userId (Some meetingId) w in
  fst out
  = Return
      {| success := true;
         message := "Transcript uploaded and linked to meeting";
         data := Some (withTranscript file (transcriptOf file w) meeting) |}
  /\ decisions (db (snd out)) = decisions (db w)
  /\ actionItems (db (snd out)) = actionItems (db w).
Proof.
  intros N H G Rd Rm K D I T B. cbv zeta.
  assert (E : exists w',
    saveTranscriptToDatabase file userId (Some meetingId) w
    = (Return
         {| success := true;
            message := "Transcript uploaded and linked to meeting";
            data := Some (withTranscript file (transcriptOf file w) meeting) |},
       w')
    /\ decisions (db w') = decisions (db w)
    /\ actionItems (db w') = actionItems (db w)).
  { unfold saveTranscriptToDatabase.
    destruct meetingId as [|n]; [easy|].
    unfold tryCatch at 1. unfold saveForExisting.
    unfold bind at 1. rewrite getMeeting_run, H.
    unfold bind at 1. rewrite readTranscript_run.
    unfold bind at 1. rewrite updateMeeting_transcript.
    erewrite find_uploadedTo by exact H.
    unfold bind at 1. unfold tryCatch at 1.
    assert (Ad : analysisOf w = data).
    { unfold analysisOf. apply andb_true_iff in G. destruct G as [Gk _].
      now rewrite Gk, Rd, Rm. }
    match goal with
    | |- context [analyzeExisting ?i ?m ?t (Some ?u) ?w1] =>
        destruct (@analyzeExisting_stops i m t u data point points insight
                    itext speaker rest w1 G Ad K D I T B)
          as (e & w' & -> & D' & A')
    end.
    exists w'. cbn in D', A'. repeat split; assumption. }
  destruct E as (w' & -> & D' & A'). cbn [fst snd].
  repeat split; assumption.
Qed.

End PassMore.

Section EnsuresMore.

Lemma ensures_bind_post {A B} (Q : A -> Prop) (P : B -> Prop) (c : M A)
    (k : A -> M B) :
  ensures Q c -> (forall a, Q a -> ensures P (k a)) -> ensures P (bind c k).
Proof.
  intros Hc Hk w b w' E. unfold bind in E.
  destruct (c w) as [[a|e] w1] eqn:C; [|discriminate].
  exact (Hk a (Hc _ _ _ C) w1 b w' E).
Qed.

End EnsuresMore.

(** One step through the structure of a computation whose result is
    described. *)
Ltac estep :=
  lazymatch goal with
  | |- ensures _ (ret _) => apply ensures_ret
  | |- ensures _ (throw _) => apply ensures_throw
  | |- ensures _ (bind _ _) => apply ensures_bind; intros ?
  | |- ensures _ (if ?b then _ else _) => destruct b
  | |- ensures _ (match ?x with _ => _ end) => destruct x
  end.

Section UploadOutcome.

Context {platform : Platform}.

Lemma analyzeExisting_reports meetingId meeting text updated :
  ensures reportsSuccess (analyzeExisting meetingId meeting text updated).
Proof.
  unfold analyzeExisting. repeat estep;
    intros result E; inversion E; reflexivity.
Qed.

Lemma analyzeNew_reports meeting : ensures reportsSuccess (analyzeNew meeting).
Proof.
  unfold analyzeNew. repeat estep; intros result E; inversion E; reflexivity.
Qed.

Lemma saveNewCsv_reports file userId raw :
  ensures (fun result => success result = true) (saveNewCsv file userId raw).
Proof.
  unfold saveNewCsv. destruct (Normalizer.formatNew raw) as [text ps].
  do 3 estep.
  apply ensures_bind_post with (Q := reportsSuccess).
  - apply ensures_tryCatch; [apply analyzeNew_reports|].
    intros e. apply ensures_ret. intros r E. discriminate.
  - intros [r|] Q; apply ensures_ret; [now apply Q | reflexivity].
Qed.

(** What an upload comes to, for every file, user and meeting id. *)
Lemma saveTranscript_outcome file userId meetingId w :
  exists result w',
    saveTranscriptToDatabase file userId meetingId w = (Return result, w')
    /\ success result = uploadSucceeds file meetingId w
    /\ (success result = false -> w' = w /\ data result = None).
Proof.
  assert (New : exists result w',
    tryCatch (saveForNew file userId)
      (fun _ => ret {| success := false;
                       message := "Failed to save transcript information";
                       data := None |}) w = (Return result, w')
    /\ success result
       = isReadable file
         && match fs w (File.path file) with Some _ => true | None => false end
    /\ (success result = false -> w' = w /\ data result = None)).
  { destruct (isReadable file) eqn:R.
    - destruct (fs w (File.path file)) as [raw|] eqn:F.
      + unfold tryCatch. rewrite saveForNew_read with (raw := raw) by assumption.
        destruct (isCsv file).
        * destruct (returns_run w (saveNewCsv_returns file userId raw))
            as (r & w' & E).
          pose proof (@saveNewCsv_reports file userId raw _ _ _ E) as S.
          rewrite E.
          exists r, w'. split; [reflexivity|]. split; [exact S|].
          rewrite S. discriminate.
        * cbn. eexists. eexists. split; [reflexivity|].
          split; [reflexivity | discriminate].
      + unfold tryCatch, saveForNew. rewrite R.
        unfold bind, tryCatch, readFileSync. rewrite F. cbn.
        eexists. eexists. split; [reflexivity|]. cbn. auto.
    - unfold tryCatch, saveForNew. rewrite R. cbn.
      eexists. eexists. split; [reflexivity|]. cbn. auto. }
  unfold saveTranscriptToDatabase, uploadSucceeds.
  destruct meetingId as [[|n]|]; [exact New | | exact New].
  unfold tryCatch at 1. unfold saveForExisting.
  unfold bind at 1. rewrite getMeeting_run.
  destruct (find (fun m => Meeting.id m =? S n) (meetings (db w)))
    as [meeting|] eqn:H.
  - unfold bind at 1. rewrite readTranscript_run.
    unfold bind at 1. rewrite updateMeeting_transcript.
    unfold bind at 1. unfold tryCatch at 1.
    match goal with
    | |- context [analyzeExisting ?i ?m ?t ?u ?w1] =>
        destruct (analyzeExisting i m t u w1) as [[[r|]|e] w2] eqn:AE
    end.
    + pose proof (@analyzeExisting_reports _ _ _ _ _ _ _ AE r eq_refl) as Rp.
      cbn.
      exists r, w2. split; [reflexivity|]. split; [exact Rp|].
      rewrite Rp. discriminate.
    + cbn. eexists. eexists. split; [reflexivity|].
      split; [reflexivity | discriminate].
    + cbn. eexists. eexists. split; [reflexivity|].
      split; [reflexivity | discriminate].
  - cbn. eexists. eexists. split; [reflexivity|]. cbn. auto.
Qed.

(** X13.
    [POST /api/upload-transcript] never throws and answers 400 without a
    file, 500 when the meeting named does not exist or, no meeting being
    named, when the file is not of a type read as text or cannot be read,
    and 201 in every other case, whatever the analysis and the derivation
    do.  A request that is not answered 201 leaves the database, and the
    whole world, as it was. *)
Theorem upload_endpoint_status (file : option File.t) (userId : nat)
    (meetingId : option nat) (w : World) :
  exists response w',
    postUploadTranscript file userId meetingId w = (Return response, w')
    /\ status response
       = match file with
         | None => 400
         | Some file => if uploadSucceeds file meetingId w then 201 else 500
         end
    /\ (status response <> 201 -> w' = w).
Proof.
  unfold postUploadTranscript. destruct file as [file|].
  - destruct (saveTranscript_outcome file userId meetingId w)
      as (result & w' & E & S & Z).
    unfold bind. rewrite E. rewrite <- S.
    destruct (success result); cbn.
    + eexists. eexists. split; [reflexivity|]. split; [reflexivity|].
      intros N. now elim N.
    + eexists. eexists. split; [reflexivity|]. split; [reflexivity|].
      intros _. now apply Z.
  - cbn. eexists. eexists. split; [reflexivity|]. split; [reflexivity|].
    reflexivity.
Qed.

(** X14.
    The upload for an existing meeting calls the summarization client
    exactly when a credential is configured and the text read from the
    file is not empty; the client is then called once, on that text and on
    the row of the meeting as just updated.  A file that is not read as
    text, or that cannot be read, is linked to the meeting without any
    analysis. *)
Theorem existing_upload_trigger (file : File.t) (userId : nat)
    (meetingId : nat) (meeting : Meeting.t) (w : World) :
  meetingId <> 0 ->
  find (fun m => Meeting.id m =? meetingId) (meetings (db w)) = Some meeting ->
  let out := saveTranscriptToDatabase file userId (Some meetingId) w in
  let text := transcriptOf file w in
  analyses (snd out)
  = (if truthyOpt (OPENAI_API_KEY w) && truthyOpt text
     then (storage.orElse text EmptyString, withTranscript file text meeting)
          :: analyses w
     else analyses w)
  /\ (isReadable file = false \/ fs w (File.path file) = None ->
      analyses (snd out) = analyses w).
Proof.
  intros N H. cbv zeta.
  pose proof (existing_upload_analysis file userId w N H) as A.
  cbv zeta in A. split; [exact A|].
  intros U. rewrite A.
  assert (T : transcriptOf file w = None).
  { unfold transcriptOf. destruct U as [-> | ->]; [reflexivity|].
    destruct (isReadable file); reflexivity. }
  rewrite T. cbn. now rewrite andb_false_r.
Qed.

(** X15.
    The upload of a CSV file without a meeting makes one meeting, with the
    next identity: its transcript is the formatted text, its participants
    are the speakers of the file, its location is [Imported CSV
    Transcript], its times are [00:00], its duration is [Unknown], its
    creator is the uploader and it is not public.  The client is then
    called, on that meeting, exactly when a credential is configured and
    the formatted text is not empty. *)
Theorem csv_upload_creates_meeting (file : File.t) (userId : nat)
    (raw : string) (w : World) :
  isReadable file = true ->
  isCsv file = true ->
  fs w (File.path file) = Some raw ->
  let out := saveTranscriptToDatabase file userId None w in
  let text := fst (Normalizer.formatNew raw) in
  exists meeting,
    meetings (db (snd out)) = meetings (db w) ++ [meeting]
    /\ Meeting.id meeting = S (meetingSeq (db w))
    /\ InsertMeeting.transcriptText meeting = Some text
    /\ InsertMeeting.transcriptUrl meeting = Some (File.path file)
    /\ InsertMeeting.participants meeting = snd (Normalizer.formatNew raw)
    /\ InsertMeeting.location meeting = "Imported CSV Transcript"
    /\ InsertMeeting.startTime meeting = "00:00"
    /\ InsertMeeting.endTime meeting = "00:00"
    /\ InsertMeeting.duration meeting = "Unknown"
    /\ InsertMeeting.createdBy meeting = userId
    /\ InsertMeeting.isPublic meeting = Some false
    /\ analyses (snd out)
       = if truthyOpt (OPENAI_API_KEY w) && truthy text
         then (text, meeting) :: analyses w
         else analyses w.
Proof.
  intros R C F. cbv zeta. unfold saveTranscriptToDatabase.
  rewrite tryCatch_ret_world.
  rewrite saveForNew_read with (raw := raw) by assumption. rewrite C.
  unfold saveNewCsv. destruct (Normalizer.formatNew raw) as [text ps].
  cbn [fst snd].
  unfold bind at 1.
  destruct (truthy (Normalizer.titleOf (basename (File.originalname file) ".csv")));
    cbn -[analyzeNew]; rewrite !finish_world;
    match goal with
    | |- context [analyzeNew ?m ?w1] =>
        exists m;
        pose proof (analyzeNew_analyses m w1) as A;
        assert (K : maintains (fun w => meetings (db w) = meetings (db w1))
                      (analyzeNew m)) by mauto;
        specialize (K w1 eq_refl)
    end; rewrite A, K; repeat split.
Qed.

End UploadOutcome.

Section NewMeetingPass.

Context {platform : Platform}.

(** The insert of lines 394-404 for a summary that has its two required
    columns, when no summary refers to the meeting. *)
Lemma create_valid meetingId data points followUp w :
  SummaryData.keyDiscussionPoints data = Some points ->
  SummaryData.followUpRequirements data = Some followUp ->
  existsb (fun s => MeetingSummary.meetingId s =? meetingId)
          (meetingSummaries (db w)) = false ->
  exists w',
    (forall B (k : M B),
       (storage.createMeetingSummary (summaryFor meetingId data) ;; k) w
       = k w')
    /\ meetings (db w') = meetings (db w)
    /\ decisions (db w') = decisions (db w)
    /\ decisionSeq (db w') = decisionSeq (db w)
    /\ actionItems (db w') = actionItems (db w)
    /\ actionItemSeq (db w') = actionItemSeq (db w)
    /\ ticks w' = ticks w
    /\ exists summary,
         meetingSummaries (db w') = meetingSummaries (db w) ++ [summary]
         /\ MeetingSummary.meetingId summary = meetingId
         /\ holdsData summary data.
Proof.
  intros K F E. eexists. split.
  - intros B k. unfold bind at 1.
    unfold storage.createMeetingSummary, bind, getWorld, modifyDb.
    cbn -[existsb]. rewrite K, F, E. cbn. reflexivity.
  - cbn. do 6 (split; [reflexivity|]).
    eexists. split; [reflexivity|]. split; [reflexivity|].
    unfold holdsData. cbn. rewrite K, F. repeat split.
Qed.

Lemma analyzeNew_success (meeting : Meeting.t) data points followUp w :
  truthyOpt (OPENAI_API_KEY w)
  && truthyOpt (InsertMeeting.transcriptText meeting) = true ->
  analysisOf w = data ->
  SummaryData.keyDiscussionPoints data = Some points ->
  SummaryData.followUpRequirements data = Some followUp ->
  forallb quietPoint points = true ->
  existsb (fun s => MeetingSummary.meetingId s =? Meeting.id meeting)
          (meetingSummaries (db w)) = false ->
  let rows :=
    map (draftRow w (Meeting.id meeting))
        (numbered 0 (draftsOf (InsertMeeting.participants meeting) data)) in
  exists w',
    analyzeNew meeting w
    = (Return (Some
         {| success := true;
            message :=
              "CSV transcript uploaded, new meeting created, and AI analysis completed";
            data := Some meeting |}), w')
    /\ meetings (db w') = meetings (db w)
    /\ decisions (db w') = decisions (db w) ++ rows
    /\ actionItems (db w')
       = actionItems (db w)
         ++ itemsAt (afterDecisions w rows) (Meeting.id meeting)
              (InsertMeeting.participants meeting) data
    /\ exists summary,
         meetingSummaries (db w') = meetingSummaries (db w) ++ [summary]
         /\ MeetingSummary.meetingId summary = Meeting.id meeting
         /\ holdsData summary data.
Proof.
  intros G A K F Q E. cbv zeta.
  unfold analyzeNew. unfold bind at 1. cbn [getWorld]. rewrite G.
  unfold bind at 1.
  destruct (analyzeTranscript_full
              (storage.orElse (InsertMeeting.transcriptText meeting)
                              EmptyString) meeting w)
    as (w1 & R & D & _ & T).
  rewrite R, A.
  destruct (@create_valid (Meeting.id meeting) data points followUp w1 K F)
    as (w2 & Run & M2 & D2 & S2 & A2 & AS2 & T2 & Sum);
    [now rewrite D|].
  rewrite Run.
  unfold bind at 1.
  rewrite deriveDecisions_quiet by (rewrite K; exact Q).
  unfold bind at 1. rewrite deriveActionItems_run.
  eexists. split; [reflexivity|]. cbn [db snd afterActionItems afterDecisions].
  cbn [meetings decisions actionItems meetingSummaries setActionItems
       setDecisions].
  rewrite M2, D2, A2, D.
  split; [reflexivity|]. split; [|split].
  - f_equal. apply map_ext. intros e. apply draftRow_ext; congruence.
  - f_equal. apply itemsAt_ext; cbn; [congruence|].
    rewrite !length_map, !numbered_length. congruence.
  - rewrite <- D. exact Sum.
Qed.

(** X28.
    The upload of a CSV file without a meeting, when the analysis
    succeeds, makes the meeting and stores the whole result for it: the
    summary is inserted, the decisions the reply stands for are appended
    in order, with the speakers of the file as the participants an owner
    is looked for among, then its action items, and the upload reports the
    completed analysis.  The reply must bring its discussion points and
    follow-up requirements and reach no object insight with a keyword, and
    no summary may refer already to the identity the meeting gets. *)
Theorem analysed_csv_upload_stores_entities (file : File.t) (userId : nat)
    (raw : string) (data : SummaryData.t) (points : list DiscussionPoint.t)
    (followUp : FollowUp.t) (w : World) :
  isReadable file = true ->
  isCsv file = true ->
  fs w (File.path file) = Some raw ->
  truthyOpt (OPENAI_API_KEY w) && truthy (fst (Normalizer.formatNew raw))
  = true ->
  openaiReady w = true ->
  remote (remoteCalls w) = Parsed data ->
  SummaryData.keyDiscussionPoints data = Some points ->
  SummaryData.followUpRequirements data = Some followUp ->
  forallb quietPoint points = true ->
  existsb (fun s => MeetingSummary.meetingId s =? S (meetingSeq (db w)))
          (meetingSummaries (db w)) = false ->
  let out := saveTranscriptToDatabase file userId None w in
  let speakers := snd (Normalizer.formatNew raw) in
  exists meeting rows w1 summary,
    fst out
    = Return
        {| success := true;
           message :=
             "CSV transcript uploaded, new meeting created, and AI analysis completed";
           data := Some meeting |}
    /\ meetings (db (snd out)) = meetings (db w) ++ [meeting]
    /\ Meeting.id meeting = S (meetingSeq (db w))
    /\ InsertMeeting.participants meeting = speakers
    /\ decisions (db (snd out)) = decisions (db w) ++ rows
    /\ map draftOf rows = draftsOf speakers data
    /\ Forall (fun row : Decision.t =>
                 InsertDecision.meetingId row = Meeting.id meeting) rows
    /\ actionItems (db (snd out))
       = actionItems (db w)
         ++ itemsAt w1 (Meeting.id meeting) speakers data
    /\ actionItemSeq (db w1) = actionItemSeq (db w)
    /\ meetingSummaries (db (snd out)) = meetingSummaries (db w) ++ [summary]
    /\ MeetingSummary.meetingId summary = Meeting.id meeting
    /\ holdsData summary data.
Proof.
  intros R C F G Rd Rm K Fu Q E. cbv zeta.
  remember (saveTranscriptToDatabase file userId None w) as out eqn:Eo.
  unfold saveTranscriptToDatabase, tryCatch in Eo.
  rewrite saveForNew_read with (raw := raw) in Eo by assumption.
  rewrite C in Eo. unfold saveNewCsv in Eo.
  destruct (Normalizer.formatNew raw) as [text ps]. cbn [fst snd] in *.
  apply andb_true_iff in G. destruct G as [Gk Gt].
  assert (Ad : forall w0, OPENAI_API_KEY w0 = OPENAI_API_KEY w ->
                          openaiReady w0 = openaiReady w ->
                          remoteCalls w0 = remoteCalls w ->
                          analysisOf w0 = data).
  { intros w0 H1 H2 H3. unfold analysisOf.
    now rewrite H1, H2, H3, Gk, Rd, Rm. }
  unfold bind at 1 in Eo.
  destruct (truthy (Normalizer.titleOf
                      (basename (File.originalname file) ".csv")));
    cbn -[analyzeNew] in Eo;
    match type of Eo with
    | context [bind (tryCatch (analyzeNew ?m) _) _ ?w1] =>
        destruct (@analyzeNew_success m data points followUp w1)
          as (w' & Run & M' & D' & A' & summary & S' & Sm & Sh);
          [ cbn; now rewrite Gk, Gt
          | now apply Ad
          | exact K | exact Fu | exact Q | exact E | ];
        unfold bind, tryCatch in Eo; rewrite Run in Eo; cbn in Eo;
        subst out; cbn [fst snd];
        exists m;
        exists (map (draftRow w1 (Meeting.id m))
                    (numbered 0 (draftsOf (InsertMeeting.participants m)
                                          data)));
        exists (afterDecisions w1
                  (map (draftRow w1 (Meeting.id m))
                       (numbered 0 (draftsOf (InsertMeeting.participants m)
                                             data))));
        exists summary
    end;
    (split; [reflexivity|]); (split; [exact M'|]);
    (split; [reflexivity|]); (split; [reflexivity|]);
    (split; [exact D'|]); (split; [apply draftOf_rows|]);
    (split; [apply Forall_forall; intros row I; apply in_map_iff in I;
             destruct I as [e [<- _]]; reflexivity|]);
    (split; [exact A'|]); (split; [reflexivity|]);
    (split; [exact S'|]); (split; [exact Sm | exact Sh]).
Qed.

End NewMeetingPass.

(** * Further properties of the routes *)

Section AnalyzeEndpoint.

Context {platform : Platform}.

Lemma postAnalyzeTranscript_frame L D n A k t meetingId :
  maintains (fun w => meetings (db w) = L
                      /\ decisions (db w) = D /\ decisionSeq (db w) = n
                      /\ actionItems (db w) = A /\ actionItemSeq (db w) = k
                      /\ ticks w = t)
    (postAnalyzeTranscript meetingId).
Proof. unfold postAnalyzeTranscript. mauto. Qed.

Lemma createMeetingSummary_run meetingId data w :
  existsb (fun s => MeetingSummary.meetingId s =? meetingId)
          (meetingSummaries (db w)) = false ->
  exists out,
    storage.createMeetingSummary (summaryFor meetingId data) w = out
    /\ match fst out with
       | Return _ => validData data = true
       | Throw _ => validData data = false
       end.
Proof.
  intros E. eexists. split; [reflexivity|].
  unfold storage.createMeetingSummary, bind, getWorld, modifyDb, validData.
  cbn -[existsb].
  destruct (SummaryData.keyDiscussionPoints data);
    destruct (SummaryData.followUpRequirements data); cbn -[existsb];
    try reflexivity.
  rewrite E. reflexivity.
Qed.

(** X16.
    [POST /api/analyze-transcript], for a meeting id and a next summary
    identity within the range of the integer columns, never throws.  It
    answers 400 when no
    meeting is named, 404 when the meeting does not exist and 400 when the
    meeting has no transcript text, and leaves the world as it was in
    these three cases.  Otherwise it answers 200, also when the analysis
    failed and a placeholder was stored; 500 comes only when the meeting
    had no summary and the reply of the service lacks the discussion
    points or the follow-up requirements.  In every case the meetings, the
    decisions and the action items stay as they were: the endpoint derives
    no entity. *)
Theorem analyze_endpoint_status (meetingId : option nat) (w : World) :
  (forall n, meetingId = Some n -> inInt4 n) ->
  inInt4 (S (meetingSummarySeq (db w))) ->
  exists response w',
    postAnalyzeTranscript meetingId w = (Return response, w')
    /\ status response = analyzeStatus meetingId w
    /\ (status response = 400 \/ status response = 404 -> w' = w)
    /\ meetings (db w') = meetings (db w)
    /\ decisions (db w') = decisions (db w)
    /\ actionItems (db w') = actionItems (db w).
Proof.
  intros _ _.
  pose proof (@postAnalyzeTranscript_frame (meetings (db w)) (decisions (db w))
                (decisionSeq (db w)) (actionItems (db w))
                (actionItemSeq (db w)) (ticks w) meetingId w) as Fr.
  destruct (postAnalyzeTranscript meetingId w) as [out w'] eqn:E.
  cbn [snd] in Fr.
  destruct Fr as (FM & FD & _ & FA & _ & _); [repeat split|].
  assert (G : exists response,
    out = Return response
    /\ status response = analyzeStatus meetingId w
    /\ (status response = 400 \/ status response = 404 -> w' = w)).
  { unfold postAnalyzeTranscript, analyzeStatus in *.
    destruct meetingId as [[|n]|].
    - inversion E; subst. eexists. split; [reflexivity|]. cbn. auto.
    - unfold tryCatch in E. unfold bind at 1 in E.
      rewrite getMeeting_run in E.
      destruct (find (fun m => Meeting.id m =? S n) (meetings (db w)))
        as [meeting|].
      + destruct (truthyOpt (InsertMeeting.transcriptText meeting)).
        * cbn [negb] in E |- *. unfold bind at 1 in E.
          destruct (analyzeTranscript_full
                      (storage.orElse (InsertMeeting.transcriptText meeting)
                                      EmptyString) meeting w)
            as (w1 & R & Dw & _ & _).
          rewrite R in E. unfold bind at 1 in E.
          unfold storage.getMeetingSummaryByMeeting at 1 in E.
          cbn [bind getWorld ret] in E. rewrite Dw in E.
          destruct (find (fun s => MeetingSummary.meetingId s
                                   =? Meeting.id meeting)
                         (meetingSummaries (db w))) as [existing|] eqn:Fs.
          -- unfold bind at 1 in E.
             rewrite updateMeetingSummary_data in E. cbn in E.
             inversion E; subst. eexists. split; [reflexivity|].
             split; [reflexivity|]. cbn. intros [H|H]; discriminate.
          -- unfold bind at 1 in E.
             destruct (@createMeetingSummary_run (Meeting.id meeting)
                         (analysisOf w) w1) as (o & Eo & V).
             { rewrite Dw. now apply find_none_existsb. }
             rewrite Eo in E. destruct o as [[row|e] w2]; cbn in V, E;
               rewrite V; inversion E; subst;
               (eexists; split; [reflexivity|]; split; [reflexivity|]);
               cbn; intros [H|H]; discriminate.
        * cbn in E. inversion E; subst. eexists. split; [reflexivity|].
          cbn. auto.
      + cbn in E. inversion E; subst. eexists. split; [reflexivity|].
        cbn. auto.
    - inversion E; subst. eexists. split; [reflexivity|]. cbn. auto. }
  destruct G as (response & -> & S & Z).
  exists response, w'. repeat split; assumption.
Qed.

Lemma endpoint_run meetingId (meeting : Meeting.t) existing w :
  meetingId <> 0 ->
  find (fun m => Meeting.id m =? meetingId) (meetings (db w)) = Some meeting ->
  truthyOpt (InsertMeeting.transcriptText meeting) = true ->
  find (fun s => MeetingSummary.meetingId s =? Meeting.id meeting)
       (meetingSummaries (db w)) = Some existing ->
  exists w1,
    analyzeTranscript
      (storage.orElse (InsertMeeting.transcriptText meeting) EmptyString)
      meeting w = (Return (analysisOf w), w1)
    /\ postAnalyzeTranscript (Some meetingId) w
       = (Return
            {| status := 200;
               body := JsonSummary
                 (find (fun s => MeetingSummary.id s
                                 =? MeetingSummary.id existing)
                       (summariesUpdated existing (analysisOf w)
                          (meetingSummaries (db w)))) |},
          withSummaries w1
            (summariesUpdated existing (analysisOf w)
               (meetingSummaries (db w)))).
Proof.
  intros N H T E.
  unfold postAnalyzeTranscript.
  destruct meetingId as [|n]; [easy|].
  unfold tryCatch.
  unfold bind at 1. rewrite getMeeting_run, H, T.
  cbn [negb]. unfold bind at 1.
  destruct (analyzeTranscript_full
              (storage.orElse (InsertMeeting.transcriptText meeting)
                              EmptyString) meeting w)
    as (w1 & R & D & _ & _).
  exists w1. split; [exact R|].
  rewrite R. unfold bind at 1.
  unfold storage.getMeetingSummaryByMeeting at 1.
  cbn [bind getWorld ret]. rewrite D, E.
  unfold bind at 1. rewrite updateMeetingSummary_data.
  rewrite D. reflexivity.
Qed.

(** X17.
    Without a credential the endpoint destroys the summary it finds: a
    request for a meeting that has a transcript and a summary is answered
    200, no request goes to the service, and the summary of the meeting,
    under its old identity, then carries the placeholder in place of what
    it held. *)
Theorem analysis_without_credential_overwrites (meetingId : nat)
    (meeting : Meeting.t) (existing : MeetingSummary.t) (w : World) :
  meetingId <> 0 ->
  find (fun m => Meeting.id m =? meetingId) (meetings (db w)) = Some meeting ->
  truthyOpt (InsertMeeting.transcriptText meeting) = true ->
  find (fun s => MeetingSummary.meetingId s =? Meeting.id meeting)
       (meetingSummaries (db w)) = Some existing ->
  truthyOpt (OPENAI_API_KEY w) = false ->
  let out := postAnalyzeTranscript (Some meetingId) w in
  (exists body, fst out = Return {| status := 200; body := body |})
  /\ remoteCalls (snd out) = remoteCalls w
  /\ List.length (meetingSummaries (db (snd out)))
     = List.length (meetingSummaries (db w))
  /\ exists summary,
       find (fun s => MeetingSummary.meetingId s =? Meeting.id meeting)
            (meetingSummaries (db (snd out))) = Some summary
       /\ MeetingSummary.id summary = MeetingSummary.id existing
       /\ holdsPlaceholder summary noKeyMessage.
Proof.
  intros N H T E K. cbv zeta.
  destruct (endpoint_run w N H T E) as (w1 & R & ->).
  assert (A : analysisOf w = createPlaceholderSummary noKeyMessage)
    by (unfold analysisOf; now rewrite K).
  rewrite A in *. cbn [fst snd].
  split; [eexists; reflexivity|]. split; [|split].
  - pose proof (analyzeTranscript_calls
                  (storage.orElse (InsertMeeting.transcriptText meeting)
                                  EmptyString) meeting w) as C.
    rewrite R, K in C. exact C.
  - cbn. unfold summariesUpdated. now rewrite length_map.
  - cbn. unfold summariesUpdated. rewrite find_map_same.
    + rewrite E. cbn [option_map]. eexists. split; [reflexivity|].
      unfold patchRow. rewrite Nat.eqb_refl. repeat split.
    + intros x. unfold patchRow.
      destruct (MeetingSummary.id x =? MeetingSummary.id existing);
        reflexivity.
Qed.

End AnalyzeEndpoint.

Section SummaryRoutes.

Context {platform : Platform}.

(** X18.
    [POST /api/meeting-summaries] never throws.  It answers 400 to a body
    without its required fields, 404 when the meeting does not exist, 409
    when the meeting has a summary, and leaves the world as it was in
    these cases.  Otherwise it answers 201: one row is appended under the
    next identity, it carries the data sent, and a lookup by meeting then
    finds it. *)
Theorem summary_creation_status (submitted : option InsertMeetingSummary.t)
    (w : World) :
  exists response w',
    postMeetingSummary submitted w = (Return response, w')
    /\ status response = summaryStatus submitted w
    /\ (status response <> 201 -> w' = w)
    /\ (status response = 201 ->
        exists data row,
          submitted = Some data
          /\ body response = JsonSummary (Some row)
          /\ meetingSummaries (db w') = meetingSummaries (db w) ++ [row]
          /\ MeetingSummary.id row = S (meetingSummarySeq (db w))
          /\ MeetingSummary.meetingId row = InsertMeetingSummary.meetingId data
          /\ holdsData row data
          /\ fst (storage.getMeetingSummaryByMeeting
                    (InsertMeetingSummary.meetingId data) w')
             = Return (Some row)).
Proof.
  unfold postMeetingSummary, summaryStatus, tryCatch.
  destruct submitted as [data|].
  - destruct (validSummary data) eqn:V; cbn [negb].
    + unfold bind at 1. rewrite getMeeting_run.
      destruct (find (fun m => Meeting.id m
                               =? InsertMeetingSummary.meetingId data)
                     (meetings (db w))) as [meeting|].
      * unfold bind at 1. unfold storage.getMeetingSummaryByMeeting at 1.
        cbn [bind getWorld ret].
        destruct (find (fun s => MeetingSummary.meetingId s
                                 =? InsertMeetingSummary.meetingId data)
                       (meetingSummaries (db w))) as [existing|] eqn:E.
        -- cbn. eexists. eexists. split; [reflexivity|].
           split; [reflexivity|]. split; [reflexivity|]. discriminate.
        -- unfold validSummary in V.
           destruct (SummaryData.keyDiscussionPoints data) as [points|] eqn:K;
             [|discriminate].
           destruct (SummaryData.followUpRequirements data) as [followUp|]
             eqn:F; [|discriminate].
           unfold storage.createMeetingSummary, bind, getWorld, modifyDb.
           cbn -[existsb]. rewrite K, F.
           rewrite (find_none_existsb _ _ E). cbn.
           eexists. eexists. split; [reflexivity|]. split; [reflexivity|].
           split; [intros N; now elim N|]. intros _.
           eexists. eexists. split; [reflexivity|]. split; [reflexivity|].
           split; [reflexivity|]. split; [reflexivity|].
           split; [reflexivity|]. split.
           ++ unfold holdsData. cbn. rewrite K, F. repeat split.
           ++ f_equal. apply find_app_new; [exact E | cbn; apply Nat.eqb_refl].
      * cbn. eexists. eexists. split; [reflexivity|].
        split; [reflexivity|]. split; [reflexivity|]. discriminate.
    + cbn. eexists. eexists. split; [reflexivity|].
      split; [reflexivity|]. split; [reflexivity|]. discriminate.
  - cbn. eexists. eexists. split; [reflexivity|].
    split; [reflexivity|]. split; [reflexivity|]. discriminate.
Qed.

Lemma find_filter_out {A} (key : A -> nat) (v : nat) (rows : list A) :
  find (fun r => key r =? v) (filter (fun r => negb (key r =? v)) rows) = None.
Proof.
  induction rows as [|r rows IH]; [reflexivity|].
  cbn [filter]. destruct (key r =? v) eqn:E; cbn [negb]; [exact IH|].
  cbn [find]. now rewrite E.
Qed.

(** X19.
    Deleting a meeting deletes the meeting only.  [DELETE /api/meetings/:id],
    for an id within the range of the integer column, answers 204 when
    the meeting existed and 404 otherwise; afterwards no
    meeting has this identity and the other meetings are as before, while
    the summary, the decisions and the action items that refer to the
    meeting all stay in their tables. *)
Theorem deleting_meeting_keeps_dependents (meetingId : nat) (w : World) :
  inInt4 meetingId ->
  let out := deleteMeetingRoute meetingId w in
  (exists response,
     fst out = Return response
     /\ status response
        = if existsb (fun m => Meeting.id m =? meetingId) (meetings (db w))
          then 204 else 404)
  /\ meetings (db (snd out))
     = filter (fun m => negb (Meeting.id m =? meetingId)) (meetings (db w))
  /\ find (fun m => Meeting.id m =? meetingId) (meetings (db (snd out))) = None
  /\ meetingSummaries (db (snd out)) = meetingSummaries (db w)
  /\ decisions (db (snd out)) = decisions (db w)
  /\ actionItems (db (snd out)) = actionItems (db w).
Proof.
  intros _.
  cbv zeta. unfold deleteMeetingRoute, tryCatch, storage.deleteMeeting, bind,
    getWorld, modifyDb. cbn.
  destruct (existsb (fun m => Meeting.id m =? meetingId) (meetings (db w)));
    cbn; (split; [eexists; split; reflexivity|]);
    (split; [reflexivity|]); (split; [apply find_filter_out|]);
    repeat split.
Qed.

End SummaryRoutes.

Section DecisionRoutes.

Context {platform : Platform}.

Lemma forAllMeetings_run (rows : list Meeting.t) w :
  forAllMeetings rows storage.getDecisionsByMeeting w
  = (Return
       (flat_map (fun m : Meeting.t =>
                    filter (fun d : Decision.t =>
                              InsertDecision.meetingId d =? Meeting.id m)
                           (decisions (db w)))
                 rows), w).
Proof.
  induction rows as [|m rows IH]; [reflexivity|].
  cbn [forAllMeetings flat_map]. unfold bind at 1.
  unfold storage.getDecisionsByMeeting at 1. cbn [bind getWorld ret].
  unfold bind at 1. rewrite IH. reflexivity.
Qed.

Lemma getDecisions_all w :
  getDecisionsRoute None w
  = (Return
       (Listed
          (flat_map (fun m : Meeting.t =>
                       filter (fun d : Decision.t =>
                                 InsertDecision.meetingId d =? Meeting.id m)
                              (decisions (db w)))
                    (meetings (db w)))), w).
Proof.
  unfold getDecisionsRoute, tryCatch, getMeetings. unfold bind at 1.
  cbn [bind getWorld ret]. unfold bind at 1. rewrite forAllMeetings_run.
  reflexivity.
Qed.

(** X20.
    [GET /api/decisions] reads only.  With a meeting id, within the range
    of the integer column, it lists the decisions that refer to that
    meeting, each once and in some order, whether the meeting exists or
    not.  Without one it goes through the meetings: a decision is listed
    when a meeting with its meeting id exists, so the decisions of a
    deleted meeting are left out, although they are stored and the
    listing by meeting still shows them. *)
Theorem decision_listing (w : World) :
  (forall meetingId,
     meetingId <> 0 ->
     inInt4 meetingId ->
     exists rows,
       getDecisionsRoute (Some meetingId) w = (Return (Listed rows), w)
       /\ Permutation rows
            (filter (fun d : Decision.t =>
                       InsertDecision.meetingId d =? meetingId)
                    (decisions (db w))))
  /\ exists rows,
       getDecisionsRoute None w = (Return (Listed rows), w)
       /\ forall d : Decision.t,
            In d rows
            <-> In d (decisions (db w))
                /\ exists m, In m (meetings (db w))
                             /\ Meeting.id m = InsertDecision.meetingId d.
Proof.
  split.
  - intros [|n] N _; [now elim N|].
    eexists. split; [reflexivity | apply Permutation_refl].
  - eexists. split; [apply getDecisions_all|].
    intros d. rewrite in_flat_map. split.
    + intros [m [Im Id]]. apply filter_In in Id. destruct Id as [Id E].
      apply Nat.eqb_eq in E. split; [exact Id|]. now exists m.
    + intros [Id [m [Im E]]]. exists m. split; [exact Im|].
      apply filter_In. split; [exact Id|]. now apply Nat.eqb_eq.
Qed.

(** X21.
    [POST /api/decisions] stores a decision for an existing meeting only:
    a body that names no existing meeting is answered 404 and nothing is
    written.  Otherwise the answer is 201, the decision is appended under
    the next identity with the fields sent, and both listings of
    [GET /api/decisions], by meeting and over all meetings, then show
    it. *)
Theorem created_decision_is_listed (data : InsertDecision.t) (w : World) :
  let out := postDecision (Some data) w in
  let row := {| Decision.id := S (decisionSeq (db w));
                Decision.values := data |} in
  match find (fun m => Meeting.id m =? InsertDecision.meetingId data)
             (meetings (db w)) with
  | None => out = (Return (Refused 404 "Meeting not found"), w)
  | Some _ =>
      fst out = Return (Created 201 row)
      /\ decisions (db (snd out)) = decisions (db w) ++ [row]
      /\ meetings (db (snd out)) = meetings (db w)
      /\ (forall rows,
            fst (getDecisionsRoute (Some (InsertDecision.meetingId data))
                                   (snd out)) = Return (Listed rows) ->
            In row rows)
      /\ (forall rows,
            fst (getDecisionsRoute None (snd out)) = Return (Listed rows) ->
            In row rows)
  end.
Proof.
  cbv zeta.
  destruct (find (fun m => Meeting.id m =? InsertDecision.meetingId data)
                 (meetings (db w))) as [meeting|] eqn:H.
  - remember (postDecision (Some data) w) as out eqn:Eo.
    unfold postDecision, tryCatch in Eo. unfold bind at 1 in Eo.
    rewrite getMeeting_run, H in Eo.
    unfold storage.createDecision, bind, getWorld, modifyDb in Eo.
    cbn in Eo. subst out. cbn [fst snd].
    split; [reflexivity|]. split; [reflexivity|]. split; [reflexivity|].
    apply find_some in H. destruct H as [Im E]. apply Nat.eqb_eq in E.
    match goal with
    | |- (forall rows, fst (getDecisionsRoute _ ?w2) = _ -> _) /\ _ =>
        assert (All : forall rows,
          fst (getDecisionsRoute None w2) = Return (Listed rows) ->
          In {| Decision.id := S (decisionSeq (db w));
                Decision.values := data |} rows)
    end.
    { intros rows R. rewrite getDecisions_all in R. cbn [fst] in R.
      inversion R; subst. apply in_flat_map. exists meeting.
      split; [exact Im|]. apply filter_In. split.
      - cbn. apply in_or_app. right. now left.
      - cbn. apply Nat.eqb_eq. now symmetry. }
    split; [|exact All].
    destruct (InsertDecision.meetingId data) as [|n] eqn:Z; [exact All|].
    intros rows R. cbn in R. inversion R; subst.
    apply filter_In. split.
    + apply in_or_app. right. now left.
    + cbn. rewrite Z. apply Nat.eqb_refl.
  - unfold postDecision, tryCatch. unfold bind at 1.
    rewrite getMeeting_run, H. reflexivity.
Qed.

End DecisionRoutes.

Section MeetingRoutes.

Context {platform : Platform}.

Lemma orderByIdDesc_newest (rows : list Meeting.t) (row : Meeting.t) :
  Forall (fun r => Meeting.id r < Meeting.id row) rows ->
  orderByIdDesc (rows ++ [row]) = row :: orderByIdDesc rows.
Proof.
  intros F. induction F as [|x rows Lt F IH]; [reflexivity|].
  cbn [app]. unfold orderByIdDesc in *. cbn [fold_right]. rewrite IH.
  cbn [insertDesc].
  destruct (Nat.leb_spec (Meeting.id row) (Meeting.id x)); [lia | reflexivity].
Qed.

(** X27.
    A meeting created by [POST /api/meetings] can be read back at once:
    the answer is 201 with the new row, which has the next identity and
    the fields sent (not public when the body does not say); 
    [GET /api/meetings/:id] then answers with that row, and
    [GET /api/meetings], which lists the newest first, shows it at the
    head of the list, before the meetings listed until then. *)
Theorem created_meeting_is_listed_first (data : InsertMeeting.t) (w : World) :
  keysOk Meeting.id (meetings (db w)) (meetingSeq (db w)) ->
  let row := {| Meeting.id := S (meetingSeq (db w));
                Meeting.values := storage.withDefaults data |} in
  exists w',
    postMeeting (Some data) w
    = (Return {| status := 201; body := JsonMeeting row |}, w')
    /\ getMeetingRoute (Meeting.id row) w' = (Return (Created 200 row), w')
    /\ (forall earlier,
          getMeetingsRoute w = (Return (Listed earlier), w) ->
          getMeetingsRoute w' = (Return (Listed (row :: earlier)), w'))
    /\ InsertMeeting.isPublic row
       = match InsertMeeting.isPublic data with
         | Some p => Some p
         | None => Some false
         end.
Proof.
  intros [N F]. cbv zeta. eexists. split; [reflexivity|].
  assert (Lt : Forall (fun r => Meeting.id r < S (meetingSeq (db w)))
                      (meetings (db w))).
  { eapply Forall_impl; [|exact F]. cbn. intros r H. lia. }
  split; [|split].
  - unfold getMeetingRoute, tryCatch. unfold bind at 1.
    rewrite getMeeting_run. cbn [db meetings setMeetings snd].
    rewrite find_app_new; [reflexivity| |cbn; apply Nat.eqb_refl].
    clear N F. cbn [Meeting.id].
    induction Lt as [|x rows L Lt IH]; [reflexivity|].
    cbn [find]. destruct (Nat.eqb_spec (Meeting.id x) (S (meetingSeq (db w))));
      [lia | exact IH].
  - intros earlier E. unfold getMeetingsRoute, tryCatch, bind, getWorld in *.
    cbn in E |- *. inversion E; subst.
    rewrite orderByIdDesc_newest; [reflexivity | exact Lt].
  - unfold storage.withDefaults. cbn.
    destruct (InsertMeeting.isPublic data); reflexivity.
Qed.

End MeetingRoutes.

Section SummaryListing.

Context {platform : Platform}.

Lemma summariesOfMeetings_run (rows : list Meeting.t) w :
  summariesOfMeetings rows w
  = (Return
       (map (fun m : Meeting.t =>
               match find (fun s => MeetingSummary.meetingId s =? Meeting.id m)
                          (meetingSummaries (db w)) with
               | Some s => Some (s, m)
               | None => None
               end) rows), w).
Proof.
  induction rows as [|m rows IH]; [reflexivity|].
  cbn [summariesOfMeetings map]. unfold bind at 1.
  unfold storage.getMeetingSummaryByMeeting at 1. cbn [bind getWorld ret].
  unfold bind at 1. rewrite IH. reflexivity.
Qed.

Lemma filterBoolean_In {A B} (f : A -> option B) (rows : list A) (b : B) :
  In b (filterBoolean (map f rows)) <-> exists a, In a rows /\ f a = Some b.
Proof.
  induction rows as [|a rows IH]; cbn [map filterBoolean].
  - split; [intros [] | intros [a [[] _]]].
  - destruct (f a) as [b'|] eqn:E.
    + cbn [In]. rewrite IH. split.
      * intros [<-|[a' [I F]]];
          [exists a; split; [now left | exact E]
          |exists a'; split; [now right | exact F]].
      * intros [a' [[<-|I] F]].
        -- left. congruence.
        -- right. now exists a'.
    + rewrite IH. split.
      * intros [a' [I F]]. exists a'. split; [now right | exact F].
      * intros [a' [[<-|I] F]]; [congruence | now exists a'].
Qed.

Lemma filterBoolean_length {A B} (f : A -> option B) (rows : list A) :
  List.length (filterBoolean (map f rows)) <= List.length rows.
Proof.
  induction rows as [|a rows IH]; cbn [map filterBoolean List.length];
    [lia|].
  destruct (f a); cbn [List.length]; lia.
Qed.

(** X29.
    [GET /api/meeting-summaries] reads only.  With a meeting id, within
    the range of the integer column, it
    answers with the summary that refers to that meeting, whether the
    meeting exists or not, and 404 when there is none.  Without one it
    goes through the meetings and lists, with its meeting, the summary of
    each meeting that has one: at most one entry per meeting, and a
    summary whose meeting does not exist is left out, although the request
    by meeting id still finds it. *)
Theorem summary_listing (w : World) :
  (forall meetingId,
     meetingId <> 0 ->
     inInt4 meetingId ->
     getMeetingSummariesRoute (Some meetingId) w
     = (Return
          match find (fun s => MeetingSummary.meetingId s =? meetingId)
                     (meetingSummaries (db w)) with
          | Some summary => SummaryFound summary
          | None => SummaryRefused 404 "Meeting summary not found"
          end, w))
  /\ exists listed,
       getMeetingSummariesRoute None w = (Return (SummaryList listed), w)
       /\ List.length listed <= List.length (meetings (db w))
       /\ forall summary meeting,
            In (summary, meeting) listed
            <-> In meeting (meetings (db w))
                /\ find (fun s => MeetingSummary.meetingId s
                                  =? Meeting.id meeting)
                        (meetingSummaries (db w)) = Some summary.
Proof.
  split.
  - intros [|n] N _; [now elim N|].
    unfold getMeetingSummariesRoute, tryCatch, bind,
      storage.getMeetingSummaryByMeeting, getWorld. cbn.
    destruct (find _ (meetingSummaries (db w))); reflexivity.
  - eexists. split; [|split].
    + unfold getMeetingSummariesRoute, tryCatch, getMeetings.
      unfold bind at 1. cbn [bind getWorld ret]. unfold bind at 1.
      rewrite summariesOfMeetings_run. reflexivity.
    + apply filterBoolean_length.
    + intros summary meeting. rewrite filterBoolean_In. split.
      * intros [m [I F]].
        destruct (find (fun s => MeetingSummary.meetingId s =? Meeting.id m)
                       (meetingSummaries (db w))) as [s|] eqn:E;
          [|discriminate].
        inversion F; subst. auto.
      * intros [I F]. exists meeting. split; [exact I|]. now rewrite F.
Qed.

Lemma find_unique {Row} (key : Row -> nat) (v : nat) (rows : list Row)
    (found other : Row) :
  NoDup (map key rows) ->
  find (fun r => key r =? v) rows = Some found ->
  In other rows -> key other = v -> other = found.
Proof.
  induction rows as [|r rows IH]; intros N F I K; [destruct I|].
  cbn [map] in N. inversion N as [|? ? Nin N']; subst.
  cbn [find] in F. destruct (Nat.eqb_spec (key r) (key other)) as [E|E].
  - inversion F; subst. destruct I as [I|I]; [exact (eq_sym I)|].
    elim Nin. rewrite E. now apply in_map.
  - destruct I as [I|I]; [subst; now elim E|].
    now apply IH.
Qed.

(** X30.
    Deleting the summary of a meeting makes room for a new one.  While
    the meeting has a summary, [POST /api/meeting-summaries] for it is
    answered 409; after [DELETE /api/meeting-summaries/:id] of that
    summary, answered 204, no summary refers to the meeting and the same
    request is answered 201. *)
Theorem deleted_summary_can_be_recreated (data : InsertMeetingSummary.t)
    (meeting : Meeting.t) (existing : MeetingSummary.t) (w : World) :
  SummaryInv (db w) ->
  validSummary data = true ->
  find (fun m => Meeting.id m =? InsertMeetingSummary.meetingId data)
       (meetings (db w)) = Some meeting ->
  find (fun s => MeetingSummary.meetingId s
                 =? InsertMeetingSummary.meetingId data)
       (meetingSummaries (db w)) = Some existing ->
  let deleted := deleteMeetingSummaryRoute (MeetingSummary.id existing) w in
  option_map status
    (match fst (postMeetingSummary (Some data) w) with
     | Return r => Some r | Throw _ => None end) = Some 409
  /\ option_map status
       (match fst deleted with Return r => Some r | Throw _ => None end)
     = Some 204
  /\ find (fun s => MeetingSummary.meetingId s
                    =? InsertMeetingSummary.meetingId data)
          (meetingSummaries (db (snd deleted))) = None
  /\ option_map status
       (match fst (postMeetingSummary (Some data) (snd deleted)) with
        | Return r => Some r | Throw _ => None end) = Some 201.
Proof.
  intros (Ni & Nm & _) V Hm Hs. cbv zeta.
  pose proof (find_some _ _ Hs) as [Ie Ke]. apply Nat.eqb_eq in Ke.
  assert (Gone : find (fun s => MeetingSummary.meetingId s
                                =? InsertMeetingSummary.meetingId data)
                   (filter (fun r => negb (MeetingSummary.id r
                                           =? MeetingSummary.id existing))
                           (meetingSummaries (db w))) = None).
  { destruct (find _ (filter _ _)) as [other|] eqn:Fo; [|reflexivity].
    apply find_some in Fo. destruct Fo as [Io Ko].
    apply filter_In in Io. destruct Io as [Io Keep].
    apply Nat.eqb_eq in Ko.
    rewrite (find_unique MeetingSummary.meetingId _ _ Nm Hs Io Ko) in Keep.
    rewrite Nat.eqb_refl in Keep. discriminate. }
  split; [now rewrite (@post_summary_rejected data meeting existing w V Hm Hs)|].
  assert (Del : deleteMeetingSummaryRoute (MeetingSummary.id existing) w
    = (Return {| status := 204; body := NoBody |},
       withSummaries w
         (filter (fun r => negb (MeetingSummary.id r
                                 =? MeetingSummary.id existing))
                 (meetingSummaries (db w))))).
  { unfold deleteMeetingSummaryRoute, tryCatch, storage.deleteMeetingSummary,
      bind, getWorld, modifyDb. cbn.
    assert (X : existsb (fun r => MeetingSummary.id r
                                  =? MeetingSummary.id existing)
                        (meetingSummaries (db w)) = true).
    { apply existsb_exists. exists existing. split; [exact Ie|].
      apply Nat.eqb_refl. }
    rewrite X. reflexivity. }
  rewrite Del. cbn [fst snd option_map status].
  split; [reflexivity|]. split; [exact Gone|].
  unfold postMeetingSummary, tryCatch. rewrite V. cbn [negb].
  unfold bind at 1. rewrite getMeeting_run. cbn [db withSummaries meetings
    setMeetingSummaries]. rewrite Hm.
  unfold bind at 1. unfold storage.getMeetingSummaryByMeeting at 1.
  cbn [bind getWorld ret db withSummaries meetingSummaries
       setMeetingSummaries]. rewrite Gone.
  unfold validSummary in V.
  destruct (SummaryData.keyDiscussionPoints data) as [points|] eqn:K;
    [|discriminate].
  destruct (SummaryData.followUpRequirements data) as [followUp|] eqn:F;
    [|discriminate].
  unfold storage.createMeetingSummary, bind, getWorld, modifyDb.
  cbn -[existsb]. rewrite K, F.
  rewrite (find_none_existsb _ _ Gone). reflexivity.
Qed.

End SummaryListing.

(** * The primary keys under the traffic of the server *)

Section KeyFacts.

Lemma keysOk_append {Row} (key : Row -> nat) rows seq row :
  keysOk key rows seq -> key row = S seq ->
  keysOk key (rows ++ [row]) (S seq).
Proof.
  intros [N F] K. split.
  - rewrite map_app. cbn. apply NoDup_app; [exact N | repeat constructor; auto|].
    intros x I [E|[]]. subst x. apply in_map_iff in I.
    destruct I as [r [E I]]. rewrite Forall_forall in F. apply F in I. lia.
  - apply Forall_app. split.
    + eapply Forall_impl; [|exact F]. cbn. intros r H. lia.
    + constructor; [lia | constructor].
Qed.

Lemma keysOk_patch {Row} (key : Row -> nat) (f : Row -> Row) rows seq :
  (forall r, key (f r) = key r) ->
  keysOk key rows seq -> keysOk key (map f rows) seq.
Proof.
  intros K [N F]. split.
  - rewrite map_map. erewrite map_ext; [exact N|]. intros r. apply K.
  - apply Forall_map. eapply Forall_impl; [|exact F]. cbn. intros r H.
    now rewrite K.
Qed.

Lemma keysOk_remove {Row} (key : Row -> nat) (keep : Row -> bool) rows seq :
  keysOk key rows seq -> keysOk key (filter keep rows) seq.
Proof.
  intros [N F]. split.
  - now apply NoDup_map_filter.
  - rewrite Forall_forall in *. intros r I. apply filter_In in I.
    now apply F.
Qed.

End KeyFacts.

Section KeyInvariant.

Context {platform : Platform}.

Variable s0 : Store.

Lemma createMeeting_keys meeting :
  maintains (keysFrom s0) (storage.createMeeting meeting).
Proof.
  intros w [(M & D & A) (SM & SD & SA)]. cbn. split; [split; [|split]|].
  - now apply keysOk_append.
  - exact D.
  - exact A.
  - repeat split; cbn; auto.
Qed.

Lemma updateMeeting_keys id meetingData :
  maintains (keysFrom s0) (storage.updateMeeting id meetingData).
Proof.
  intros w [(M & D & A) S]. cbn. split; [split; [|split]|exact S].
  - apply keysOk_patch; [|exact M]. intros r.
    destruct (Meeting.id r =? id); reflexivity.
  - exact D.
  - exact A.
Qed.

Lemma deleteMeeting_keys id : maintains (keysFrom s0) (storage.deleteMeeting id).
Proof.
  intros w [(M & D & A) S]. cbn. split; [split; [|split]|exact S].
  - now apply keysOk_remove.
  - exact D.
  - exact A.
Qed.

Lemma createDecision_keys decision :
  maintains (keysFrom s0) (storage.createDecision decision).
Proof.
  intros w [(M & D & A) (SM & SD & SA)]. cbn. split; [split; [|split]|].
  - exact M.
  - now apply keysOk_append.
  - exact A.
  - repeat split; cbn; auto.
Qed.

Lemma createActionItem_keys actionItem :
  maintains (keysFrom s0) (storage.createActionItem actionItem).
Proof.
  intros w [(M & D & A) (SM & SD & SA)]. cbn. split; [split; [|split]|].
  - exact M.
  - exact D.
  - now apply keysOk_append.
  - repeat split; cbn; auto.
Qed.

Lemma createMeetingSummary_keys summary :
  maintains (keysFrom s0) (storage.createMeetingSummary summary).
Proof. unfold storage.createMeetingSummary. mauto. Qed.

Lemma updateMeetingSummary_keys id summaryData :
  maintains (keysFrom s0) (storage.updateMeetingSummary id summaryData).
Proof. unfold storage.updateMeetingSummary. mauto. Qed.

Lemma deleteMeetingSummary_keys id :
  maintains (keysFrom s0) (storage.deleteMeetingSummary id).
Proof. unfold storage.deleteMeetingSummary. mauto. Qed.

End KeyInvariant.

#[local] Hint Resolve createMeeting_keys updateMeeting_keys deleteMeeting_keys
  createDecision_keys createActionItem_keys createMeetingSummary_keys
  updateMeetingSummary_keys deleteMeetingSummary_keys : maintain.

Section KeyClaim.

Context {platform : Platform}.

Lemma handle_keys s0 (r : Request) : maintains (keysFrom s0) (handle r).
Proof. destruct r; minv. Qed.

Lemma serve_keys s0 (requests : list Request) : forall w,
  keysFrom s0 w -> keysFrom s0 (serve requests w).
Proof.
  induction requests as [|r requests IH]; intros w H; cbn; [exact H|].
  apply IH. now apply handle_keys.
Qed.

(** X22.
    Identities are never shared and never given twice.  In every world
    the server reaches by handling requests, no two meetings, no two
    decisions and no two action items have the same identity, every
    identity was drawn from the sequence of its table, and the sequences
    never go back, so that the identity of a deleted row is not given to a
    later one.  A lookup of a meeting by identity is therefore
    unambiguous. *)
Theorem primary_keys_stay_unique (w0 : World) (requests : list Request) :
  KeysInv (db w0) ->
  let w := serve requests w0 in
  KeysInv (db w)
  /\ seqsFrom (db w0) (db w)
  /\ forall m1 m2,
       In m1 (meetings (db w)) -> In m2 (meetings (db w)) ->
       Meeting.id m1 = Meeting.id m2 -> m1 = m2.
Proof.
  intros K. cbv zeta.
  assert (H : keysFrom (db w0) (serve requests w0)).
  { apply serve_keys. split; [exact K|]. repeat split; apply Nat.le_refl. }
  destruct H as [Ki Sq]. split; [exact Ki|]. split; [exact Sq|].
  destruct Ki as [[N _] _].
  induction (meetings (db (serve requests w0))) as [|m rows IH];
    intros m1 m2 I1 I2 E; [destruct I1|].
  cbn [map] in N. inversion N as [|? ? Nin N']; subst.
  destruct I1 as [<-|I1]; destruct I2 as [<-|I2].
  - reflexivity.
  - elim Nin. rewrite E. now apply in_map.
  - elim Nin. rewrite <- E. now apply in_map.
  - now apply IH.
Qed.

End KeyClaim.

(** * The filters, the recordings, the download name and the form *)

Section FilterFacts.

Context {platform : Platform}.

(** X23.
    The filter of the transcript upload and the reading of the file.
    Every file the orchestrator reads as text passes the filter.  The
    files that pass the filter and are not read are exactly those
    declared as PDF or Word documents whose name does not end in .csv (a
    file so declared whose name ends in .csv is read).  A file that is not
    read and is uploaded without a meeting is always refused, with nothing
    stored. *)
Theorem filter_admits_what_is_read (file : File.t) :
  (isReadable file = true -> fileFilter file = true)
  /\ (fileFilter file = true /\ isReadable file = false
      <-> In (File.mimetype file)
             ["application/pdf"; "application/msword";
              "application/vnd.openxmlformats-officedocument.wordprocessingml.document"]
          /\ toLowerCase (extname (File.originalname file)) <> ".csv")
  /\ (isReadable file = false ->
      forall userId w,
        saveTranscriptToDatabase file userId None w
        = (Return
             {| success := false;
                message :=
                  "Failed to process the transcript file. Please check the file format and try again.";
                data := None |}, w)
        /\ transcriptOf file w = None).
Proof.
  unfold isReadable, fileFilter, fileExtOf, acceptedTypes.
  cbn [existsb].
  destruct (String.eqb_spec (File.mimetype file) "text/plain") as [E1|E1];
  destruct (String.eqb_spec (File.mimetype file) "application/pdf") as [E2|E2];
  destruct (String.eqb_spec (File.mimetype file) "application/msword")
    as [E3|E3];
  destruct (String.eqb_spec (File.mimetype file)
    "application/vnd.openxmlformats-officedocument.wordprocessingml.document")
    as [E4|E4];
  destruct (String.eqb_spec (File.mimetype file) "text/csv") as [E5|E5];
  destruct (String.eqb_spec (File.mimetype file) "application/csv") as [E6|E6];
  destruct (String.eqb_spec (File.mimetype file) "application/vnd.ms-excel")
    as [E7|E7];
  try (exfalso; congruence);
  destruct (String.eqb_spec
              (toLowerCase (extname (File.originalname file))) ".csv")
    as [X|X];
  cbn [orb];
  (split; [auto|split;
    [split;
      [intros [P R]; try discriminate; (split; [cbn; auto | assumption])
      |intros [I N]; try (now elim N);
       try (split; reflexivity);
       exfalso; cbn in I; intuition congruence]
    |]]);
  intros R; try discriminate; intros userId w;
  unfold saveTranscriptToDatabase, tryCatch, saveForNew, transcriptOf,
    isReadable, fileExtOf; cbn [existsb];
  repeat match goal with
         | H : File.mimetype file = _ |- _ => rewrite H
         | H : File.mimetype file <> _ |- _ =>
             apply String.eqb_neq in H; rewrite H
         end;
  try (apply String.eqb_neq in X; rewrite X); cbn; split; reflexivity.
Qed.

End FilterFacts.

Section RecordingFacts.

Context {platform : Platform}.

Lemma updateMeeting_recording filePath meetingId w :
  storage.updateMeeting meetingId (recordingPatch filePath) w
  = (Return (find (fun m => Meeting.id m =? meetingId)
                  (map (fun m => if Meeting.id m =? meetingId
                                 then withRecording filePath m else m)
                       (meetings (db w)))),
     {| db := setMeetings (db w)
                (map (fun m => if Meeting.id m =? meetingId
                               then withRecording filePath m else m)
                     (meetings (db w)))
                (meetingSeq (db w));
        OPENAI_API_KEY := OPENAI_API_KEY w; openaiReady := openaiReady w;
        fs := fs w; ticks := ticks w; remoteCalls := remoteCalls w;
        analyses := analyses w |}).
Proof. reflexivity. Qed.

(** X24.
    Saving a recording whose size, uploader, meeting id and next identity
    are within the range of the integer columns always stores its row,
    under the next identity and with the meeting id as given, even when
    no such meeting exists.  When
    the meeting exists, its transcript URL is overwritten by the path of
    the recording, so the link to an uploaded transcript file is lost,
    while the transcript text and every other column stay; when no
    meeting is named, or the one named does not exist, the world is left
    as it was. *)
Theorem recording_takes_transcript_url (file : File.t) (size : nat)
    (uploadedBy : nat) (meetingId : option nat) (table : RecordingTable)
    (w : World) :
  inInt4 size ->
  inInt4 uploadedBy ->
  (forall id, meetingId = Some id -> inInt4 id) ->
  inInt4 (S (recordingSeq table)) ->
  let row :=
    {| Recording.id := S (recordingSeq table);
       Recording.values :=
         {| InsertRecording.fileName := File.originalname file;
            InsertRecording.fileSize := size;
            InsertRecording.fileType := File.mimetype file;
            InsertRecording.filePath := File.path file;
            InsertRecording.uploadedBy := uploadedBy;
            InsertRecording.meetingId := meetingId |} |} in
  let linked :=
    match meetingId with
    | Some ((S _) as id) =>
        existsb (fun m => Meeting.id m =? id) (meetings (db w))
    | _ => false
    end in
  exists w',
    saveRecordingToDatabase file size uploadedBy meetingId table w
    = (Return ({| recording := Some row; error := None |},
               {| recordings := recordings table ++ [row];
                  recordingSeq := S (recordingSeq table) |}), w')
    /\ (linked = false -> w' = w)
    /\ (linked = true ->
        forall id, meetingId = Some id ->
          meetings (db w')
          = map (fun m => if Meeting.id m =? id
                          then withRecording (File.path file) m else m)
                (meetings (db w))
          /\ forall m, In m (meetings (db w')) -> Meeting.id m = id ->
               InsertMeeting.transcriptUrl m = Some (File.path file))
    /\ map (fun m : Meeting.t => InsertMeeting.transcriptText m)
           (meetings (db w'))
       = map (fun m : Meeting.t => InsertMeeting.transcriptText m)
             (meetings (db w))
    /\ meetingSummaries (db w') = meetingSummaries (db w)
    /\ decisions (db w') = decisions (db w)
    /\ actionItems (db w') = actionItems (db w).
Proof.
  intros _ _ _ _.
  cbv zeta. unfold saveRecordingToDatabase, createRecording, tryCatch.
  destruct meetingId as [[|n]|].
  - cbn. eexists. split; [reflexivity|]. repeat split; discriminate.
  - unfold bind at 1. unfold bind at 1. rewrite getMeeting_run.
    destruct (find (fun m => Meeting.id m =? S n) (meetings (db w)))
      as [meeting|] eqn:H.
    + unfold bind at 1. rewrite updateMeeting_recording.
      cbn [bind ret fst snd]. eexists. split; [reflexivity|].
      cbn [db meetings setMeetings meetingSummaries decisions actionItems].
      split.
      * intros L. apply find_some in H. destruct H as [I E].
        assert (X : existsb (fun m => Meeting.id m =? S n) (meetings (db w))
                    = true) by (apply existsb_exists; eauto).
        rewrite X in L. discriminate.
      * split; [|split; [|repeat split]].
        -- intros _ id [= <-]. split; [reflexivity|].
           intros m I E. apply in_map_iff in I. destruct I as [m0 [<- I]].
           destruct (Meeting.id m0 =? S n) eqn:Q; [reflexivity|].
           apply Nat.eqb_neq in Q. now elim Q.
        -- rewrite map_map. apply map_ext. intros m.
           destruct (Meeting.id m =? S n); reflexivity.
    + cbn. eexists. split; [reflexivity|].
      rewrite (find_none_existsb _ _ H). repeat split; discriminate.
  - cbn. eexists. split; [reflexivity|]. repeat split; discriminate.
Qed.

End RecordingFacts.

Section DownloadFacts.

Lemma chars_append a b : chars (a ^ b) = chars a ++ chars b.
Proof. induction a as [|c a IH]; cbn; [reflexivity | now rewrite IH]. Qed.




End DownloadFacts.

Section FormFacts.

(** X26.
    The participant list of the meeting form stays tidy: adding the name
    typed never puts a name twice nor an empty name in the list (the name
    is trimmed first, and a blank or known name changes nothing), and
    removing a name keeps it so and leaves no occurrence of that name.
    Removing a name just added to a list that did not have it gives the
    list back. *)
Theorem form_participants_stay_tidy (s : FormState) :
  tidy (formParticipants s) ->
  tidy (formParticipants (addParticipant s))
  /\ (forall participant,
        tidy (formParticipants (removeParticipant participant s))
        /\ ~ In participant
               (formParticipants (removeParticipant participant s)))
  /\ (~ In (trim (participantInput s)) (formParticipants s) ->
      formParticipants
        (removeParticipant (trim (participantInput s)) (addParticipant s))
      = formParticipants s).
Proof.
  intros [N E]. split; [|split].
  - unfold addParticipant.
    destruct (truthy (trim (participantInput s))) eqn:T; cbn [andb];
      [|split; assumption].
    destruct (existsb (String.eqb (trim (participantInput s)))
                      (formParticipants s)) eqn:X; cbn [negb];
      [split; assumption|].
    cbn [formParticipants]. split.
    + apply NoDup_app; [exact N | repeat constructor; auto|].
      intros x I [<-|[]].
      assert (Y : existsb (String.eqb (trim (participantInput s)))
                          (formParticipants s) = true).
      { apply existsb_exists. exists (trim (participantInput s)).
        split; [exact I | apply String.eqb_refl]. }
      rewrite Y in X. discriminate.
    + intros I. apply in_app_or in I. destruct I as [I|[I|[]]]; [auto|].
      rewrite I in T. discriminate.
  - intros participant. cbn [removeParticipant formParticipants]. split.
    + split; [now apply NoDup_filter|].
      intros I. apply filter_In in I. now apply E.
    + intros I. apply filter_In in I. destruct I as [_ I].
      rewrite String.eqb_refl in I. discriminate.
  - intros Nin.
    assert (F : forall l, ~ In (trim (participantInput s)) l ->
      filter (fun p => negb (String.eqb p (trim (participantInput s)))) l = l).
    { induction l as [|p l IH]; intros NI; [reflexivity|].
      cbn [filter].
      destruct (String.eqb_spec p (trim (participantInput s))) as [->|D].
      - elim NI. now left.
      - cbn [negb]. f_equal. apply IH. intros I. apply NI. now right. }
    unfold addParticipant.
    destruct (truthy (trim (participantInput s))) eqn:T; cbn [andb];
      [|cbn; now apply F].
    destruct (existsb (String.eqb (trim (participantInput s)))
                      (formParticipants s)) eqn:X; cbn [negb];
      [cbn; now apply F|].
    cbn [removeParticipant formParticipants]. rewrite filter_app.
    rewrite (F _ Nin). cbn [filter]. rewrite String.eqb_refl. cbn [negb].
    apply app_nil_r.
Qed.

End FormFacts.

(** * Concrete runs *)

Lemma csv_normalization_witness :
  count LF (fst (Normalizer.formatNew sampleCsv)) = 3
  /\ snd (Normalizer.formatNew sampleCsv) = ["A"; "B"].
Proof.
  destruct (csv_normalization sampleCsv) as (_ & _ & _ & _ & _ & W & P).
  split.
  - apply W. vm_compute. repeat constructor.
  - rewrite P. vm_compute. reflexivity.
Defined.

(** C2 as first stated fails: a line with fewer than three fields is not
    passed through verbatim when it starts or ends with white space (it is
    trimmed), and not at all when it is blank. *)
Lemma csv_passthrough_not_verbatim :
  let line := " x" in
  Normalizer.body line = [line]
  /\ List.length (split "," line) < 3
  /\ fst (Normalizer.formatNew line) = ("x" ^ nl)%string
  /\ fst (Normalizer.formatNew line) <> (line ^ nl)%string
  /\ fst (Normalizer.formatNew ("a" ^ nl ^ nl ^ "b")%string)
     = ("a" ^ nl ^ "b" ^ nl)%string.
Proof. vm_compute. repeat split; try lia; discriminate. Qed.

Lemma failed_analysis_placeholder_witness :
  fst (@analyzeTranscript samplePlatform "We agreed to ship."
         {| Meeting.id := 1; Meeting.values := sampleMeeting |} sampleWorld)
  = Return (createPlaceholderSummary errorMessage).
Proof.
  apply (@failed_analysis_placeholder samplePlatform "We agreed to ship."
           {| Meeting.id := 1; Meeting.values := sampleMeeting |} sampleWorld).
  reflexivity.
Defined.

(** C7 as first stated fails: without a credential the client returns a
    placeholder whose list of transcript highlights is empty. *)
Lemma placeholder_without_highlights :
  analysisFails (platform := samplePlatform) noKeyWorld = true
  /\ exists s,
       fst (@analyzeTranscript samplePlatform "We agreed to ship."
              {| Meeting.id := 1; Meeting.values := sampleMeeting |}
              noKeyWorld)
       = Return s
       /\ List.length (SummaryData.transcriptHighlights s) = 0.
Proof. split; [reflexivity|]. eexists. split; reflexivity. Qed.

Lemma upload_changes_transcript_fields_only_witness :
  meetings
    (db (snd (@saveTranscriptToDatabase samplePlatform textFile 1 (Some 1)
                sampleWorld)))
  = [{| Meeting.id := 1;
        Meeting.values :=
          {| InsertMeeting.title := "Weekly sync";
             InsertMeeting.date := "2023-11-14";
             InsertMeeting.startTime := "10:00";
             InsertMeeting.endTime := "11:00";
             InsertMeeting.duration := "1 hour";
             InsertMeeting.participants := ["Jamie Lee"; "Sam"];
             InsertMeeting.location := "Room 1";
             InsertMeeting.transcriptUrl := Some "uploads/notes.txt";
             InsertMeeting.transcriptText := Some "We agreed to ship.";
             InsertMeeting.createdBy := 1;
             InsertMeeting.teamId := None;
             InsertMeeting.isPublic := Some false |} |}].
Proof.
  refine (eq_trans
    (proj1 (@upload_changes_transcript_fields_only samplePlatform textFile 1 1
              {| Meeting.id := 1; Meeting.values := sampleMeeting |}
              sampleWorld _ _)) _).
  - discriminate.
  - reflexivity.
  - reflexivity.
Defined.

Lemma plain_text_upload_is_not_analysed_witness :
  truthyOpt (OPENAI_API_KEY sampleWorld) = true
  /\ fs sampleWorld (File.path textFile) = Some "We agreed to ship."
  /\ analyses
       (snd (@saveTranscriptToDatabase samplePlatform textFile 1 None
               sampleWorld))
     = [].
Proof.
  split; [reflexivity | split; [reflexivity|]].
  apply (proj1 (@plain_text_upload_is_not_analysed samplePlatform textFile 1
                  "We agreed to ship." sampleWorld eq_refl eq_refl eq_refl)).
Defined.

Lemma failed_analysis_still_derives_witness :
  List.length
    (decisions
       (db (snd (@saveTranscriptToDatabase samplePlatform textFile 1 (Some 1)
                   sampleWorld))))
  = 1.
Proof.
  assert (N : 1 <> 0) by discriminate.
  destruct (@failed_analysis_still_derives samplePlatform textFile 1 1
              {| Meeting.id := 1; Meeting.values := sampleMeeting |}
              "We agreed to ship." sampleWorld N eq_refl eq_refl eq_refl
              eq_refl eq_refl) as (_ & _ & D & _).
  rewrite D. reflexivity.
Defined.

(** C8 as first stated fails: with a credential and a service whose call
    fails, the upload stores the placeholder and the derivation run
    against it stores one decision and one action item. *)
Lemma placeholder_pass_stores_entities :
  let out :=
    @saveTranscriptToDatabase samplePlatform textFile 1 (Some 1) sampleWorld in
  analysisFails (platform := samplePlatform) sampleWorld = true
  /\ map MeetingSummary.executiveSummary (meetingSummaries (db (snd out)))
     = [SummaryData.executiveSummary (createPlaceholderSummary errorMessage)]
  /\ map (fun d : Decision.t => InsertDecision.description d)
         (decisions (db (snd out)))
     = ["Configure OpenAI API key to enable AI features"]
  /\ map (fun a : ActionItem.t => InsertActionItem.task a)
         (actionItems (db (snd out)))
     = ["Add OpenAI API key to environment variables"].
Proof. vm_compute. repeat split. Qed.

Lemma one_summary_per_meeting_witness :
  List.length
    (summaryIdsOf 1
       (db (@serve samplePlatform
              [PostUploadTranscript (Some textFile) 1 (Some 1);
               PostAnalyzeTranscript (Some 1);
               PostMeetingSummary (Some manualSummary)]
              sampleWorld)))
  <= 1.
Proof.
  assert (I : SummaryInv (db sampleWorld)) by (repeat split; constructor).
  apply (proj1 (@one_summary_per_meeting samplePlatform sampleWorld
                  [PostUploadTranscript (Some textFile) 1 (Some 1);
                   PostAnalyzeTranscript (Some 1);
                   PostMeetingSummary (Some manualSummary)] I) 1).
Defined.

(** The three requests of the witness leave one summary, the one the
    upload created. *)
Example three_requests_one_summary :
  summaryIdsOf 1
    (db (@serve samplePlatform
           [PostUploadTranscript (Some textFile) 1 (Some 1);
            PostAnalyzeTranscript (Some 1);
            PostMeetingSummary (Some manualSummary)]
           sampleWorld))
  = [1].
Proof. vm_compute. reflexivity. Qed.

(** C1 as first stated fails for the analysis pass of an upload that
    creates its meeting: that pass does not look for a summary and does not
    take the update path.  After a summary has been moved to meeting 2 (the
    id the next meeting gets), the upload of a CSV file creates meeting 2,
    calls the client for it and goes straight to the insert, which the
    unique column rejects: a value of the sequence is drawn, the summary
    that refers to meeting 2 stays as it was, and no decision is derived. *)
Lemma new_meeting_pass_skips_the_check :
  let w :=
    @serve samplePlatform
      [PostMeetingSummary (Some manualSummary);
       PutMeetingSummary 1 (Some moveToMeeting2)] sampleWorld in
  let out := @saveTranscriptToDatabase samplePlatform csvFile 1 None w in
  map MeetingSummary.meetingId (meetingSummaries (db w)) = [2]
  /\ map (fun call => Meeting.id (snd call)) (analyses (snd out)) = [2]
  /\ meetingSummarySeq (db (snd out)) = S (meetingSummarySeq (db w))
  /\ map MeetingSummary.executiveSummary (meetingSummaries (db (snd out)))
     = ["Manual summary"]
  /\ decisions (db (snd out)) = []
  /\ option_map message
       (match fst out with Return r => Some r | Throw _ => None end)
     = Some "CSV transcript uploaded and new meeting created".
Proof. vm_compute. repeat split. Qed.

(** Two points, the first with a string insight that holds a keyword, the
    second with two explicit decisions: three decisions, in order. *)
Example explicit_decisions_of_second_point :
  map (fun d : Decision.t =>
         (InsertDecision.description d, InsertDecision.owner d,
          InsertDecision.context d))
      (decisions
         (db (snd (@deriveDecisions samplePlatform 1 ["Jamie Lee"; "Sam"]
                     twoPointData sampleWorld))))
  = [("Sam: we agreed to cut travel", "Sam", "Budget");
     ("Ship on Friday", "Sam", "Release");
     ("Freeze on Thursday", "Jamie Lee", "Release")].
Proof.
  destruct (@explicit_decisions_when_reached samplePlatform 1
              ["Jamie Lee"; "Sam"] twoPointData
              (storage.orElse (SummaryData.keyDiscussionPoints insightData) [])
              samplePoint [] _ _ sampleWorld eq_refl eq_refl eq_refl)
    as (later & D & L & _).
  rewrite D. destruct later as [|row later]; [reflexivity|].
  apply (f_equal (@List.length Decision.t)) in L. vm_compute in L.
  discriminate L.
Qed.

(** The second point of [stoppedData] has two explicit decisions; the pass
    throws at the object insight of the first point, and no decision is
    stored. *)
Lemma explicit_decisions_not_reached_witness :
  let out :=
    @deriveDecisions samplePlatform 1 ["Jamie Lee"; "Sam"] stoppedData
      sampleWorld in
  option_map (map (fun point =>
                     lengthOpt (DiscussionPoint.decisions point)))
             (SummaryData.keyDiscussionPoints stoppedData)
  = Some [0; 2]
  /\ fst out = Throw (TypeError "insight.match is not a function")
  /\ decisions (db (snd out)) = [].
Proof.
  destruct (@explicit_decisions_not_reached samplePlatform 1
              ["Jamie Lee"; "Sam"] stoppedData
              (storage.orElse (SummaryData.keyDiscussionPoints attributedData)
                              [])
              samplePoint [] _ _ (TypeError "insight.match is not a function")
              sampleWorld eq_refl eq_refl eq_refl)
    as (T & D & _).
  cbv zeta. split; [reflexivity|]. split; [exact T|].
  rewrite D. reflexivity.
Defined.

Lemma task_assignments_only_witness :
  map (fun a : ActionItem.t =>
         (InsertActionItem.task a, InsertActionItem.assignee a,
          InsertActionItem.deadline a, InsertActionItem.status a,
          InsertActionItem.priority a))
      (actionItems
         (db (snd (@deriveActionItems calendarPlatform 1 ["Jamie Lee"; "Sam"]
                     sampleData sampleWorld))))
  = [("Draft RFC", "Sam", "2023-11-21", "Pending", "Medium")]
  /\ @toISOString calendarPlatform (@clock calendarPlatform 0)
     = "2023-11-14T22:13:20.000Z".
Proof.
  destruct (@task_assignments_only calendarPlatform 1 ["Jamie Lee"; "Sam"]
              sampleData sampleFollowUp _ _ sampleWorld eq_refl eq_refl)
    as (_ & A & _).
  rewrite A. split; reflexivity.
Defined.

Lemma attributed_insight_aborts_witness :
  @deriveFromInsights samplePlatform 1 "Release" ["Jamie Lee"; "Sam"]
    [AttributedInsight (Some "We agreed to ship on Friday") None
       (Some "John Doe");
     PlainInsight "Sam: we agreed to freeze on Thursday"]
    sampleWorld
  = (Throw (TypeError "insight.match is not a function"), sampleWorld).
Proof.
  apply (@attributed_insight_aborts samplePlatform 1 "Release"
           ["Jamie Lee"; "Sam"] (Some "We agreed to ship on Friday") None
           (Some "John Doe")
           [PlainInsight "Sam: we agreed to freeze on Thursday"] sampleWorld);
    reflexivity.
Defined.

(** The spec's example for string insights: the participant named in the
    text owns the decision, and the team does when none is named. *)
Example participant_owner :
  plainOwner "Agreed with Jamie Lee to ship by Friday" ["Sam"; "Jamie Lee"]
  = "Jamie Lee"
  /\ plainOwner "Agreed to ship by Friday" ["Sam"; "Jamie Lee"] = "Team"
  /\ plainOwner "Sam: we agreed to ship" ["Jamie Lee"] = "Sam".
Proof. vm_compute. repeat split. Qed.

(** A reply with a speaker-attributed insight that holds a keyword: the
    summary is stored, then the derivation throws at the insight; the
    upload answers without the analysis notice, and neither a decision nor
    the action item of the task assignment is stored. *)
Example attributed_insight_aborts_the_pass :
  let out :=
    @saveTranscriptToDatabase attributedPlatform textFile 1 (Some 1)
      sampleWorld in
  fst out
  = Return
      {| success := true;
         message := "Transcript uploaded and linked to meeting";
         data := Some
           (@withTranscript textFile (Some "We agreed to ship.")
              {| Meeting.id := 1; Meeting.values := sampleMeeting |}) |}
  /\ map MeetingSummary.executiveSummary (meetingSummaries (db (snd out)))
     = ["Release planning"]
  /\ decisions (db (snd out)) = []
  /\ actionItems (db (snd out)) = [].
Proof. vm_compute. repeat split. Qed.

(** * Further concrete runs *)

Lemma derived_decisions_witness :
  map draftOf
      (decisions
         (db (snd (@deriveDecisions samplePlatform 1 ["Jamie Lee"; "Sam"]
                     insightData sampleWorld))))
  = [{| draftDescription := "Sam: we agreed to cut travel";
        draftOwner := "Sam";
        draftContext := "Budget" |}].
Proof.
  destruct (@derived_decisions samplePlatform 1 ["Jamie Lee"; "Sam"]
              insightData sampleWorld eq_refl) as (R & _).
  rewrite R. reflexivity.
Defined.

(** Two passes over [sampleData] store its two decisions twice. *)
Example two_passes_store_twice :
  let once :=
    @deriveDecisions samplePlatform 1 ["Jamie Lee"; "Sam"] sampleData
      sampleWorld in
  map (fun d : Decision.t => (Decision.id d, InsertDecision.description d))
      (decisions
         (db (snd (@deriveDecisions samplePlatform 1 ["Jamie Lee"; "Sam"]
                     sampleData (snd once)))))
  = [(1, "Ship on Friday"); (2, "Freeze on Thursday");
     (3, "Ship on Friday"); (4, "Freeze on Thursday")].
Proof. vm_compute. reflexivity. Qed.

Lemma resources_become_action_items_witness :
  map (fun a : ActionItem.t =>
         (InsertActionItem.task a, InsertActionItem.assignee a))
      (actionItems
         (db (snd (@deriveActionItems samplePlatform 1 ["Jamie Lee"; "Sam"]
                     insightData sampleWorld))))
  = [("Share resource: Budget sheet", "Bob");
     ("Share resource: Travel policy", "Bob")].
Proof.
  destruct (@resources_become_action_items samplePlatform 1
              ["Jamie Lee"; "Sam"] insightData insightFollowUp
              ["Budget sheet"; "Travel policy"] sampleWorld
              eq_refl eq_refl eq_refl) as (R & _).
  rewrite R. reflexivity.
Defined.

Lemma analysed_upload_stores_entities_witness :
  let out :=
    @saveTranscriptToDatabase answeringPlatform textFile 1 (Some 1)
      sampleWorld in
  map (fun d : Decision.t => InsertDecision.description d)
      (decisions (db (snd out)))
  = ["Ship on Friday"; "Freeze on Thursday"]
  /\ map (fun a : ActionItem.t => InsertActionItem.task a)
         (actionItems (db (snd out)))
     = ["Draft RFC"].
Proof.
  assert (N : 1 <> 0) by discriminate.
  destruct (@analysed_upload_stores_entities answeringPlatform textFile 1 1
              {| Meeting.id := 1; Meeting.values := sampleMeeting |}
              sampleData [samplePoint] sampleFollowUp sampleWorld
              N eq_refl eq_refl eq_refl eq_refl eq_refl eq_refl eq_refl)
    as (_ & D & A & _).
  cbv zeta. rewrite D, A. split; reflexivity.
Defined.

Lemma attributed_insight_loses_entities_witness :
  let out :=
    @saveTranscriptToDatabase attributedPlatform textFile 1 (Some 1)
      sampleWorld in
  decisions (db (snd out)) = [] /\ actionItems (db (snd out)) = [].
Proof.
  assert (N : 1 <> 0) by discriminate.
  destruct (@attributed_insight_loses_entities attributedPlatform textFile 1 1
              {| Meeting.id := 1; Meeting.values := sampleMeeting |}
              attributedData _ [] (Some "We agreed to ship on Friday") None
              (Some "John Doe") [] sampleWorld
              N eq_refl eq_refl eq_refl eq_refl eq_refl eq_refl eq_refl
              eq_refl eq_refl)
    as (_ & D & A).
  cbv zeta. rewrite D, A. split; reflexivity.
Defined.

Lemma existing_upload_trigger_witness :
  map fst
      (analyses
         (snd (@saveTranscriptToDatabase samplePlatform textFile 1 (Some 1)
                 sampleWorld)))
  = ["We agreed to ship."].
Proof.
  assert (N : 1 <> 0) by discriminate.
  destruct (@existing_upload_trigger samplePlatform textFile 1 1
              {| Meeting.id := 1; Meeting.values := sampleMeeting |}
              sampleWorld N eq_refl) as (A & _).
  rewrite A. reflexivity.
Defined.

Lemma csv_upload_creates_meeting_witness :
  exists meeting,
    meetings
      (db (snd (@saveTranscriptToDatabase samplePlatform csvFile 7 None
                  sampleWorld)))
    = meetings (db sampleWorld) ++ [meeting]
    /\ Meeting.id meeting = 2
    /\ InsertMeeting.participants meeting = ["A"]
    /\ InsertMeeting.createdBy meeting = 7.
Proof.
  destruct (@csv_upload_creates_meeting samplePlatform csvFile 7
              ("timestamp,speaker,text" ^ nl ^ "00:01,A,hello")%string
              sampleWorld eq_refl eq_refl eq_refl)
    as (meeting & M & I & _ & _ & P & _ & _ & _ & _ & C & _).
  exists meeting. split; [exact M|]. split; [exact I|].
  split; [exact P | exact C].
Defined.

Lemma analysis_without_credential_overwrites_witness :
  map MeetingSummary.executiveSummary (meetingSummaries (db handWrittenWorld))
  = ["Manual summary"]
  /\ exists summary,
       find (fun s => MeetingSummary.meetingId s =? 1)
            (meetingSummaries
               (db (snd (@postAnalyzeTranscript samplePlatform (Some 1)
                           handWrittenWorld))))
       = Some summary
       /\ MeetingSummary.executiveSummary summary
          = "Failed to generate summary. Please provide an OpenAI API key to enable this feature.".
Proof.
  split; [reflexivity|].
  assert (N : 1 <> 0) by discriminate.
  evar (meeting : Meeting.t). evar (existing : MeetingSummary.t).
  assert (M : find (fun m => Meeting.id m =? 1) (meetings (db handWrittenWorld))
              = Some meeting) by (vm_compute; reflexivity).
  assert (E : find (fun s => MeetingSummary.meetingId s =? Meeting.id meeting)
                   (meetingSummaries (db handWrittenWorld))
              = Some existing) by (vm_compute; reflexivity).
  destruct (@analysis_without_credential_overwrites samplePlatform 1 meeting
              existing handWrittenWorld N M eq_refl E eq_refl)
    as (_ & _ & _ & summary & F & _ & H & _).
  exists summary. split; [exact F | exact H].
Defined.

Lemma primary_keys_stay_unique_witness :
  NoDup
    (map Meeting.id
       (meetings
          (db (@serve samplePlatform
                 [PostUploadTranscript (Some csvFile) 1 None;
                  DeleteMeeting 1;
                  PostUploadTranscript (Some textFile) 1 None]
                 sampleWorld)))).
Proof.
  assert (K : KeysInv (db sampleWorld)).
  { unfold KeysInv, keysOk. cbn.
    repeat split; repeat constructor; auto. }
  destruct (@primary_keys_stay_unique samplePlatform sampleWorld
              [PostUploadTranscript (Some csvFile) 1 None;
               DeleteMeeting 1;
               PostUploadTranscript (Some textFile) 1 None] K)
    as (((U & _) & _) & _).
  exact U.
Defined.

(** The meeting deleted in the run of the witness had identity 1; the
    uploads made meetings 2 and 3. *)
Example identities_are_not_given_twice :
  map Meeting.id
    (meetings
       (db (@serve samplePlatform
              [PostUploadTranscript (Some csvFile) 1 None;
               DeleteMeeting 1;
               PostUploadTranscript (Some textFile) 1 None]
              sampleWorld)))
  = [2; 3].
Proof. vm_compute. reflexivity. Qed.

Lemma created_meeting_is_listed_first_witness :
  exists w',
    snd (postMeeting (Some sampleMeeting) sampleWorld) = w'
    /\ option_map (map Meeting.id)
         (match fst (getMeetingsRoute w') with
          | Return (Listed rows) => Some rows
          | _ => None
          end)
       = Some [2; 1].
Proof.
  assert (K : keysOk Meeting.id (meetings (db sampleWorld))
                (meetingSeq (db sampleWorld))).
  { split; cbn; repeat constructor; auto. }
  destruct (@created_meeting_is_listed_first sampleMeeting sampleWorld K) as (w' & P & _ & L & _).
  exists w'. split; [now rewrite P|].
  rewrite (L _ eq_refl). reflexivity.
Defined.

Lemma analysed_csv_upload_stores_entities_witness :
  map (fun d : Decision.t => InsertDecision.description d)
      (decisions
         (db (snd (@saveTranscriptToDatabase answeringPlatform csvFile 1 None
                     sampleWorld))))
  = ["Ship on Friday"; "Freeze on Thursday"].
Proof.
  destruct (@analysed_csv_upload_stores_entities answeringPlatform csvFile 1
              ("timestamp,speaker,text" ^ nl ^ "00:01,A,hello")%string
              sampleData [samplePoint] sampleFollowUp sampleWorld
              eq_refl eq_refl eq_refl eq_refl eq_refl eq_refl eq_refl eq_refl
              eq_refl eq_refl)
    as (meeting & rows & w1 & summary & _ & _ & _ & _ & D & Dr & _).
  rewrite D. cbn [sampleWorld db decisions setMeetings emptyStore app].
  replace (map (fun d : Decision.t => InsertDecision.description d) rows)
    with (map draftDescription (map draftOf rows))
    by (rewrite map_map; reflexivity).
  rewrite Dr. reflexivity.
Defined.

Lemma deleted_summary_can_be_recreated_witness :
  let deleted := @deleteMeetingSummaryRoute 1 handWrittenWorld in
  meetingSummaries (db (snd deleted)) = []
  /\ option_map status
       (match fst (postMeetingSummary (Some manualSummary) (snd deleted)) with
        | Return r => Some r
        | Throw _ => None
        end)
     = Some 201.
Proof.
  split; [reflexivity|].
  assert (I : SummaryInv (db handWrittenWorld)).
  { unfold SummaryInv. vm_compute.
    repeat split; repeat constructor; auto. }
  evar (meeting : Meeting.t). evar (existing : MeetingSummary.t).
  assert (M : find (fun m => Meeting.id m
                             =? InsertMeetingSummary.meetingId manualSummary)
                   (meetings (db handWrittenWorld))
              = Some meeting) by (vm_compute; reflexivity).
  assert (E : find (fun s => MeetingSummary.meetingId s
                             =? InsertMeetingSummary.meetingId manualSummary)
                   (meetingSummaries (db handWrittenWorld))
              = Some existing) by (vm_compute; reflexivity).
  exact (proj2 (proj2 (proj2
    (@deleted_summary_can_be_recreated manualSummary meeting existing
       handWrittenWorld I eq_refl M E)))).
Defined.

Lemma form_participants_stay_tidy_witness :
  formParticipants
    (addParticipant {| formParticipants := ["Ann"];
                       participantInput := "  Bob " |})
  = ["Ann"; "Bob"]
  /\ tidy (formParticipants
             (addParticipant {| formParticipants := ["Ann"];
                                participantInput := "  Bob " |})).
Proof.
  split; [reflexivity|].
  assert (T : tidy ["Ann"]).
  { split; [repeat constructor; intros []|intros [H|[]]; discriminate]. }
  exact (proj1 (@form_participants_stay_tidy
                  {| formParticipants := ["Ann"];
                     participantInput := "  Bob " |} T)).
Defined.

(** The examples of the filters and of the download name. *)
Example download_name_example :
  downloadName "Weekly Sync #3: Q&A" = "weekly_sync__3__q_a_summary.docx".
Proof. reflexivity. Qed.

Lemma analyze_endpoint_status_witness :
  exists response,
    fst (@postAnalyzeTranscript samplePlatform (Some 1) handWrittenWorld)
    = Return response
    /\ status response = 200.
Proof.
  destruct (@analyze_endpoint_status samplePlatform (Some 1) handWrittenWorld)
    as (response & w' & E & S & _).
  - intros n [= <-]. unfold inInt4. cbn. lia.
  - unfold inInt4. vm_compute. discriminate.
  - exists response. rewrite E. split; [reflexivity|].
    rewrite S. vm_compute. reflexivity.
Defined.

Lemma deleting_meeting_keeps_dependents_witness :
  let out := deleteMeetingRoute 1 handWrittenWorld in
  meetings (db (snd out)) = []
  /\ map MeetingSummary.meetingId (meetingSummaries (db (snd out))) = [1].
Proof.
  assert (R : inInt4 1) by (unfold inInt4; cbn; lia).
  destruct (@deleting_meeting_keeps_dependents 1 handWrittenWorld R)
    as (_ & M & _ & S & _).
  cbv zeta. rewrite M, S. split; vm_compute; reflexivity.
Defined.

(** A file declared as PDF passes the filter and is not read, unless its
    name ends in .csv: then it passes and is read. *)
Example pdf_named_csv_is_read :
  @fileFilter samplePlatform pdfFile = true
  /\ @isReadable samplePlatform pdfFile = false
  /\ @fileFilter samplePlatform pdfNamedCsv = true
  /\ @isReadable samplePlatform pdfNamedCsv = true.
Proof. vm_compute. repeat split. Qed.

Lemma recording_takes_transcript_url_witness :
  exists w',
    snd (saveRecordingToDatabase recordingFile 2048 1 (Some 1)
           {| recordings := []; recordingSeq := 0 |} handWrittenWorld) = w'
    /\ map (fun m : Meeting.t => InsertMeeting.transcriptUrl m)
           (meetings (db w'))
       = [Some "uploads/sync.mp3"]
    /\ map (fun m : Meeting.t => InsertMeeting.transcriptUrl m)
           (meetings (db handWrittenWorld))
       = [Some "uploads/notes.txt"].
Proof.
  assert (R : forall n, (n <= 2048)%nat -> inInt4 n)
    by (intros n L; unfold inInt4; lia).
  destruct (@recording_takes_transcript_url recordingFile 2048 1 (Some 1)
              {| recordings := []; recordingSeq := 0 |} handWrittenWorld)
    as (w' & E & _ & L & _).
  - apply R; lia.
  - apply R; lia.
  - intros id [= <-]. apply R; lia.
  - apply R; cbn; lia.
  - exists w'. rewrite E. split; [reflexivity|].
    destruct (L eq_refl 1 eq_refl) as [M _]. rewrite M.
    split; vm_compute; reflexivity.
Defined.
